(** * US-Accidents preprocessing pipeline: a shallow embedding

    The development follows [scripts/preprocess_data.py]: the loader
    ([load_raw_data]), the transformer and aggregator ([preprocess_data])
    and the writer ([save_processed_data]), chained by [main].

    Modelling conventions.
    - Text is a [string] of 8-bit characters; [str.lower] acts on the
      letters A-Z and leaves every other character alone.
    - A missing value (NaN, NaT, None) is [None] in a column.
    - float64 values are idealised as exact rationals in lowest terms
      ([Qc]), so that equality of numbers is plain equality.
    - A pandas DataFrame is an ordered list of named, typed columns
      together with the length of its index.
    - Exceptions are values of [error]; a computation that can raise
      returns a [result].
    - A CSV file is its size and the table [pd.read_csv] reads from it;
      a file written by [to_csv] is the table written.
    - Two library behaviours are parameters of the pipeline: how
      [pd.to_datetime] reads one value as a time, and which positions
      the generator seeded by [random_state] draws for [sample].
    - Logging has no effect on the data and is left out. *)

From Stdlib Require Import Ascii String QArith Qcanon Lqa.
From stdpp Require Import base option list sorting numbers strings gmap.

Open Scope string_scope.
Open Scope list_scope.
Open Scope nat_scope.

(** ** Exceptions *)

Inductive error : Type :=
| FileNotFoundError (msg : string)
| ParserError
| KeyError (key : string)
| ValueError (msg : string)
| TypeError (msg : string)
| AttributeError (msg : string)
| IndexError.

Inductive result (A : Type) : Type :=
| Ok (a : A)
| Raise (e : error).
Arguments Ok {A} a.
Arguments Raise {A} e.

#[global] Instance result_ret : MRet result := fun A a => Ok a.

#[global] Instance result_bind : MBind result := fun A B k m =>
  match m with
  | Ok a => k a
  | Raise e => Raise e
  end.

(** [for_each f l]: apply [f] to the elements from left to right and
    stop at the first exception, as a Python loop or [Series.apply]
    does. *)
Fixpoint for_each {A B : Type} (f : A → result B) (l : list A) : result (list B) :=
  match l with
  | [] => Ok []
  | x :: l' => y ← f x; ys ← for_each f l'; Ok (y :: ys)
  end.

(** A loop that updates one variable. *)
Fixpoint for_fold {A S : Type} (f : S → A → result S) (l : list A) (s : S) : result S :=
  match l with
  | [] => Ok s
  | x :: l' => s' ← f s x; for_fold f l' s'
  end.

(** ** Python strings *)

Module Str.

(** [c.lower()] for one character. *)
Definition lower_char (c : ascii) : ascii :=
  let n := N_of_ascii c in
  if ((65 <=? n) && (n <=? 90))%N then ascii_of_N (n + 32) else c.

(** [s.lower()]. *)
Fixpoint lower (s : string) : string :=
  match s with
  | EmptyString => EmptyString
  | String c s' => String (lower_char c) (lower s')
  end.

(** [s.startswith(t)]. *)
Fixpoint startswith (t s : string) : bool :=
  match t, s with
  | EmptyString, _ => true
  | String a t', String b s' => if decide (a = b) then startswith t' s' else false
  | String _ _, EmptyString => false
  end.

(** [t in s] for two strings: [t] starts at some position of [s]. *)
Fixpoint contains (t s : string) : bool :=
  startswith t s ||
  match s with
  | EmptyString => false
  | String _ s' => contains t s'
  end.

(** What "occurs as a substring" means. *)
Definition occurs (t s : string) : Prop :=
  ∃ pre post : string, s = pre +:+ t +:+ post.

End Str.

(** ** The weather keyword table and [map_weather] *)

(** A value handed to a function applied element-wise to a column. *)
Inductive cell : Type :=
| CNaN
| CInt (z : Z)
| CFloat (q : Qc)
| CStr (s : string)
| CTime (ns : Z).

#[global] Instance cell_eq_dec : EqDecision cell.
Proof. solve_decision. Defined.

#[global] Instance cell_inhabited : Inhabited cell := populate CNaN.

(** The dict literal [weather_mapping]; a dict iterates in insertion
    order. *)
Definition weather_mapping : list (string * list string) :=
  [ ("clear", ["clear"; "fair"; "sunny"]);
    ("cloudy", ["cloudy"; "overcast"; "partly cloudy"]);
    ("rain", ["rain"; "drizzle"; "shower"]);
    ("snow", ["snow"; "sleet"; "ice"; "freezing"]);
    ("fog", ["fog"; "haze"; "smoke"]);
    ("thunderstorm", ["thunderstorm"; "storm"]);
    ("windy", ["windy"; "breezy"]) ].

(** [any(term in condition for term in terms)]. *)
Definition any_term_in (terms : list string) (condition : string) : bool :=
  existsb (fun term => Str.contains term condition) terms.

(** The [for category, terms in weather_mapping.items()] loop with its
    fall-through [return 'other']. *)
Fixpoint scan_categories (items : list (string * list string))
    (condition : string) : string :=
  match items with
  | [] => "other"
  | (category, terms) :: rest =>
      if any_term_in terms condition then category
      else scan_categories rest condition
  end.

Definition map_weather (condition : cell) : result string :=
  match condition with
  | CNaN => Ok "unknown"
  | CStr s => Ok (scan_categories weather_mapping (Str.lower s))
  | CInt _ => Raise (AttributeError "'int' object has no attribute 'lower'")
  | CFloat _ => Raise (AttributeError "'float' object has no attribute 'lower'")
  | CTime _ => Raise (AttributeError "'Timestamp' object has no attribute 'lower'")
  end.

(** What the mapping is meant to compute, in words: some keyword of a
    category occurs in the text, and the category of a text is the first
    one in table order with such a keyword, or "other". *)
Definition keyword_occurs (terms : list string) (text : string) : Prop :=
  ∃ term, term ∈ terms ∧ Str.occurs term text.

Inductive first_match (text : string) : list (string * list string) → string → Prop :=
| first_match_here category terms rest :
    keyword_occurs terms text →
    first_match text ((category, terms) :: rest) category
| first_match_later category terms rest c :
    ¬ keyword_occurs terms text →
    first_match text rest c →
    first_match text ((category, terms) :: rest) c
| first_match_none : first_match text [] "other".

(** ** Numbers: medians and means *)

Definition Z2Qc (z : Z) : Qc := Q2Qc (inject_Z z).

(** The values of a float64 column that are not NaN ([skipna=True]). *)
Definition dropna {A : Type} (xs : list (option A)) : list A := omap id xs.

(** [Series.median()]: NaN for no value, the middle value of the sorted
    values for an odd count, the mean of the two middle values for an
    even count. *)
Definition median (xs : list (option Qc)) : option Qc :=
  let vs := merge_sort Qcle (dropna xs) in
  let n := length vs in
  if decide (n = 0) then None
  else if Nat.odd n then vs !! (n / 2)
  else a ← vs !! (n / 2 - 1); b ← vs !! (n / 2); Some ((a + b) / Z2Qc 2)%Qc.

(** [Series.mean()]: NaN for no value. *)
Definition mean (xs : list (option Qc)) : option Qc :=
  let vs := dropna xs in
  if decide (vs = []) then None
  else Some (foldr Qcplus 0%Qc vs / Z2Qc (Z.of_nat (length vs)))%Qc.

(** [Series.fillna(value)]; filling with NaN changes nothing. *)
Definition fillna (xs : list (option Qc)) (value : option Qc) : list (option Qc) :=
  match value with
  | Some m => (fun x => Some (default m x)) <$> xs
  | None => xs
  end.

(** ** Timestamps: nanoseconds since 1970-01-01 00:00:00 *)

Module Timestamp.

#[local] Open Scope Z_scope.

Definition ns_per_second : Z := 1000000000.
Definition ns_per_hour : Z := 3600 * ns_per_second.
Definition ns_per_day : Z := 24 * ns_per_hour.

Definition days (ns : Z) : Z := ns `div` ns_per_day.

(** Proleptic Gregorian date of a day number (day 0 is 1970-01-01). *)
Definition civil (d : Z) : Z * Z * Z :=
  let z := d + 719468 in
  let era := z `div` 146097 in
  let doe := z - era * 146097 in
  let yoe := (doe - doe `div` 1460 + doe `div` 36524 - doe `div` 146096) `div` 365 in
  let doy := doe - (365 * yoe + yoe `div` 4 - yoe `div` 100) in
  let mp := (5 * doy + 2) `div` 153 in
  let day := doy - (153 * mp + 2) `div` 5 + 1 in
  let month := if decide (mp < 10) then mp + 3 else mp - 9 in
  let year := yoe + era * 400 + (if decide (month ≤ 2) then 1 else 0) in
  (year, month, day).

Definition year (ns : Z) : Z := (civil (days ns)).1.1.
Definition month (ns : Z) : Z := (civil (days ns)).1.2.
Definition day (ns : Z) : Z := (civil (days ns)).2.
Definition hour (ns : Z) : Z := (ns `mod` ns_per_day) `div` ns_per_hour.

(** Monday is 0 and Sunday is 6; 1970-01-01 was a Thursday. *)
Definition dayofweek (ns : Z) : Z := (days ns + 3) `mod` 7.

End Timestamp.

(** ** Columns and data frames *)

Inductive column : Type :=
| Float64 (xs : list (option Qc))
| Int64 (xs : list Z)
| Object (xs : list (option string))
| Datetime (xs : list (option Z)).

Definition cells (c : column) : list cell :=
  match c with
  | Float64 xs => from_option CFloat CNaN <$> xs
  | Int64 xs => CInt <$> xs
  | Object xs => from_option CStr CNaN <$> xs
  | Datetime xs => from_option CTime CNaN <$> xs
  end.

Definition col_len (c : column) : nat := length (cells c).

(** A frame: the length of its index and its columns in order. *)
Record DataFrame : Type := mkDF {
  nrows : nat;
  columns : list (string * column)
}.

(** [pd.DataFrame()]. *)
Definition empty_frame : DataFrame := mkDF 0 [].

(** [df.empty]: one of the two axes has length 0. *)
Definition df_empty (df : DataFrame) : bool :=
  bool_decide (nrows df = 0) || bool_decide (columns df = []).

(** Every column is as long as the index. *)
Definition well_formed (df : DataFrame) : bool :=
  forallb (fun nc => bool_decide (col_len nc.2 = nrows df)) (columns df).

Fixpoint assoc (name : string) (cols : list (string * column)) : option column :=
  match cols with
  | [] => None
  | (n, c) :: rest => if decide (n = name) then Some c else assoc name rest
  end.

(** [df[name] = c] on a list of columns: replace in place, or append. *)
Fixpoint assoc_set (name : string) (c : column) (cols : list (string * column))
    : list (string * column) :=
  match cols with
  | [] => [(name, c)]
  | (n, c') :: rest =>
      if decide (n = name) then (name, c) :: rest
      else (n, c') :: assoc_set name c rest
  end.

(** [name in df.columns]. *)
Definition has_col (df : DataFrame) (name : string) : bool :=
  bool_decide (is_Some (assoc name (columns df))).

(** [df[name]]. *)
Definition get_col (df : DataFrame) (name : string) : result column :=
  match assoc name (columns df) with
  | Some c => Ok c
  | None => Raise (KeyError name)
  end.

(** [df[name] = c]. *)
Definition set_col (df : DataFrame) (name : string) (c : column) : DataFrame :=
  mkDF (nrows df) (assoc_set name c (columns df)).

(** Positional selection of rows; a position outside the index raises. *)
Definition take_list {A : Type} (idxs : list nat) (xs : list A) : result (list A) :=
  for_each (fun i => match xs !! i with Some x => Ok x | None => Raise IndexError end) idxs.

Definition take_col (idxs : list nat) (c : column) : result column :=
  match c with
  | Float64 xs => ys ← take_list idxs xs; Ok (Float64 ys)
  | Int64 xs => ys ← take_list idxs xs; Ok (Int64 ys)
  | Object xs => ys ← take_list idxs xs; Ok (Object ys)
  | Datetime xs => ys ← take_list idxs xs; Ok (Datetime ys)
  end.

Definition take (idxs : list nat) (df : DataFrame) : result DataFrame :=
  if forallb (fun i => bool_decide (i < nrows df)) idxs then
    cols ← for_each (fun nc => c ← take_col idxs nc.2; Ok (nc.1, c)) (columns df);
    Ok (mkDF (length idxs) cols)
  else Raise IndexError.

(** [df.head(n)]. *)
Definition head_col (n : nat) (c : column) : column :=
  match c with
  | Float64 xs => Float64 (firstn n xs)
  | Int64 xs => Int64 (firstn n xs)
  | Object xs => Object (firstn n xs)
  | Datetime xs => Datetime (firstn n xs)
  end.

Definition head (n : nat) (df : DataFrame) : DataFrame :=
  mkDF (n `min` nrows df) (prod_map id (head_col n) <$> columns df).


(** ** Grouping *)

(** The order in which group keys and sorted values come out: numbers by
    value, text by character code, timestamps by time; a missing value
    is below everything, so that it comes last in a descending sort. *)
Definition cell_rank (c : cell) : nat :=
  match c with
  | CNaN => 0 | CInt _ => 1 | CFloat _ => 2 | CStr _ => 3 | CTime _ => 4
  end.

Definition cell_le (a b : cell) : Prop :=
  match a, b with
  | CInt x, CInt y => (x ≤ y)%Z
  | CFloat x, CFloat y => (x ≤ y)%Qc
  | CStr x, CStr y => String.le x y
  | CTime x, CTime y => (x ≤ y)%Z
  | _, _ => (cell_rank a ≤ cell_rank b)%nat
  end.

#[global] Instance cell_le_dec : RelDecision cell_le.
Proof. intros [] []; simpl; apply _. Defined.

(** Tuples of key values, compared position by position. *)
Fixpoint key_le (k1 k2 : list cell) : Prop :=
  match k1, k2 with
  | [], _ => True
  | _ :: _, [] => False
  | a :: k1', b :: k2' => if decide (a = b) then key_le k1' k2' else cell_le a b
  end.

#[global] Instance key_le_dec : RelDecision key_le.
Proof.
  intros k1. induction k1 as [|a k1 IH]; intros [|b k2]; simpl; try apply _.
  destruct (decide (a = b)); [apply IH | apply _].
Defined.

(** The key of every row: one value per key column. *)
Definition key_rows (kcols : list column) (n : nat) : list (list cell) :=
  foldr (fun c acc => zip_with cons (cells c) acc) (replicate n []) kcols.

(** A row whose key has a missing value belongs to no group
    ([dropna=True]). *)
Definition notna (k : list cell) : Prop := CNaN ∉ k.

(** The groups: the distinct keys without missing value, in ascending
    order ([sort=True]). *)
Definition group_keys (rows : list (list cell)) : list (list cell) :=
  merge_sort key_le (remove_dups (filter notna rows)).

Definition cell_float (c : cell) : option Qc :=
  match c with CFloat q => Some q | CInt z => Some (Z2Qc z) | _ => None end.
Definition cell_int (c : cell) : Z :=
  match c with CInt z => z | _ => 0%Z end.
Definition cell_str (c : cell) : option string :=
  match c with CStr s => Some s | _ => None end.
Definition cell_time (c : cell) : option Z :=
  match c with CTime t => Some t | _ => None end.

(** A column of the kind of [like] holding the values [vals]. *)
Definition of_cells (like : column) (vals : list cell) : column :=
  match like with
  | Float64 _ => Float64 (cell_float <$> vals)
  | Int64 _ => Int64 (cell_int <$> vals)
  | Object _ => Object (cell_str <$> vals)
  | Datetime _ => Datetime (cell_time <$> vals)
  end.

(** The key columns of a grouped result after [reset_index]. *)
Fixpoint key_columns (names : list string) (kcols : list column)
    (keys : list (list cell)) : list (string * column) :=
  match names, kcols with
  | n :: names', c :: kcols' =>
      (n, of_cells c ((fun k => default CNaN (hd_error k)) <$> keys))
      :: key_columns names' kcols' (tail <$> keys)
  | _, _ => []
  end.

(** Numeric view of a column for [mean] and [median]. Text raises.
    Timestamp columns are not handled: [read_csv] yields none, and the
    columns aggregated here are never the converted time columns. *)
Definition numeric (c : column) : result (list (option Qc)) :=
  match c with
  | Float64 xs => Ok xs
  | Int64 zs => Ok ((fun z => Some (Z2Qc z)) <$> zs)
  | Object _ => Raise (TypeError "could not convert string to float")
  | Datetime _ => Raise (TypeError "datetime64 column used as a number")
  end.

(** [df.groupby(names).size().reset_index(name=out)]. *)
Definition groupby_size (names : list string) (out : string) (df : DataFrame)
    : result DataFrame :=
  kcols ← for_each (get_col df) names;
  let rows := key_rows kcols (nrows df) in
  let keys := group_keys rows in
  let sizes := (fun k => Z.of_nat (length (filter (k =.) rows))) <$> keys in
  Ok (mkDF (length keys) (key_columns names kcols keys ++ [(out, Int64 sizes)])).

(** [df.groupby(name)[val].mean().reset_index(name=out)]. *)
Definition groupby_mean (name val out : string) (df : DataFrame) : result DataFrame :=
  kc ← get_col df name;
  vc ← get_col df val;
  vs ← numeric vc;
  let rows := key_rows [kc] (nrows df) in
  let keys := group_keys rows in
  let means :=
    (fun k => mean ((filter (fun rv => rv.1 = k) (zip rows vs)).*2)) <$> keys in
  Ok (mkDF (length keys) (key_columns [name] [kc] keys ++ [(out, Float64 means)])).

(** [df.groupby(key).agg({cnt: 'count', val: 'mean'}).reset_index()]
    followed by the renaming of the three columns. *)
Definition groupby_count_mean (key cnt val : string) (names : string * string * string)
    (df : DataFrame) : result DataFrame :=
  kc ← get_col df key;
  cc ← get_col df cnt;
  vc ← get_col df val;
  vs ← numeric vc;
  let rows := key_rows [kc] (nrows df) in
  let keys := group_keys rows in
  let counts :=
    (fun k => Z.of_nat (length (filter (fun rc => rc.1 = k ∧ rc.2 ≠ CNaN)
                                       (zip rows (cells cc))))) <$> keys in
  let means :=
    (fun k => mean ((filter (fun rv => rv.1 = k) (zip rows vs)).*2)) <$> keys in
  Ok (mkDF (length keys)
        [ (names.1.1, of_cells kc ((fun k => default CNaN (hd_error k)) <$> keys));
          (names.1.2, Int64 counts);
          (names.2, Float64 means) ]).

(** [pd.merge(left, right, on=key)]: an inner join that keeps the order
    of the left rows. The two frames share no column but the key here, so
    no suffix is added. *)
Definition merge (key : string) (left right : DataFrame) : result DataFrame :=
  kl ← get_col left key;
  kr ← get_col right key;
  let pairs :=
    i ← seq 0 (nrows left);
    j ← filter (fun j => cells kr !! j = cells kl !! i) (seq 0 (nrows right));
    [(i, j)] in
  l ← take pairs.*1 left;
  r ← take pairs.*2 right;
  Ok (mkDF (length pairs)
        (columns l ++ filter (fun nc => nc.1 ≠ key) (columns r))).

(** Row [i] goes before row [j] in a descending sort by the values
    [ks]. *)
Definition desc_by (ks : list cell) (i j : nat) : Prop :=
  cell_le (ks !!! j) (ks !!! i).

#[global] Instance desc_by_dec ks : RelDecision (desc_by ks).
Proof. intros i j. unfold desc_by. apply _. Defined.

(** [df.sort_values(by, ascending=False)]. Rows with equal values keep
    their order here; pandas leaves their order to its sorting routine. *)
Definition sort_values_desc (by_ : string) (df : DataFrame) : result DataFrame :=
  c ← get_col df by_;
  let order := merge_sort (desc_by (cells c)) (seq 0 (nrows df)) in
  take order df.

(** ** The result of [preprocess_data] *)

Record datasets : Type := mkDatasets {
  main_data : DataFrame;
  state_data : DataFrame;
  time_data : DataFrame;
  hour_data : DataFrame;
  weekday_data : DataFrame;
  weather_data : DataFrame;
  city_data : DataFrame
}.

(** [datasets.items()]. *)
Definition items (ds : datasets) : list (string * DataFrame) :=
  [ ("main_data", main_data ds); ("state_data", state_data ds);
    ("time_data", time_data ds); ("hour_data", hour_data ds);
    ("weekday_data", weekday_data ds); ("weather_data", weather_data ds);
    ("city_data", city_data ds) ].

(** ** The transformer's element-wise functions *)

(** [lambda x: 1 if x >= 5 else 0]; a comparison with NaN is false. *)
Definition weekend_flag (x : cell) : result Z :=
  match x with
  | CInt z => Ok (if decide (5 ≤ z)%Z then 1 else 0)%Z
  | CFloat q => Ok (if decide (Z2Qc 5 ≤ q)%Qc then 1 else 0)%Z
  | CNaN => Ok 0%Z
  | CStr _ => Raise (TypeError "'>=' not supported between 'str' and 'int'")
  | CTime _ => Raise (TypeError "'>=' not supported between 'Timestamp' and 'int'")
  end.

(** The dict handed to [weekday_data['DayOfWeek'].map]; a float key
    equal to an integer finds the integer's entry. *)
Definition day_names : list (Z * string) :=
  [ (0, "Monday"); (1, "Tuesday"); (2, "Wednesday"); (3, "Thursday");
    (4, "Friday"); (5, "Saturday"); (6, "Sunday") ]%Z.

Definition day_name (x : cell) : option string :=
  match x with
  | CInt z => (fun r => r.2.2) <$> list_find (fun e => e.1 = z) day_names
  | CFloat q => (fun r => r.2.2) <$> list_find (fun e => Z2Qc e.1 = q) day_names
  | _ => None
  end.

(** [Series.apply] with a function that returns integers, or text. *)
Definition apply_int (f : cell → result Z) (c : column) : result column :=
  zs ← for_each f (cells c); Ok (Int64 zs).

Definition apply_str (f : cell → result string) (c : column) : result column :=
  ss ← for_each f (cells c); Ok (Object (Some <$> ss)).

(** [Series.dt.<field>]: integers, or floats with NaN where the time is
    missing. *)
Definition dt_field (f : Z → Z) (c : column) : result column :=
  match c with
  | Datetime ts =>
      if decide (None ∈ ts) then Ok (Float64 ((fun x : option Z => (fun t => Z2Qc (f t)) <$> x) <$> ts))
      else Ok (Int64 (f <$> dropna ts))
  | _ => Raise (AttributeError "Can only use .dt accessor with datetimelike values")
  end.

(** [(end - start).dt.total_seconds() / 60]. *)
Definition duration_minutes (end_ start : column) : result column :=
  match end_, start with
  | Datetime es, Datetime ss =>
      Ok (Float64 (zip_with (fun e s => e ← e; s ← s;
                                Some (Q2Qc (Qmake (e - s) 60000000000))) es ss))
  | _, _ => Raise (TypeError "unsupported operand type(s) for -")
  end.

(** [df[col].median()] and [df[col].fillna(m)]. An integer column has no
    missing value to fill. *)
Definition column_median (c : column) : result (option Qc) :=
  xs ← numeric c; Ok (median xs).

Definition column_fillna (c : column) (value : option Qc) : column :=
  match c with
  | Float64 xs => Float64 (fillna xs value)
  | _ => c
  end.

(** The body of [for col in numerical_cols]. *)
Definition impute (df : DataFrame) (col : string) : result DataFrame :=
  if has_col df col then
    c ← get_col df col;
    m ← column_median c;
    Ok (set_col df col (column_fillna c m))
  else Ok df.

Definition numerical_cols (df : DataFrame) : list string :=
  ["Severity"; "Start_Lat"; "Start_Lng"] ++
  (if has_col df "Temperature(F)" then ["Temperature(F)"; "Visibility(mi)"] else []).

(** ** Files *)

(** A CSV file found on disk: its size in bytes and the table
    [pd.read_csv] parses from it, if it parses. *)
Record raw_file : Type := mkRaw {
  st_size : Z;
  parsed : option DataFrame
}.

Definition USER_PROVIDED_PATH : string :=
  "/Users/adityapatil/Desktop/US-Accidents-Visualization_Project/scripts/data/raw/US_Accidents_March23.csv".

Definition PROCESSED_DIR : string := "data/processed".

(** [dir / name]. *)
Definition path_join (dir name : string) : string := dir +:+ "/" +:+ name.

(** [df.to_csv(path, index=False)]: the file at [path] now holds the
    table. *)
Definition to_csv (path : string) (df : DataFrame) (out : gmap string DataFrame)
    : gmap string DataFrame :=
  <[path := df]> out.

(** [pd.read_csv(path)], with [nrows] and with [usecols]. *)
Definition read_csv (f : raw_file) : result DataFrame :=
  match parsed f with
  | Some df => Ok df
  | None => Raise ParserError
  end.

Definition read_csv_nrows (n : nat) (f : raw_file) : result DataFrame :=
  df ← read_csv f; Ok (head n df).

Definition read_csv_usecols (usecols : list string) (f : raw_file) : result DataFrame :=
  df ← read_csv f;
  if forallb (has_col df) usecols then
    Ok (mkDF (nrows df) (filter (fun nc => nc.1 ∈ usecols) (columns df)))
  else Raise (ValueError "Usecols do not match columns").

(** [round(0.1 * n)] with the product taken exactly: halves go to the
    even neighbour. *)
Definition round_tenth (n : nat) : nat :=
  let q := n / 10 in
  let r := n `mod` 10 in
  if decide (r < 5) then q
  else if decide (5 < r) then S q
  else if Nat.even q then q else S q.

Section Pipeline.

(** How [pd.to_datetime] converts one value that is not missing: the
    time it denotes in nanoseconds since the epoch, or [None] when pandas
    cannot read it as a time. *)
Variable to_datetime_value : cell → option Z.

(** [np.random.RandomState(seed).choice(population, size, replace=False)]:
    the positions drawn by a generator freshly seeded with [seed]. *)
Variable choice : Z → nat → nat → list nat.

(** [pd.to_datetime(column)]. *)
Definition to_datetime (c : column) : result column :=
  ts ← for_each (fun x =>
          match x with
          | CNaN => Ok None
          | _ => match to_datetime_value x with
                 | Some t => Ok (Some t)
                 | None => Raise (ValueError "Unknown datetime string format")
                 end
          end) (cells c);
  Ok (Datetime ts).

(** [df.sample(n=n, random_state=seed)]. *)
Definition sample (n : nat) (random_state : Z) (df : DataFrame) : result DataFrame :=
  if decide (n ≤ nrows df) then take (choice random_state (nrows df) n) df
  else Raise (ValueError "Cannot take a larger sample than population when 'replace=False'").

(** [df.sample(frac=0.1, random_state=seed)]. *)
Definition sample_tenth (random_state : Z) (df : DataFrame) : result DataFrame :=
  sample (round_tenth (nrows df)) random_state df.

(** *** Loader *)

Definition load_raw_data (disk : gmap string raw_file) : result DataFrame :=
  match disk !! USER_PROVIDED_PATH with
  | None =>
      Raise (FileNotFoundError
        ("Dataset file not found: " +:+ USER_PROVIDED_PATH +:+ ". " +:+
         "Please manually download the dataset from Kaggle and place it in the specified path."))
  | Some f =>
      df_sample ← read_csv_nrows 5 f;
      if decide (1000000000 < st_size f)%Z then
        df ← read_csv_usecols
               ["ID"; "Severity"; "Start_Time"; "End_Time"; "Start_Lat"; "Start_Lng";
                "City"; "County"; "State"; "Temperature(F)"; "Visibility(mi)";
                "Weather_Condition"; "Sunrise_Sunset"] f;
        sample_tenth 42 df
      else read_csv f
  end.

(** *** Transformer and aggregator *)

(** [df[name] = df['Start_Time'].dt.<field>]. *)
Definition assign_dt (name : string) (f : Z → Z) (df : DataFrame) : result DataFrame :=
  st ← get_col df "Start_Time";
  v ← dt_field f st;
  Ok (set_col df name v).

Definition convert_timestamps (df : DataFrame) : result DataFrame :=
  st ← get_col df "Start_Time";
  st' ← to_datetime st;
  let df := set_col df "Start_Time" st' in
  if has_col df "End_Time" then
    et ← get_col df "End_Time";
    et' ← to_datetime et;
    let df := set_col df "End_Time" et' in
    e ← get_col df "End_Time";
    s ← get_col df "Start_Time";
    d ← duration_minutes e s;
    Ok (set_col df "Duration_Minutes" d)
  else Ok df.

Definition time_features (df : DataFrame) : result DataFrame :=
  df ← assign_dt "Year" Timestamp.year df;
  df ← assign_dt "Month" Timestamp.month df;
  df ← assign_dt "Day" Timestamp.day df;
  df ← assign_dt "Hour" Timestamp.hour df;
  df ← assign_dt "DayOfWeek" Timestamp.dayofweek df;
  dow ← get_col df "DayOfWeek";
  w ← apply_int weekend_flag dow;
  Ok (set_col df "Weekend" w).

Definition fill_missing (df : DataFrame) : result DataFrame :=
  for_fold impute (numerical_cols df) df.

Definition weather_category (df : DataFrame) : result DataFrame :=
  if has_col df "Weather_Condition" then
    wc ← get_col df "Weather_Condition";
    cat ← apply_str map_weather wc;
    Ok (set_col df "Weather_Category" cat)
  else Ok df.

(** The enriched table: the frame as it is when the aggregates are
    taken. *)
Definition enrich (df : DataFrame) : result DataFrame :=
  df ← convert_timestamps df;
  df ← time_features df;
  df ← fill_missing df;
  weather_category df.

Definition state_aggregate (df : DataFrame) : result DataFrame :=
  state_counts ← groupby_size ["State"] "Accident_Count" df;
  state_severity ← groupby_mean "State" "Severity" "Avg_Severity" df;
  merge "State" state_counts state_severity.

Definition weekday_aggregate (df : DataFrame) : result DataFrame :=
  weekday_data ← groupby_size ["DayOfWeek"; "Weekend"] "Accident_Count" df;
  dow ← get_col weekday_data "DayOfWeek";
  Ok (set_col weekday_data "DayName" (Object (day_name <$> cells dow))).

Definition weather_aggregate (df : DataFrame) : result DataFrame :=
  if has_col df "Weather_Category" then
    groupby_count_mean "Weather_Category" "ID" "Severity"
      ("Weather_Category", "Accident_Count", "Avg_Severity") df
  else Ok empty_frame.

Definition city_aggregate (df : DataFrame) : result DataFrame :=
  if has_col df "City" then
    city_data ← groupby_size ["State"; "City"] "Accident_Count" df;
    city_data ← sort_values_desc "Accident_Count" city_data;
    Ok (head 50 city_data)
  else Ok empty_frame.

Definition preprocess_data (df : DataFrame) : result datasets :=
  df ← enrich df;
  state_data ← state_aggregate df;
  time_data ← groupby_size ["Year"; "Month"] "Accident_Count" df;
  hour_data ← groupby_size ["Hour"] "Accident_Count" df;
  weekday_data ← weekday_aggregate df;
  weather_data ← weather_aggregate df;
  city_data ← city_aggregate df;
  Ok (mkDatasets df state_data time_data hour_data weekday_data weather_data city_data).

(** *** Writer *)

(** [PROCESSED_DIR.mkdir(exist_ok=True, parents=True)]: the directory is
    there afterwards, and no file in it is touched. *)
Definition ensure_directories (out : gmap string DataFrame) : gmap string DataFrame :=
  out.

Definition sample_threshold : nat := Z.to_nat 100000.

Definition save_processed_data (ds : datasets) (out : gmap string DataFrame)
    : result (gmap string DataFrame) :=
  out ← (if decide (sample_threshold < nrows (main_data ds)) then
           sample_data ← sample sample_threshold 42 (main_data ds);
           Ok (to_csv (path_join PROCESSED_DIR "accidents_sample.csv") sample_data out)
         else
           Ok (to_csv (path_join PROCESSED_DIR "accidents_processed.csv") (main_data ds) out));
  Ok (foldl (fun (out : gmap string DataFrame) (nd : string * DataFrame) =>
               if bool_decide (nd.1 ≠ "main_data") && negb (df_empty nd.2)
               then to_csv (path_join PROCESSED_DIR (nd.1 +:+ ".csv")) nd.2 out
               else out)
            out (items ds)).

(** *** The script *)

(** An exception raised by a stage is not caught anywhere: it is the
    result of [main]. *)
Definition main (disk : gmap string raw_file) (out : gmap string DataFrame)
    : result (gmap string DataFrame) :=
  let out := ensure_directories out in
  raw_data ← load_raw_data disk;
  processed_datasets ← preprocess_data raw_data;
  save_processed_data processed_datasets out.

End Pipeline.

(** ** A concrete setting for examples *)

Module Demo.

#[local] Open Scope Z_scope.

Definition digit (c : ascii) : option Z :=
  let n := Z.of_N (N_of_ascii c) in
  if decide (48 ≤ n ≤ 57) then Some (n - 48) else None.

Fixpoint number (acc : Z) (s : string) : option Z :=
  match s with
  | EmptyString => Some acc
  | String c s' => d ← digit c; number (10 * acc + d) s'
  end.

(** Day number of a proleptic Gregorian date (1970-01-01 is day 0). *)
Definition days_from_civil (y m d : Z) : Z :=
  let y := if decide (m ≤ 2) then y - 1 else y in
  let era := y `div` 400 in
  let yoe := y - era * 400 in
  let mp := if decide (m ≤ 2) then m + 9 else m - 3 in
  let doy := (153 * mp + 2) `div` 5 + d - 1 in
  let doe := yoe * 365 + yoe `div` 4 - yoe `div` 100 + doy in
  era * 146097 + doe - 719468.

(** Reads [YYYY-MM-DD HH:MM:SS]. *)
Definition parse_iso (s : string) : option Z :=
  if decide (String.length s = 19%nat) then
    y ← number 0 (substring 0 4 s);
    m ← number 0 (substring 5 2 s);
    d ← number 0 (substring 8 2 s);
    hh ← number 0 (substring 11 2 s);
    mm ← number 0 (substring 14 2 s);
    ss ← number 0 (substring 17 2 s);
    Some ((((days_from_civil y m d * 24 + hh) * 60 + mm) * 60 + ss) * 1000000000)
  else None.

Definition to_datetime_value (x : cell) : option Z :=
  match x with
  | CStr s => parse_iso s
  | CInt z => Some z
  | CTime t => Some t
  | _ => None
  end.

(** Positions [seed], [seed + 1], ... around the population. *)
Definition choice (seed : Z) (population size : nat) : list nat :=
  (fun i => (i + Z.to_nat seed) `mod` population)%nat <$> seq 0 size.

Definition q (z : Z) : option Qc := Some (Z2Qc z).

Definition accidents : DataFrame :=
  mkDF 4
    [ ("ID", Object [Some "A-1"; Some "A-2"; Some "A-3"; Some "A-4"]);
      ("Severity", Float64 [q 2; None; q 4; q 3]);
      ("Start_Time", Object [Some "2023-03-04 08:15:00"; Some "2023-03-06 17:30:00";
                             Some "2023-03-05 23:59:59"; Some "2023-03-10 00:00:00"]);
      ("End_Time", Object [Some "2023-03-04 09:15:00"; Some "2023-03-06 18:00:00";
                           Some "2023-03-06 00:29:59"; None]);
      ("Start_Lat", Float64 [q 40; q 41; None; q 39]);
      ("Start_Lng", Float64 [q (-80); q (-81); q (-82); q (-83)]);
      ("City", Object [Some "Dayton"; Some "Dayton"; Some "Columbus"; None]);
      ("State", Object [Some "OH"; Some "OH"; Some "OH"; Some "CA"]);
      ("Temperature(F)", Float64 [q 36; None; q 40; None]);
      ("Visibility(mi)", Float64 [None; None; None; None]);
      ("Weather_Condition", Object [Some "Freezing Rain"; Some "CLEAR"; None; Some "tornado"]) ]%nat.

(** The datasets computed from [accidents]. *)
Definition no_datasets : datasets :=
  mkDatasets empty_frame empty_frame empty_frame empty_frame empty_frame
             empty_frame empty_frame.

Definition processed : datasets :=
  match preprocess_data to_datetime_value accidents with
  | Ok ds => ds
  | Raise _ => no_datasets
  end.

(** The input file holding [accidents], on a disk with nothing else. *)
Definition disk : gmap string raw_file :=
  {[ USER_PROVIDED_PATH := mkRaw 4096 (Some accidents) ]}.

(** Two accidents, the second with no state recorded. *)
Definition missing_state : DataFrame :=
  mkDF 2
    [ ("ID", Object [Some "A-1"; Some "A-2"]);
      ("Severity", Float64 [q 2; q 3]);
      ("Start_Time", Object [Some "2023-03-04 08:15:00"; Some "2023-03-06 17:30:00"]);
      ("State", Object [Some "OH"; None]) ]%nat.

(** A table of 100,001 rows and the datasets around it. *)
Definition big_table : DataFrame :=
  mkDF (Z.to_nat 100001) [("ID", Int64 (replicate (Z.to_nat 100001) 0))].

Definition big : datasets :=
  mkDatasets big_table empty_frame empty_frame empty_frame empty_frame
             empty_frame empty_frame.

(** Fifteen rows of text in the thirteen columns the loader keeps and
    one more, in a file of 2 GB; and a file that is no CSV. *)
Definition wide : DataFrame :=
  mkDF 15 ((fun n => (n, Object (replicate 15 (Some "x")))) <$>
           ["ID"; "Severity"; "Start_Time"; "End_Time"; "Start_Lat"; "Start_Lng";
            "City"; "County"; "State"; "Temperature(F)"; "Visibility(mi)";
            "Weather_Condition"; "Sunrise_Sunset"; "Description"])%nat.

Definition big_disk : gmap string raw_file :=
  {[ USER_PROVIDED_PATH := mkRaw 2000000000 (Some wide) ]}.


(** One accident with no severity recorded, and one with a start time
    that cannot be read. *)
Definition no_severity : DataFrame :=
  mkDF 1 [ ("Start_Time", Object [Some "2023-03-04 08:15:00"]);
           ("State", Object [Some "OH"]) ]%nat.

Definition bad_date : DataFrame :=
  mkDF 1 [ ("Start_Time", Object [Some "yesterday"]);
           ("State", Object [Some "OH"]) ]%nat.

End Demo.

(** ** Vocabulary of the statements *)

(** [df'] has the rows of [df] and the same columns, except possibly
    those called [names]. *)
Definition unchanged_outside (names : list string) (df df' : DataFrame) : Prop :=
  nrows df' = nrows df ∧
  ∀ n, n ∉ names → assoc n (columns df') = assoc n (columns df).

(** A day-of-week value that is 5 or 6, held as an integer or as a
    float. *)
Definition sat_or_sun (d : cell) : Prop :=
  d = CInt 5 ∨ d = CInt 6 ∨ d = CFloat (Z2Qc 5) ∨ d = CFloat (Z2Qc 6).

(** The columns the transformer imputes. *)
Definition imputed_cols : list string :=
  ["Severity"; "Start_Lat"; "Start_Lng"; "Temperature(F)"; "Visibility(mi)"].

(** The columns the transformer writes. *)
Definition written_cols : list string :=
  ["Start_Time"; "End_Time"; "Duration_Minutes";
   "Year"; "Month"; "Day"; "Hour"; "DayOfWeek"; "Weekend"] ++
  imputed_cols ++ ["Weather_Category"].

(** A raw table the script can take through all its stages: the start
    times, and the end times if there are any, can be read as times; the
    columns to impute hold numbers; the weather conditions are text; and
    the columns the aggregates need without asking are there. *)
Definition convertible (to_datetime_value : cell → option Z) (c : column) : Prop :=
  Forall (fun x => x = CNaN ∨ is_Some (to_datetime_value x)) (cells c).

Definition numeric_col (c : column) : Prop :=
  match c with
  | Float64 _ | Int64 _ => True
  | Object _ | Datetime _ => False
  end.

Definition textual (c : column) : Prop :=
  Forall (fun x => x = CNaN ∨ ∃ s, x = CStr s) (cells c).

Definition processable (to_datetime_value : cell → option Z) (raw : DataFrame) : Prop :=
  (∃ st, get_col raw "Start_Time" = Ok st ∧ convertible to_datetime_value st) ∧
  (∀ et, get_col raw "End_Time" = Ok et → convertible to_datetime_value et) ∧
  (∀ col c, col ∈ imputed_cols → get_col raw col = Ok c → numeric_col c) ∧
  (∀ wc, get_col raw "Weather_Condition" = Ok wc → textual wc) ∧
  has_col raw "State" = true ∧
  has_col raw "Severity" = true ∧
  has_col raw "ID" = true.

(** The columns the loader keeps of a file of more than 1 GB. *)
Definition usecols : list string :=
  ["ID"; "Severity"; "Start_Time"; "End_Time"; "Start_Lat"; "Start_Lng";
   "City"; "County"; "State"; "Temperature(F)"; "Visibility(mi)";
   "Weather_Condition"; "Sunrise_Sunset"].

(** The values a weather category can take. *)
Definition weather_categories : list string :=
  ["clear"; "cloudy"; "rain"; "snow"; "fog"; "thunderstorm"; "windy";
   "unknown"; "other"].

(** The calendar fields the transformer reads from the start time, with
    the columns they go to. *)
Definition time_fields : list (string * (Z → Z)) :=
  [ ("Year", Timestamp.year); ("Month", Timestamp.month); ("Day", Timestamp.day);
    ("Hour", Timestamp.hour); ("DayOfWeek", Timestamp.dayofweek) ].

(** The cell [c] holds the whole number [z], as an integer or, in a
    column with missing values, as a float. *)
Definition holds (c : cell) (z : Z) : Prop := c = CInt z ∨ c = CFloat (Z2Qc z).

(** * Properties *)

(** ** Strings *)

Lemma append_cons a (t post : string) :
  String a t +:+ post = String a (t +:+ post).
Proof. reflexivity. Qed.

Lemma append_nil (post : string) : "" +:+ post = post.
Proof. reflexivity. Qed.

Lemma startswith_spec t s :
  Str.startswith t s = true ↔ ∃ post, s = t +:+ post.
Proof.
  revert s. induction t as [|a t IH]; intros s; simpl.
  - split; [intros _; by exists s | done].
  - destruct s as [|b s].
    + split; [done | intros [post ?]; rewrite append_cons in *; discriminate].
    + destruct (decide (a = b)) as [->|Hne].
      * rewrite IH. split; intros [post Hp]; exists post;
          rewrite append_cons in *; congruence.
      * split; [done | intros [post Hp]; rewrite append_cons in Hp; congruence].
Qed.

Lemma contains_spec t s : Str.contains t s = true ↔ Str.occurs t s.
Proof.
  unfold Str.occurs. induction s as [|b s IH]; simpl.
  - rewrite orb_false_r, startswith_spec. split.
    + intros [post Hp]. by exists "", post.
    + intros ([|c pre] & post & Hp); [by exists post |].
      rewrite append_cons in Hp. discriminate.
  - rewrite orb_true_iff, IH, startswith_spec. split.
    + intros [[post Hp] | (pre & post & Hp)].
      * by exists "", post.
      * exists (String b pre), post. rewrite append_cons. by rewrite Hp.
    + intros ([|c pre] & post & Hp).
      * left. by exists post.
      * right. exists pre, post. rewrite append_cons in Hp. congruence.
Qed.

Lemma any_term_in_spec terms text :
  any_term_in terms text = true ↔ keyword_occurs terms text.
Proof.
  unfold any_term_in, keyword_occurs. rewrite existsb_exists.
  split; intros (term & Hin & Hc); exists term.
  - by rewrite <- contains_spec, list_elem_of_In.
  - by rewrite contains_spec, <- list_elem_of_In.
Qed.

Lemma scan_categories_first_match items text :
  first_match text items (scan_categories items text).
Proof.
  induction items as [|[category terms] rest IH]; simpl.
  - constructor.
  - destruct (any_term_in terms text) eqn:E.
    + constructor. by apply any_term_in_spec.
    + apply first_match_later; [|done].
      rewrite <- any_term_in_spec. congruence.
Qed.

Lemma first_match_unique items text c :
  first_match text items c → c = scan_categories items text.
Proof.
  induction 1 as [category terms rest Hk | category terms rest c Hk _ IH |]; simpl.
  - apply any_term_in_spec in Hk. by rewrite Hk.
  - rewrite <- any_term_in_spec in Hk. by destruct (any_term_in terms text).
  - done.
Qed.

(** ** The weather mapping *)

(** C1: "Freezing Rain" is mapped to "rain". The keyword "rain" of the
    third category occurs in the lowercased text and no keyword of the
    two categories before it does, so "rain" is the first matching
    category in table order; "snow" matches too (through "freezing") but
    stands later in the table. *)
Theorem map_weather_freezing_rain :
  map_weather (CStr "Freezing Rain") = Ok "rain" ∧
  first_match (Str.lower "Freezing Rain") weather_mapping "rain" ∧
  keyword_occurs ["snow"; "sleet"; "ice"; "freezing"] (Str.lower "Freezing Rain").
Proof.
  split; [reflexivity|]. split.
  - apply (scan_categories_first_match weather_mapping (Str.lower "Freezing Rain")).
  - by apply any_term_in_spec.
Qed.

(** The category of "Freezing Rain" is not "snow". *)
Lemma map_weather_freezing_rain_not_snow :
  map_weather (CStr "Freezing Rain") ≠ Ok "snow".
Proof. vm_compute. discriminate. Qed.

(** C2: a missing value gives "unknown"; a text is lowercased and gets
    the first category, in the table order clear, cloudy, rain, snow,
    fog, thunderstorm, windy, one of whose keywords occurs in it as a
    substring, and "other" when there is none; that category is unique.
    "CLEAR" gives "clear" and "tornado" gives "other". *)
Theorem map_weather_spec :
  map_weather CNaN = Ok "unknown" ∧
  (∀ s : string, ∃ category,
      map_weather (CStr s) = Ok category ∧
      first_match (Str.lower s) weather_mapping category ∧
      ∀ c, first_match (Str.lower s) weather_mapping c → c = category) ∧
  weather_mapping.*1 =
    ["clear"; "cloudy"; "rain"; "snow"; "fog"; "thunderstorm"; "windy"] ∧
  map_weather (CStr "CLEAR") = Ok "clear" ∧
  map_weather (CStr "tornado") = Ok "other".
Proof.
  split; [reflexivity|]. split; [|by repeat split].
  intros s. exists (scan_categories weather_mapping (Str.lower s)).
  split; [reflexivity|]. split.
  - apply scan_categories_first_match.
  - apply first_match_unique.
Qed.

(** ** Exceptions and loops *)

Lemma bind_Ok {A B : Type} (m : result A) (k : A → result B) (b : B) :
  m ≫= k = Ok b ↔ ∃ a, m = Ok a ∧ k a = Ok b.
Proof.
  destruct m as [a|e]; unfold mbind, result_bind; split.
  - intros H. by exists a.
  - by intros (a' & [= ->] & H).
  - done.
  - by intros (a' & ? & _).
Qed.

Lemma bind_Raise {A B : Type} (m : result A) (k : A → result B) (e : error) :
  m ≫= k = Raise e ↔ m = Raise e ∨ ∃ a, m = Ok a ∧ k a = Raise e.
Proof.
  destruct m as [a|e']; unfold mbind, result_bind; split.
  - intros H. right. by exists a.
  - intros [?|(a' & [= ->] & H)]; done.
  - intros [= ->]. by left.
  - intros [[= ->]|(a' & ? & _)]; done.
Qed.

(** Taking a successful run apart, statement by statement. *)
Ltac inv_ok :=
  repeat match goal with
  | H : Ok _ = Ok _ |- _ => injection H as H; try subst
  | H : Raise _ = Ok _ |- _ => discriminate H
  | H : _ ≫= _ = Ok _ |- _ =>
      let a := fresh "a" in let Ha := fresh "Ha" in
      apply bind_Ok in H; destruct H as (a & Ha & H)
  end.

Lemma for_each_Ok {A B : Type} (f : A → result B) (l : list A) (ys : list B) :
  for_each f l = Ok ys ↔ Forall2 (fun x y => f x = Ok y) l ys.
Proof.
  revert ys. induction l as [|x l IH]; intros ys; simpl.
  - split; [intros [= <-]; constructor | by inversion 1].
  - split.
    + intros H. inv_ok. constructor; [done | by apply IH].
    + inversion 1 as [|? y ? ys' Hx Hl]; subst.
      rewrite Hx. simpl. apply IH in Hl. by rewrite Hl.
Qed.

Lemma for_each_length {A B : Type} (f : A → result B) (l : list A) (ys : list B) :
  for_each f l = Ok ys → length ys = length l.
Proof. rewrite for_each_Ok. intros H. symmetry. by eapply Forall2_length. Qed.

(** ** Columns of a frame *)

Lemma assoc_set_eq name c cols : assoc name (assoc_set name c cols) = Some c.
Proof.
  induction cols as [|[n c'] cols IH]; simpl.
  - by rewrite decide_True.
  - destruct (decide (n = name)) as [->|Hne]; simpl.
    + by rewrite decide_True.
    + by rewrite decide_False.
Qed.

Lemma assoc_set_ne name name' c cols :
  name ≠ name' → assoc name' (assoc_set name c cols) = assoc name' cols.
Proof.
  intros Hne. induction cols as [|[n c'] cols IH]; simpl.
  - by rewrite decide_False.
  - destruct (decide (n = name)) as [->|Hn]; simpl.
    + by rewrite !decide_False.
    + by rewrite IH.
Qed.

Lemma get_col_set_col_eq df name c : get_col (set_col df name c) name = Ok c.
Proof. unfold get_col, set_col. simpl. by rewrite assoc_set_eq. Qed.

Lemma get_col_set_col_ne df name name' c :
  name ≠ name' → get_col (set_col df name c) name' = get_col df name'.
Proof. intros. unfold get_col, set_col. simpl. by rewrite assoc_set_ne. Qed.

Lemma has_col_set_col_ne df name name' c :
  name ≠ name' → has_col (set_col df name c) name' = has_col df name'.
Proof. intros. unfold has_col, set_col. simpl. by rewrite assoc_set_ne. Qed.

Lemma has_col_get_col df name :
  has_col df name = true ↔ ∃ c, get_col df name = Ok c.
Proof.
  unfold has_col, get_col. rewrite bool_decide_eq_true.
  destruct (assoc name (columns df)) as [c|]; split.
  - by exists c.
  - by eexists.
  - by intros [? ?].
  - by intros [? ?].
Qed.

Lemma nrows_set_col df name c : nrows (set_col df name c) = nrows df.
Proof. done. Qed.

Lemma get_col_well_formed df name c :
  well_formed df = true → get_col df name = Ok c → col_len c = nrows df.
Proof.
  unfold well_formed, get_col. rewrite forallb_forall.
  destruct df as [n cols]. simpl. intros Hwf H.
  induction cols as [|[m c'] cols IH]; simpl in *; [done|].
  destruct (decide (m = name)) as [->|Hne].
  - injection H as ->.
    specialize (Hwf (name, c) (or_introl eq_refl)). simpl in Hwf.
    by apply bool_decide_eq_true in Hwf.
  - apply IH; [|done]. intros x Hx. apply Hwf. by right.
Qed.

Lemma for_each_Raise {A B : Type} (f : A → result B) (l : list A) (e : error) :
  for_each f l = Raise e → ∃ x, x ∈ l ∧ f x = Raise e.
Proof.
  induction l as [|x l IH]; simpl; [done|].
  intros [Hx | (y & Hy & H)]%bind_Raise.
  - exists x. split; [left | done].
  - apply bind_Raise in H as [H | (ys & _ & H)]; [|done].
    destruct (IH H) as (x' & Hin & Hx'). exists x'. split; [by right | done].
Qed.

(** ** Loader *)

(** The only exceptions of row selection are index errors. *)
Lemma take_list_Raise {A : Type} idxs (xs : list A) e :
  take_list idxs xs = Raise e → e = IndexError.
Proof.
  intros (i & _ & Hi)%for_each_Raise. destruct (xs !! i); congruence.
Qed.

Lemma take_Raise idxs df e : take idxs df = Raise e → e = IndexError.
Proof.
  unfold take. destruct (forallb _ idxs); [|congruence].
  intros [H | (cols & _ & H)]%bind_Raise; [|done].
  apply for_each_Raise in H as ([n c] & _ & H). simpl in H.
  apply bind_Raise in H as [H | (c' & _ & H)]; [|done].
  destruct c; simpl in H;
    apply bind_Raise in H as [H | (ys & _ & H)]; try done;
    by apply take_list_Raise in H.
Qed.

Section Loader.

Variable to_datetime_value : cell → option Z.
Variable choice : Z → nat → nat → list nat.

Lemma sample_Raise n seed df e :
  sample choice n seed df = Raise e → ∀ msg, e ≠ FileNotFoundError msg.
Proof.
  unfold sample. destruct (decide (n ≤ nrows df)).
  - intros ->%take_Raise. done.
  - intros [= <-]. done.
Qed.

Lemma read_csv_Raise f e : read_csv f = Raise e → e = ParserError.
Proof. unfold read_csv. destruct (parsed f); congruence. Qed.

(** With the input file in place the loader raises no missing-file
    error. *)
Lemma load_raw_data_present disk f e :
  disk !! USER_PROVIDED_PATH = Some f →
  load_raw_data choice disk = Raise e → ∀ msg, e ≠ FileNotFoundError msg.
Proof.
  unfold load_raw_data. intros -> H msg ->.
  apply bind_Raise in H as [H | (s & _ & H)].
  - unfold read_csv_nrows in H.
    apply bind_Raise in H as [H%read_csv_Raise | (? & _ & H)]; done.
  - destruct (decide _).
    + apply bind_Raise in H as [H | (df & _ & H)].
      * unfold read_csv_usecols in H.
        apply bind_Raise in H as [H%read_csv_Raise | (? & _ & H)]; [done|].
        destruct (forallb _ _); done.
      * by eapply sample_Raise in H.
    + by apply read_csv_Raise in H.
Qed.

(** C9: the loader raises the missing-file error exactly when there is
    no file at the configured path; the error carries the message that
    names the path and says what to do; and [main], which calls the
    loader once and catches nothing, ends with that same error. *)
Theorem load_raw_data_missing_file (disk : gmap string raw_file) :
  ((∃ msg, load_raw_data choice disk = Raise (FileNotFoundError msg))
     ↔ disk !! USER_PROVIDED_PATH = None) ∧
  (disk !! USER_PROVIDED_PATH = None →
   let msg :=
     "Dataset file not found: /Users/adityapatil/Desktop/US-Accidents-Visualization_Project/scripts/data/raw/US_Accidents_March23.csv. Please manually download the dataset from Kaggle and place it in the specified path." in
   load_raw_data choice disk = Raise (FileNotFoundError msg) ∧
   ∀ out, main to_datetime_value choice disk out = Raise (FileNotFoundError msg)).
Proof.
  split; [split|].
  - intros [msg H]. destruct (disk !! USER_PROVIDED_PATH) as [f|] eqn:E; [|done].
    by eapply load_raw_data_present in H.
  - intros E. unfold load_raw_data. rewrite E. by eexists.
  - intros E msg.
    assert (load_raw_data choice disk = Raise (FileNotFoundError msg)) as H.
    { unfold load_raw_data. by rewrite E. }
    split; [done|]. intros out. unfold main. by rewrite H.
Qed.

End Loader.

(** The script run with no input file on disk. *)
Lemma load_raw_data_missing_file_witness :
  (∅ : gmap string raw_file) !! USER_PROVIDED_PATH = None ∧
  ∃ msg, load_raw_data Demo.choice ∅ = Raise (FileNotFoundError msg) ∧
         ∀ out, main Demo.to_datetime_value Demo.choice ∅ out
                = Raise (FileNotFoundError msg).
Proof.
  split; [reflexivity|].
  eexists.
  exact (proj2 (load_raw_data_missing_file Demo.to_datetime_value Demo.choice ∅)
           eq_refl).
Defined.

(** ** Frames that differ in a few columns *)

Lemma unchanged_outside_refl names df : unchanged_outside names df df.
Proof. by split. Qed.

Lemma unchanged_outside_set_col names df name c :
  name ∈ names → unchanged_outside names df (set_col df name c).
Proof.
  intros Hin. split; [done|]. intros n Hn. simpl.
  apply assoc_set_ne. intros ->. done.
Qed.

Lemma unchanged_outside_trans names df1 df2 df3 :
  unchanged_outside names df1 df2 → unchanged_outside names df2 df3 →
  unchanged_outside names df1 df3.
Proof.
  intros [Hn1 H1] [Hn2 H2]. split; [congruence|].
  intros n Hn. rewrite H2, H1; done.
Qed.

Lemma unchanged_outside_weaken names names' df df' :
  names ⊆ names' → unchanged_outside names df df' → unchanged_outside names' df df'.
Proof. intros Hsub [Hn H]. split; [done|]. intros n Hnot. apply H. set_solver. Qed.

Lemma unchanged_outside_get_col names df df' n :
  unchanged_outside names df df' → n ∉ names → get_col df' n = get_col df n.
Proof. intros [_ H] Hn. unfold get_col. by rewrite H. Qed.

Lemma unchanged_outside_has_col names df df' n :
  unchanged_outside names df df' → n ∉ names → has_col df' n = has_col df n.
Proof. intros [_ H] Hn. unfold has_col. by rewrite H. Qed.

(** ** Numbers *)

Lemma Z2Qc_le (a b : Z) : (Z2Qc a ≤ Z2Qc b)%Qc ↔ (a ≤ b)%Z.
Proof.
  unfold Z2Qc, Qcle. simpl. rewrite !Qred_correct. by rewrite Zle_Qle.
Qed.

Lemma Z2Qc_inj (a b : Z) : Z2Qc a = Z2Qc b → a = b.
Proof.
  intros H. apply (f_equal this) in H. simpl in H.
  apply inject_Z_injective. by rewrite <- (Qred_correct (inject_Z a)), H, Qred_correct.
Qed.

(** ** Transformer *)

Lemma cells_length_Float64 xs : col_len (Float64 xs) = length xs.
Proof. unfold col_len. simpl. by rewrite length_fmap. Qed.

Lemma cells_length_Int64 xs : col_len (Int64 xs) = length xs.
Proof. unfold col_len. simpl. by rewrite length_fmap. Qed.

Lemma cells_length_Datetime xs : col_len (Datetime xs) = length xs.
Proof. unfold col_len. simpl. by rewrite length_fmap. Qed.

Lemma dropna_no_missing {A : Type} (xs : list (option A)) :
  None ∉ xs → Some <$> dropna xs = xs.
Proof.
  unfold dropna. induction xs as [|[x|] xs IH]; simpl; intros Hn.
  - done.
  - f_equal. apply IH. intros ?. apply Hn. by right.
  - destruct Hn. by left.
Qed.

Lemma dt_field_Ok f c v :
  dt_field f c = Ok v →
  ∃ ts, c = Datetime ts ∧ col_len v = length ts ∧
        Forall (fun d => d = CNaN ∨ ∃ t, d = CInt (f t) ∨ d = CFloat (Z2Qc (f t)))
               (cells v).
Proof.
  destruct c as [| | |ts]; simpl; try done.
  intros H. exists ts. split; [done|].
  destruct (decide (None ∈ ts)) as [Hin|Hnot]; injection H as <-.
  - rewrite cells_length_Float64, length_fmap. split; [done|]. simpl.
    rewrite Forall_fmap, Forall_fmap. apply Forall_true.
    intros [t|]; simpl; [right; exists t; by right | by left].
  - rewrite cells_length_Int64, length_fmap.
    rewrite <- (dropna_no_missing ts Hnot) at 2. rewrite length_fmap.
    split; [done|]. simpl.
    rewrite Forall_fmap, Forall_fmap. apply Forall_true.
    intros t. simpl. right. exists t. by left.
Qed.

Lemma dayofweek_range ns : (0 ≤ Timestamp.dayofweek ns ≤ 6)%Z.
Proof.
  unfold Timestamp.dayofweek.
  pose proof (Z.mod_pos_bound (Timestamp.days ns + 3) 7). lia.
Qed.

(** The lambda of the weekend column on a day-of-week value. *)
Lemma weekend_flag_day (d : cell) :
  (d = CNaN ∨ ∃ t, d = CInt (Timestamp.dayofweek t)
                 ∨ d = CFloat (Z2Qc (Timestamp.dayofweek t))) →
  ∃ w, weekend_flag d = Ok w ∧ (w = 0 ∨ w = 1)%Z ∧ (w = 1%Z ↔ sat_or_sun d).
Proof.
  unfold sat_or_sun.
  intros [-> | (t & [-> | ->])]; simpl.
  - exists 0%Z. split; [done|]. split; [by left|]. split; [done|].
    intros [?|[?|[?|?]]]; done.
  - pose proof (dayofweek_range t) as Hr.
    destruct (decide (5 ≤ Timestamp.dayofweek t)%Z) as [H5|H5].
    + exists 1%Z. split; [done|]. split; [by right|]. split; [|done].
      intros _. assert (Timestamp.dayofweek t = 5 ∨ Timestamp.dayofweek t = 6)%Z
        as [-> | ->] by lia; auto.
    + exists 0%Z. split; [done|]. split; [by left|]. split; [done|].
      intros [[= E]|[[= E]|[?|?]]]; try done; lia.
  - pose proof (dayofweek_range t) as Hr.
    destruct (decide (Z2Qc 5 ≤ Z2Qc (Timestamp.dayofweek t))%Qc) as [H5|H5];
      rewrite Z2Qc_le in H5.
    + exists 1%Z. split; [done|]. split; [by right|]. split; [|done].
      intros _. assert (Timestamp.dayofweek t = 5 ∨ Timestamp.dayofweek t = 6)%Z
        as [-> | ->] by lia; auto.
    + exists 0%Z. split; [done|]. split; [by left|]. split; [done|].
      intros [?|[?|[E|E]]]; try done.
      * assert (Z2Qc (Timestamp.dayofweek t) = Z2Qc 5) as E' by congruence.
        apply Z2Qc_inj in E'. lia.
      * assert (Z2Qc (Timestamp.dayofweek t) = Z2Qc 6) as E' by congruence.
        apply Z2Qc_inj in E'. lia.
Qed.

Section Transformer.

Variable to_datetime_value : cell → option Z.

Lemma to_datetime_Ok c c' :
  to_datetime to_datetime_value c = Ok c' →
  ∃ ts, c' = Datetime ts ∧ length ts = col_len c.
Proof.
  unfold to_datetime. intros H. inv_ok. eexists. split; [done|].
  by eapply for_each_length.
Qed.

Lemma assign_dt_Ok name f df df' :
  assign_dt name f df = Ok df' →
  ∃ st v, get_col df "Start_Time" = Ok st ∧ dt_field f st = Ok v ∧
          df' = set_col df name v.
Proof. unfold assign_dt. intros H. inv_ok. eauto. Qed.

Lemma convert_timestamps_spec df df' :
  convert_timestamps to_datetime_value df = Ok df' →
  unchanged_outside ["Start_Time"; "End_Time"; "Duration_Minutes"] df df' ∧
  ∃ st st', get_col df "Start_Time" = Ok st ∧
            get_col df' "Start_Time" = Ok st' ∧ col_len st' = col_len st.
Proof.
  unfold convert_timestamps. intros H.
  apply bind_Ok in H as (st & Hst & H).
  apply bind_Ok in H as (st' & Hst' & H).
  destruct (to_datetime_Ok _ _ Hst') as (ts & -> & Hlen).
  assert (unchanged_outside ["Start_Time"; "End_Time"; "Duration_Minutes"]
            df (set_col df "Start_Time" (Datetime ts))) as H1.
  { apply unchanged_outside_set_col. set_solver. }
  destruct (has_col _ "End_Time").
  - apply bind_Ok in H as (et & Het & H).
    apply bind_Ok in H as (et' & Het' & H).
    apply bind_Ok in H as (e & He & H).
    apply bind_Ok in H as (s & Hs & H).
    apply bind_Ok in H as (d & Hd & [= <-]).
    split.
    + eapply unchanged_outside_trans; [exact H1|].
      eapply unchanged_outside_trans; apply unchanged_outside_set_col; set_solver.
    + exists st, (Datetime ts). split; [done|].
      split; [|by rewrite cells_length_Datetime].
      rewrite !get_col_set_col_ne by done. apply get_col_set_col_eq.
  - injection H as <-. split; [done|].
    exists st, (Datetime ts). split; [done|].
    split; [|by rewrite cells_length_Datetime].
    apply get_col_set_col_eq.
Qed.

Lemma time_features_spec df df' :
  time_features df = Ok df' →
  unchanged_outside ["Year"; "Month"; "Day"; "Hour"; "DayOfWeek"; "Weekend"] df df' ∧
  ∃ st dow wk,
    get_col df "Start_Time" = Ok st ∧
    dt_field Timestamp.dayofweek st = Ok dow ∧
    for_each weekend_flag (cells dow) = Ok wk ∧
    get_col df' "DayOfWeek" = Ok dow ∧
    get_col df' "Weekend" = Ok (Int64 wk).
Proof.
  unfold time_features, apply_int. intros H.
  apply bind_Ok in H as (d1 & (s1 & v1 & Hs1 & Hv1 & ->)%assign_dt_Ok & H).
  apply bind_Ok in H as (d2 & (s2 & v2 & Hs2 & Hv2 & ->)%assign_dt_Ok & H).
  apply bind_Ok in H as (d3 & (s3 & v3 & Hs3 & Hv3 & ->)%assign_dt_Ok & H).
  apply bind_Ok in H as (d4 & (s4 & v4 & Hs4 & Hv4 & ->)%assign_dt_Ok & H).
  apply bind_Ok in H as (d5 & (s5 & v5 & Hs5 & Hv5 & ->)%assign_dt_Ok & H).
  apply bind_Ok in H as (dow & Hdow & H).
  apply bind_Ok in H as (w & Hw & [= <-]).
  apply bind_Ok in Hw as (wk & Hwk & [= <-]).
  rewrite get_col_set_col_eq in Hdow. injection Hdow as <-.
  rewrite !get_col_set_col_ne in Hs5 by done.
  split.
  - repeat (eapply unchanged_outside_trans;
            [|apply unchanged_outside_set_col; set_solver]).
    apply unchanged_outside_refl.
  - exists s5, v5, wk. split; [done|]. split; [done|]. split; [done|].
    split; [|apply get_col_set_col_eq].
    rewrite get_col_set_col_ne by done. apply get_col_set_col_eq.
Qed.

End Transformer.

(** ** Medians and imputation *)

Lemma median_Permutation xs xs' : xs ≡ₚ xs' → median xs = median xs'.
Proof.
  intros Hp. unfold median.
  assert (merge_sort Qcle (dropna xs) = merge_sort Qcle (dropna xs')) as ->; [|done].
  apply (Sorted_unique Qcle).
  - apply (Sorted_merge_sort Qcle).
  - apply (Sorted_merge_sort Qcle).
  - rewrite !merge_sort_Permutation. unfold dropna. by rewrite Hp.
Qed.

Lemma dropna_nil {A : Type} (xs : list (option A)) :
  dropna xs = [] ↔ ∀ x, x ∈ xs → x = None.
Proof.
  unfold dropna. induction xs as [|[v|] xs IH]; simpl.
  - split; [intros _ x Hx; by apply elem_of_nil in Hx | done].
  - split; [done|]. intros H. specialize (H (Some v)). discriminate H. by left.
  - rewrite IH. split.
    + intros H x [->|Hx]%elem_of_cons; auto.
    + intros H x Hx. apply H. by right.
Qed.

Lemma median_all_missing xs : (∀ x, x ∈ xs → x = None) → median xs = None.
Proof. intros H%dropna_nil. unfold median. by rewrite H. Qed.

Lemma median_some_present xs : (∃ v, Some v ∈ xs) → is_Some (median xs).
Proof.
  intros [v Hv]. unfold median.
  set (vs := merge_sort Qcle (dropna xs)).
  assert (length vs ≠ 0) as Hn.
  { unfold vs. rewrite merge_sort_Permutation. intros Hl%nil_length_inv.
    rewrite dropna_nil in Hl. by specialize (Hl _ Hv). }
  rewrite decide_False by done.
  assert (length vs / 2 < length vs) as H2 by (apply Nat.div_lt; lia).
  destruct (lookup_lt_is_Some_2 vs (length vs / 2) H2) as [b Hb].
  destruct (Nat.odd (length vs)); [by rewrite Hb|].
  assert (length vs / 2 - 1 < length vs) as H1 by lia.
  destruct (lookup_lt_is_Some_2 vs (length vs / 2 - 1) H1) as [a Ha].
  rewrite Ha, Hb. simpl. by eexists.
Qed.

Lemma fillna_median_cellwise xs :
  fillna xs (median xs)
  = (fun x => match x with Some v => Some v | None => median xs end) <$> xs.
Proof.
  unfold fillna. destruct (median xs) as [m|].
  - apply list_fmap_ext. by intros _ [v|] _.
  - rewrite <- (list_fmap_id xs) at 1. apply list_fmap_ext. by intros _ [v|] _.
Qed.

Lemma fillna_no_missing xs m : None ∉ fillna xs (Some m).
Proof. simpl. intros (x & ? & _)%list_elem_of_fmap. done. Qed.

Lemma impute_spec df col df' :
  impute df col = Ok df' →
  unchanged_outside [col] df df' ∧
  ∀ c, get_col df col = Ok c →
       ∃ xs, numeric c = Ok xs ∧ get_col df' col = Ok (column_fillna c (median xs)).
Proof.
  unfold impute, column_median. destruct (has_col df col) eqn:Hh.
  - intros H.
    apply bind_Ok in H as (c & Hc & H).
    apply bind_Ok in H as (m & Hm & [= <-]).
    apply bind_Ok in Hm as (xs & Hxs & [= <-]).
    split; [apply unchanged_outside_set_col; set_solver|].
    intros c' Hc'. assert (c' = c) as -> by congruence.
    exists xs. split; [done|]. apply get_col_set_col_eq.
  - intros [= <-]. split; [apply unchanged_outside_refl|].
    intros c Hc. assert (has_col df col = true) by (apply has_col_get_col; eauto).
    congruence.
Qed.

Lemma for_fold_impute cols df df' :
  for_fold impute cols df = Ok df' → NoDup cols →
  unchanged_outside cols df df' ∧
  ∀ col c, col ∈ cols → get_col df col = Ok c →
           ∃ xs, numeric c = Ok xs ∧ get_col df' col = Ok (column_fillna c (median xs)).
Proof.
  revert df. induction cols as [|x cols IH]; simpl; intros df H Hnd.
  - injection H as <-. split; [apply unchanged_outside_refl|].
    intros col c Hin. by apply elem_of_nil in Hin.
  - apply bind_Ok in H as (d1 & H1 & H).
    apply NoDup_cons in Hnd as [Hx Hnd].
    destruct (impute_spec _ _ _ H1) as [Hu1 Hc1].
    destruct (IH _ H Hnd) as [Hu Hc].
    split.
    + eapply unchanged_outside_trans.
      * eapply unchanged_outside_weaken; [|exact Hu1]. set_solver.
      * eapply unchanged_outside_weaken; [|exact Hu]. set_solver.
    + intros col c [->|Hin]%elem_of_cons Hg.
      * destruct (Hc1 c Hg) as (xs & Hxs & Hg1). exists xs. split; [done|].
        by rewrite (unchanged_outside_get_col _ _ _ _ Hu Hx).
      * apply (Hc col c Hin).
        rewrite (unchanged_outside_get_col _ _ _ col Hu1); [done|].
        set_solver.
Qed.

Lemma weather_category_spec df df' :
  weather_category df = Ok df' → unchanged_outside ["Weather_Category"] df df'.
Proof.
  unfold weather_category. destruct (has_col df "Weather_Condition").
  - intros H. apply bind_Ok in H as (wc & _ & H).
    apply bind_Ok in H as (cat & _ & [= <-]).
    apply unchanged_outside_set_col. set_solver.
  - intros [= <-]. apply unchanged_outside_refl.
Qed.

Section Enrichment.

Variable to_datetime_value : cell → option Z.

Lemma preprocess_data_enrich df ds :
  preprocess_data to_datetime_value df = Ok ds →
  enrich to_datetime_value df = Ok (main_data ds).
Proof.
  unfold preprocess_data. intros H.
  apply bind_Ok in H as (d & Hd & H).
  repeat (apply bind_Ok in H as (? & _ & H)).
  by injection H as <-.
Qed.

Lemma enrich_nrows df df' :
  enrich to_datetime_value df = Ok df' → nrows df' = nrows df.
Proof.
  unfold enrich, fill_missing. intros H.
  apply bind_Ok in H as (d1 & [[H1 _] _]%convert_timestamps_spec & H).
  apply bind_Ok in H as (d2 & [[H2 _] _]%time_features_spec & H).
  apply bind_Ok in H as (d3 & H3 & [H4 _]%weather_category_spec).
  apply for_fold_impute in H3 as [[H3 _] _]; [congruence|].
  unfold numerical_cols. destruct (has_col d2 _); by compute_done.
Qed.

(** Every imputed column of the enriched table is the raw column with
    its missing values filled by its median. *)
Lemma enrich_imputed df df' col c :
  enrich to_datetime_value df = Ok df' →
  col ∈ ["Severity"; "Start_Lat"; "Start_Lng"] ∨
    (col ∈ ["Temperature(F)"; "Visibility(mi)"] ∧ has_col df "Temperature(F)" = true) →
  get_col df col = Ok c →
  ∃ xs, numeric c = Ok xs ∧ get_col df' col = Ok (column_fillna c (median xs)).
Proof.
  unfold enrich, fill_missing. intros H Hcol Hc.
  apply bind_Ok in H as (d1 & [U1 _]%convert_timestamps_spec & H).
  apply bind_Ok in H as (d2 & [U2 _]%time_features_spec & H).
  apply bind_Ok in H as (d3 & H3 & U4%weather_category_spec).
  assert (col ∈ imputed_cols) as Hin.
  { unfold imputed_cols. destruct Hcol as [?|[? _]]; set_solver. }
  assert (∀ n, n ∈ imputed_cols → get_col d2 n = get_col df n) as Hget.
  { intros n Hn.
    rewrite (unchanged_outside_get_col _ _ _ n U2), (unchanged_outside_get_col _ _ _ n U1);
      [done | |]; unfold imputed_cols in Hn; set_solver. }
  assert (has_col d2 "Temperature(F)" = has_col df "Temperature(F)") as Hhas.
  { rewrite (unchanged_outside_has_col _ _ _ _ U2), (unchanged_outside_has_col _ _ _ _ U1);
      [done | |]; set_solver. }
  apply for_fold_impute in H3 as [_ H3].
  - destruct (H3 col c) as (xs & Hxs & Hg).
    + unfold numerical_cols. rewrite Hhas.
      destruct Hcol as [?|[? ->]]; [destruct (has_col df _)|]; set_solver.
    + by rewrite Hget.
    + exists xs. split; [done|].
      rewrite (unchanged_outside_get_col _ _ _ col U4); [done|].
      unfold imputed_cols in Hin. set_solver.
  - unfold numerical_cols. destruct (has_col d2 _); by compute_done.
Qed.

(** C5: in the enriched table each of Severity, Start_Lat and Start_Lng,
    and with a Temperature(F) column present also Temperature(F) and
    Visibility(mi), is the raw column with every missing value replaced
    by the column's median and every other value kept; and the median
    does not depend on the order of the rows. *)
Theorem missing_values_filled_with_median df ds col xs :
  preprocess_data to_datetime_value df = Ok ds →
  col ∈ ["Severity"; "Start_Lat"; "Start_Lng"] ∨
    (col ∈ ["Temperature(F)"; "Visibility(mi)"] ∧ has_col df "Temperature(F)" = true) →
  get_col df col = Ok (Float64 xs) →
  get_col (main_data ds) col
    = Ok (Float64 ((fun x => match x with Some v => Some v | None => median xs end)
                     <$> xs)) ∧
  ∀ xs', xs' ≡ₚ xs → median xs' = median xs.
Proof.
  intros H%preprocess_data_enrich Hcol Hc. split.
  - destruct (enrich_imputed _ _ _ _ H Hcol Hc) as (xs' & [= <-] & Hg).
    rewrite Hg. simpl. by rewrite fillna_median_cellwise.
  - intros xs'. apply median_Permutation.
Qed.

(** C10: an imputed column whose values are all missing has a missing
    median and comes out of the imputation unchanged, all missing; with
    at least one value present the median exists and no missing value
    remains. *)
Theorem all_missing_column_stays_missing df ds col xs :
  preprocess_data to_datetime_value df = Ok ds →
  col ∈ ["Severity"; "Start_Lat"; "Start_Lng"] ∨
    (col ∈ ["Temperature(F)"; "Visibility(mi)"] ∧ has_col df "Temperature(F)" = true) →
  get_col df col = Ok (Float64 xs) →
  ∃ ys, get_col (main_data ds) col = Ok (Float64 ys) ∧
        ((∀ x, x ∈ xs → x = None) → median xs = None ∧ ys = xs) ∧
        ((∃ v, Some v ∈ xs) → is_Some (median xs) ∧ None ∉ ys).
Proof.
  intros H%preprocess_data_enrich Hcol Hc.
  destruct (enrich_imputed _ _ _ _ H Hcol Hc) as (xs' & [= <-] & Hg).
  exists (fillna xs (median xs)). split; [done|]. split.
  - intros Hall%median_all_missing. by rewrite Hall.
  - intros Hv%median_some_present. split; [done|].
    destruct Hv as [m ->]. apply fillna_no_missing.
Qed.

(** C6: in the enriched table the Weekend column holds, row by row, 1
    where the DayOfWeek value is 5 or 6 and 0 elsewhere; the two columns
    are equally long, as long as the table when the raw table is well
    formed. *)
Theorem weekend_iff_day_5_or_6 df ds :
  preprocess_data to_datetime_value df = Ok ds →
  ∃ dow wk,
    get_col (main_data ds) "DayOfWeek" = Ok dow ∧
    get_col (main_data ds) "Weekend" = Ok (Int64 wk) ∧
    length wk = col_len dow ∧
    (well_formed df = true → length wk = nrows (main_data ds)) ∧
    ∀ i d, cells dow !! i = Some d →
           ∃ w, wk !! i = Some w ∧ (w = 0 ∨ w = 1)%Z ∧ (w = 1%Z ↔ sat_or_sun d).
Proof.
  intros H%preprocess_data_enrich. pose proof (enrich_nrows _ _ H) as Hn.
  unfold enrich, fill_missing in H.
  apply bind_Ok in H as (d1 & [U1 (st0 & st1 & Hst0 & Hst1 & Hlen)]%convert_timestamps_spec & H).
  apply bind_Ok in H as (d2 & [U2 (st & dow & wk & Hst & Hdow & Hwk & Hg1 & Hg2)]%time_features_spec & H).
  apply bind_Ok in H as (d3 & H3 & U4%weather_category_spec).
  apply for_fold_impute in H3 as [U3 _];
    [|unfold numerical_cols; destruct (has_col d2 _); by compute_done].
  assert (∀ n, n ∈ ["DayOfWeek"; "Weekend"] → get_col (main_data ds) n = get_col d2 n)
    as Hget.
  { intros n Hn'.
    rewrite (unchanged_outside_get_col _ _ _ n U4), (unchanged_outside_get_col _ _ _ n U3);
      [done | |]; unfold numerical_cols; try destruct (has_col d2 _); set_solver. }
  exists dow, wk.
  rewrite !Hget by set_solver. split; [done|]. split; [done|].
  pose proof (for_each_length _ _ _ Hwk) as Hl.
  destruct (dt_field_Ok _ _ _ Hdow) as (ts & -> & Hlen' & Hall).
  split; [done|]. split.
  - intros Hwf. rewrite Hl. fold (col_len dow). rewrite Hlen', Hn.
    assert (st1 = Datetime ts) as -> by congruence.
    rewrite cells_length_Datetime in Hlen. rewrite Hlen.
    by eapply get_col_well_formed.
  - intros i d Hd. apply for_each_Ok in Hwk.
    destruct (Forall2_lookup_l _ _ _ _ _ Hwk Hd) as (w & Hw & Hf).
    rewrite Forall_lookup in Hall. specialize (Hall _ _ Hd).
    destruct (weekend_flag_day d Hall) as (w' & Hf' & Hw').
    exists w. split; [done|]. congruence.
Qed.

End Enrichment.

(** ** Row selection *)

Lemma for_each_total {A B : Type} (f : A → result B) (l : list A) :
  (∀ x, x ∈ l → ∃ y, f x = Ok y) → ∃ ys, for_each f l = Ok ys.
Proof.
  induction l as [|x l IH]; simpl; intros H.
  - by eexists.
  - destruct (H x) as [y Hy]; [by left|].
    destruct IH as [ys Hys]; [intros x' Hx'; apply H; by right|].
    exists (y :: ys). by rewrite Hy, Hys.
Qed.

Lemma take_list_total {A : Type} idxs (xs : list A) :
  (∀ i, i ∈ idxs → i < length xs) → ∃ ys, take_list idxs xs = Ok ys.
Proof.
  intros H. apply for_each_total. intros i Hi.
  destruct (lookup_lt_is_Some_2 xs i (H i Hi)) as [x ->]. by eexists.
Qed.

Lemma take_col_total idxs c :
  (∀ i, i ∈ idxs → i < col_len c) → ∃ c', take_col idxs c = Ok c'.
Proof.
  unfold col_len. destruct c as [xs|xs|xs|xs]; simpl; rewrite length_fmap; intros H;
    destruct (take_list_total idxs xs H) as [ys ->]; by eexists.
Qed.

Lemma take_nrows idxs df df' : take idxs df = Ok df' → nrows df' = length idxs.
Proof.
  unfold take. destruct (forallb _ idxs); [|done].
  intros H. apply bind_Ok in H as (cols & _ & [= <-]). done.
Qed.

Lemma take_total idxs df :
  well_formed df = true → (∀ i, i ∈ idxs → i < nrows df) →
  ∃ df', take idxs df = Ok df'.
Proof.
  intros Hwf Hr. unfold take.
  assert (forallb (fun i => bool_decide (i < nrows df)) idxs = true) as ->.
  { apply forallb_forall. intros i Hi%list_elem_of_In.
    apply bool_decide_eq_true. auto. }
  destruct (for_each_total
              (fun nc : string * column => c ← take_col idxs nc.2; Ok (nc.1, c))
              (columns df)) as [cols Hcols].
  - intros [n c] Hin. simpl.
    destruct (take_col_total idxs c) as [c' ->]; [|by eexists].
    intros i Hi. unfold well_formed in Hwf. rewrite forallb_forall in Hwf.
    apply list_elem_of_In, Hwf, bool_decide_eq_true in Hin. simpl in Hin.
    rewrite Hin. auto.
  - rewrite Hcols. by eexists.
Qed.

(** ** Writer *)

Section Writer.

Variable to_datetime_value : cell → option Z.
Variable choice : Z → nat → nat → list nat.

(** Writing the aggregates leaves every other file alone. *)
Lemma write_aggregates_lookup (l : list (string * DataFrame))
    (out : gmap string DataFrame) (p : string) :
  (∀ nd, nd ∈ l → path_join PROCESSED_DIR (nd.1 +:+ ".csv") ≠ p) →
  foldl (fun (out : gmap string DataFrame) (nd : string * DataFrame) =>
           if bool_decide (nd.1 ≠ "main_data") && negb (df_empty nd.2)
           then to_csv (path_join PROCESSED_DIR (nd.1 +:+ ".csv")) nd.2 out
           else out) out l !! p = out !! p.
Proof.
  revert out. induction l as [|nd l IH]; intros out H; simpl; [done|].
  rewrite IH by (intros nd' Hin; apply H; by right).
  destruct (_ && _); [|done].
  unfold to_csv. apply lookup_insert_ne. apply H. by left.
Qed.

Lemma aggregate_paths ds (p : string) :
  p = "data/processed/accidents_processed.csv" ∨
  p = "data/processed/accidents_sample.csv" →
  ∀ nd, nd ∈ items ds → path_join PROCESSED_DIR (nd.1 +:+ ".csv") ≠ p.
Proof.
  intros Hp nd Hin. unfold items in Hin.
  repeat (apply elem_of_cons in Hin as [->|Hin]);
    [destruct Hp as [-> | ->]; by vm_compute.. | by apply elem_of_nil in Hin].
Qed.

Lemma sample_threshold_value : Z.of_nat sample_threshold = 100000%Z.
Proof. unfold sample_threshold. lia. Qed.

Lemma save_processed_data_small ds out :
  (Z.of_nat (nrows (main_data ds)) ≤ 100000)%Z →
  ∃ out', save_processed_data choice ds out = Ok out' ∧
          out' !! "data/processed/accidents_processed.csv" = Some (main_data ds).
Proof.
  pose proof sample_threshold_value as Ht.
  intros Hn. unfold save_processed_data.
  rewrite decide_False by lia. unfold mbind, result_bind.
  eexists. split; [reflexivity|].
  rewrite write_aggregates_lookup by (apply aggregate_paths; by left).
  unfold to_csv. apply lookup_insert_eq.
Qed.

Lemma preprocess_data_nrows df ds :
  preprocess_data to_datetime_value df = Ok ds → nrows (main_data ds) = nrows df.
Proof. intros H%preprocess_data_enrich. by eapply enrich_nrows. Qed.

(** C3: with a generator that returns as many positions as asked, all
    inside the table, the writer given a well-formed table of more than
    100,000 rows succeeds and writes a sample file of exactly 100,000
    rows; a second run on the same table, whatever the aggregates and
    the files already there, writes the same sample. *)
Theorem sample_file_rows_and_determinism ds1 ds2 out1 out2 :
  (∀ seed population size, size ≤ population →
     length (choice seed population size) = size) →
  (∀ seed population size i, size ≤ population →
     i ∈ choice seed population size → i < population) →
  main_data ds1 = main_data ds2 →
  well_formed (main_data ds1) = true →
  (100000 < Z.of_nat (nrows (main_data ds1)))%Z →
  ∃ s out1' out2',
    save_processed_data choice ds1 out1 = Ok out1' ∧
    save_processed_data choice ds2 out2 = Ok out2' ∧
    out1' !! "data/processed/accidents_sample.csv" = Some s ∧
    out2' !! "data/processed/accidents_sample.csv" = Some s ∧
    Z.of_nat (nrows s) = 100000%Z.
Proof.
  pose proof sample_threshold_value as Ht.
  intros Hlen Hrange Heq Hwf Hn.
  assert (sample_threshold ≤ nrows (main_data ds1)) as Hle by lia.
  destruct (take_total (choice 42 (nrows (main_data ds1)) sample_threshold)
              (main_data ds1) Hwf) as [s Hs].
  { intros i Hi. by eapply Hrange. }
  exists s. unfold save_processed_data. rewrite <- Heq.
  destruct (decide (sample_threshold < nrows (main_data ds1))); [|lia].
  unfold sample. destruct (decide (sample_threshold ≤ nrows (main_data ds1))); [|lia].
  rewrite Hs. unfold mbind, result_bind.
  eexists _, _. split; [reflexivity|]. split; [reflexivity|].
  rewrite !write_aggregates_lookup by (apply aggregate_paths; by right).
  unfold to_csv. rewrite !lookup_insert_eq. split; [done|]. split; [done|].
  apply take_nrows in Hs. rewrite Hs, Hlen by done. done.
Qed.

End Writer.

(** ** Aggregator: lookups in derived frames *)

Lemma assoc_app name cols1 cols2 :
  assoc name (cols1 ++ cols2)
  = match assoc name cols1 with Some c => Some c | None => assoc name cols2 end.
Proof.
  induction cols1 as [|[n c] cols1 IH]; simpl; [done|].
  destruct (decide (n = name)); done.
Qed.

Lemma key_columns_assoc_None names kcols keys name :
  name ∉ names → assoc name (key_columns names kcols keys) = None.
Proof.
  revert kcols keys. induction names as [|n names IH]; intros kcols keys Hn; [done|].
  destruct kcols as [|c kcols]; [done|]. simpl.
  rewrite decide_False by (intros ->; apply Hn; by left).
  apply IH. intros ?. apply Hn. by right.
Qed.

Lemma groupby_size_counts names out df g :
  groupby_size names out df = Ok g → out ∉ names →
  ∃ kcols,
    for_each (get_col df) names = Ok kcols ∧
    let rows := key_rows kcols (nrows df) in
    let keys := group_keys rows in
    let sizes := (fun k => Z.of_nat (length (filter (k =.) rows))) <$> keys in
    g = mkDF (length keys) (key_columns names kcols keys ++ [(out, Int64 sizes)]) ∧
    get_col g out = Ok (Int64 sizes).
Proof.
  unfold groupby_size. intros H Hout.
  apply bind_Ok in H as (kcols & Hk & [= <-]).
  exists kcols. split; [done|]. split; [done|].
  unfold get_col. simpl. rewrite assoc_app, key_columns_assoc_None by done.
  simpl. by rewrite decide_True.
Qed.

Lemma take_get_col idxs df df' name c :
  take idxs df = Ok df' → get_col df name = Ok c →
  ∃ c', take_col idxs c = Ok c' ∧ get_col df' name = Ok c'.
Proof.
  unfold take, get_col. destruct (forallb _ idxs); [|done].
  intros H. apply bind_Ok in H as (cols & Hcols & [= <-]). simpl.
  apply for_each_Ok in Hcols.
  induction Hcols as [|[n c0] [n' c0'] l l' Hx _ IH]; simpl; [done|].
  apply bind_Ok in Hx as (c1 & Hc1 & [= <- <-]).
  destruct (decide (n = name)); [|done].
  intros [= <-]. by exists c1.
Qed.

Lemma head_get_col n df name c :
  get_col df name = Ok c → get_col (head n df) name = Ok (head_col n c).
Proof.
  unfold get_col, head. simpl.
  induction (columns df) as [|[m c0] cols IH]; simpl; [done|].
  destruct (decide (m = name)); [by intros [= <-] | done].
Qed.

(** ** Aggregator: sorting *)

#[global] Instance cell_le_total : Total cell_le.
Proof.
  intros [| x | x | x | x] [| y | y | y | y]; simpl;
    first [lia | apply (total Qcle) | apply (total String.le)].
Qed.

#[global] Instance desc_by_total ks : Total (desc_by ks).
Proof. intros i j. unfold desc_by. apply (total cell_le). Qed.

Lemma Sorted_firstn {A : Type} (R : relation A) n l :
  Sorted R l → Sorted R (firstn n l).
Proof.
  intros H. revert n. induction H as [|x l Hl IH Hx]; intros [|n]; simpl;
    try constructor.
  - apply IH.
  - destruct Hx as [|y l' Hxy]; destruct n; simpl; constructor. done.
Qed.

(** The values picked along a list of positions sorted by value are
    sorted. *)
Lemma Sorted_take_list (zs : list Z) order ys :
  Sorted (desc_by (CInt <$> zs)) order →
  take_list order zs = Ok ys →
  Sorted Z.ge ys.
Proof.
  unfold take_list. rewrite for_each_Ok. intros Hs Hf.
  assert (Forall2 (fun i y => zs !! i = Some y) order ys) as Hf'.
  { eapply Forall2_impl; [exact Hf|]. intros i y. simpl.
    destruct (zs !! i); congruence. }
  clear Hf. revert Hs. induction Hf' as [|i y order ys Hi Hf IH]; intros Hs.
  - constructor.
  - apply Sorted_inv in Hs as [Hs Hhd]. constructor; [by apply IH|].
    destruct Hf as [|j y' order' ys' Hj _]; constructor.
    apply HdRel_inv in Hhd. unfold desc_by in Hhd.
    assert ((CInt <$> zs) !!! i = CInt y) as Ei.
    { apply list_lookup_total_correct. by rewrite list_lookup_fmap, Hi. }
    assert ((CInt <$> zs) !!! j = CInt y') as Ej.
    { apply list_lookup_total_correct. by rewrite list_lookup_fmap, Hj. }
    rewrite Ei, Ej in Hhd. simpl in Hhd. lia.
Qed.

(** ** Aggregator: the city table *)

Section Aggregator.

Variable to_datetime_value : cell → option Z.

Lemma preprocess_data_inv df ds :
  preprocess_data to_datetime_value df = Ok ds →
  enrich to_datetime_value df = Ok (main_data ds) ∧
  state_aggregate (main_data ds) = Ok (state_data ds) ∧
  groupby_size ["Year"; "Month"] "Accident_Count" (main_data ds) = Ok (time_data ds) ∧
  groupby_size ["Hour"] "Accident_Count" (main_data ds) = Ok (hour_data ds) ∧
  weekday_aggregate (main_data ds) = Ok (weekday_data ds) ∧
  weather_aggregate (main_data ds) = Ok (weather_data ds) ∧
  city_aggregate (main_data ds) = Ok (city_data ds).
Proof.
  unfold preprocess_data. intros H.
  apply bind_Ok in H as (d & Hd & H).
  apply bind_Ok in H as (a1 & H1 & H).
  apply bind_Ok in H as (a2 & H2 & H).
  apply bind_Ok in H as (a3 & H3 & H).
  apply bind_Ok in H as (a4 & H4 & H).
  apply bind_Ok in H as (a5 & H5 & H).
  apply bind_Ok in H as (a6 & H6 & [= <-]).
  done.
Qed.

Lemma enrich_unchanged df df' :
  enrich to_datetime_value df = Ok df' → unchanged_outside written_cols df df'.
Proof.
  unfold enrich, fill_missing. intros H.
  apply bind_Ok in H as (d1 & [U1 _]%convert_timestamps_spec & H).
  apply bind_Ok in H as (d2 & [U2 _]%time_features_spec & H).
  apply bind_Ok in H as (d3 & H3 & U4%weather_category_spec).
  apply for_fold_impute in H3 as [U3 _];
    [|unfold numerical_cols; destruct (has_col d2 _); by compute_done].
  eapply unchanged_outside_trans;
    [eapply unchanged_outside_weaken; [|exact U1]; unfold written_cols; set_solver|].
  eapply unchanged_outside_trans;
    [eapply unchanged_outside_weaken; [|exact U2]; unfold written_cols; set_solver|].
  eapply unchanged_outside_trans;
    [eapply unchanged_outside_weaken; [|exact U3]|
     eapply unchanged_outside_weaken; [|exact U4]];
    unfold written_cols, imputed_cols, numerical_cols;
    try destruct (has_col d2 _); set_solver.
Qed.

Lemma city_aggregate_present d c :
  has_col d "City" = true → city_aggregate d = Ok c →
  ∃ counts, get_col c "Accident_Count" = Ok (Int64 counts) ∧
            Sorted Z.ge counts ∧ nrows c ≤ 50 ∧ length counts = nrows c.
Proof.
  unfold city_aggregate. intros -> H.
  apply bind_Ok in H as (g & Hg & H).
  apply bind_Ok in H as (g' & Hs & [= <-]).
  apply groupby_size_counts in Hg as (kcols & _ & _ & Hc); [|set_solver].
  simpl in Hc. set (sizes := _ <$> _) in Hc.
  unfold sort_values_desc in Hs. rewrite Hc in Hs.
  unfold mbind, result_bind in Hs.
  destruct (take_get_col _ _ _ _ _ Hs Hc) as (c' & Hc' & Hg').
  simpl in Hc'. apply bind_Ok in Hc' as (ys & Hys & [= <-]).
  exists (firstn 50 ys).
  split; [by apply (head_get_col 50) in Hg'|].
  split; [|split].
  - apply Sorted_firstn. eapply Sorted_take_list; [|exact Hys].
    apply (Sorted_merge_sort (desc_by (CInt <$> sizes))).
  - apply Nat.le_min_l.
  - unfold head. cbn [nrows]. rewrite length_take. apply take_nrows in Hs.
    rewrite Hs. apply for_each_length in Hys. by rewrite Hys.
Qed.

(** C8: with a City column in the data the city table lists at most 50
    rows, with their counts in descending order; without one it is the
    empty frame. *)
Theorem city_table_sorted_top_50 df ds :
  preprocess_data to_datetime_value df = Ok ds →
  (has_col df "City" = true →
   ∃ counts, get_col (city_data ds) "Accident_Count" = Ok (Int64 counts) ∧
             Sorted Z.ge counts ∧
             nrows (city_data ds) ≤ 50 ∧
             length counts = nrows (city_data ds)) ∧
  (has_col df "City" = false →
   city_data ds = empty_frame ∧ df_empty (city_data ds) = true).
Proof.
  intros (He & _ & _ & _ & _ & _ & Hc)%preprocess_data_inv.
  assert (has_col (main_data ds) "City" = has_col df "City") as Hh.
  { eapply unchanged_outside_has_col; [by apply enrich_unchanged|].
    unfold written_cols, imputed_cols. set_solver. }
  split; intros Hcity; rewrite <- Hh in Hcity.
  - by eapply city_aggregate_present.
  - unfold city_aggregate in Hc. rewrite Hcity in Hc. by injection Hc as <-.
Qed.

End Aggregator.

(** ** Aggregator: counting groups *)

Lemma filter_ext_in {A : Type} (P Q : A → Prop)
    `{!∀ x, Decision (P x), !∀ x, Decision (Q x)} (l : list A) :
  (∀ x, x ∈ l → P x ↔ Q x) → filter P l = filter Q l.
Proof.
  induction l as [|a l IH]; intros Hext; [done|].
  rewrite !filter_cons.
  rewrite IH by (intros x Hx; apply Hext; by right).
  assert (P a ↔ Q a) as Ha by (apply Hext; by left).
  destruct (decide (P a)) as [Hp|Hp], (decide (Q a)) as [Hq|Hq]; tauto.
Qed.

Lemma filter_all {A : Type} (P : A → Prop) `{!∀ x, Decision (P x)} (l : list A) :
  (∀ x, x ∈ l → P x) → filter P l = l.
Proof.
  induction l as [|a l IH]; intros Hall; [done|].
  rewrite filter_cons_True by (apply Hall; by left).
  f_equal. apply IH. intros x Hx. apply Hall. by right.
Qed.

Lemma length_filter_cons_key {A : Type} `{!EqDecision A} (k : A) (K L : list A) :
  k ∉ K →
  length (filter (.∈ k :: K) L)
  = length (filter (k =.) L) + length (filter (.∈ K) L).
Proof.
  intros Hk. induction L as [|x L IH]; [done|].
  rewrite !filter_cons.
  destruct (decide (k = x)) as [<-|Hne].
  - rewrite decide_True by (by left). rewrite decide_False by done.
    simpl. by rewrite IH.
  - destruct (decide (x ∈ K)) as [Hin|Hnin].
    + rewrite decide_True by (by right). simpl. rewrite IH. lia.
    + rewrite decide_False; [done|].
      intros [?|?]%elem_of_cons; congruence.
Qed.

(** The sizes of the groups of distinct keys add up to the number of
    rows that have one of the keys. *)
Lemma sum_group_sizes {A : Type} `{!EqDecision A} (K L : list A) :
  NoDup K →
  foldr Z.add 0%Z ((fun k => Z.of_nat (length (filter (k =.) L))) <$> K)
  = Z.of_nat (length (filter (.∈ K) L)).
Proof.
  induction 1 as [|k K Hk _ IH].
  - simpl. rewrite (filter_ext_in _ (fun _ => False) L); [|intros x _; set_solver].
    by induction L.
  - rewrite fmap_cons. cbn [foldr]. rewrite IH, length_filter_cons_key by done. lia.
Qed.

Lemma group_keys_NoDup rows : NoDup (group_keys rows).
Proof.
  unfold group_keys. rewrite merge_sort_Permutation. apply NoDup_remove_dups.
Qed.

Lemma elem_of_group_keys rows k : k ∈ group_keys rows ↔ notna k ∧ k ∈ rows.
Proof.
  unfold group_keys.
  by rewrite merge_sort_Permutation, elem_of_remove_dups, list_elem_of_filter.
Qed.

Lemma sum_group_keys_sizes rows :
  foldr Z.add 0%Z
    ((fun k => Z.of_nat (length (filter (k =.) rows))) <$> group_keys rows)
  = Z.of_nat (length (filter notna rows)).
Proof.
  rewrite sum_group_sizes by apply group_keys_NoDup.
  f_equal. f_equal. apply filter_ext_in.
  intros k Hk. rewrite elem_of_group_keys. naive_solver.
Qed.

(** The keys of a grouping by one column. *)
Lemma key_rows_single kc n :
  key_rows [kc] n = (fun c => [c]) <$> firstn n (cells kc).
Proof.
  unfold key_rows. simpl. generalize (cells kc). intros l. revert n.
  induction l as [|c l IH]; intros [|n]; simpl; try done. by rewrite IH.
Qed.

Lemma filter_notna_single (cs : list cell) :
  length (filter notna ((fun c => [c]) <$> cs))
  = length (filter (.≠ CNaN) cs).
Proof.
  induction cs as [|c cs IH]; [done|]. rewrite fmap_cons, !filter_cons.
  destruct (decide (c ≠ CNaN)) as [Hc|Hc].
  - rewrite decide_True; [cbn [length]; by rewrite IH|].
    unfold notna. intros <-%list_elem_of_singleton. done.
  - rewrite decide_False; [done|].
    unfold notna. intros Hn. apply Hc. intros ->. apply Hn. by left.
Qed.

(** ** Aggregator: the state table *)

Lemma of_cells_cells like vals :
  Forall (fun v => v ∈ cells like) vals → cells (of_cells like vals) = vals.
Proof.
  intros Hall.
  assert (∀ (f : cell → cell), Forall (fun v => f v = v) vals → f <$> vals = vals)
    as Hid.
  { intros f Hf. rewrite <- (list_fmap_id vals) at 2.
    apply list_fmap_ext. intros i v Hv. rewrite Forall_lookup in Hf. by eapply Hf. }
  destruct like as [xs|xs|xs|xs]; simpl in *; rewrite <- list_fmap_compose;
    apply Hid; eapply Forall_impl; [exact Hall | | exact Hall | | exact Hall |
                                    | exact Hall |];
    intros v (x & -> & _)%list_elem_of_fmap; by try destruct x.
Qed.

Lemma take_list_seq {A : Type} (xs : list A) :
  take_list (seq 0 (length xs)) xs = Ok xs.
Proof.
  unfold take_list. apply for_each_Ok.
  apply Forall2_same_length_lookup_2; [by rewrite length_seq|].
  intros i j x [-> _]%lookup_seq Hx. simpl. by rewrite Hx.
Qed.

Lemma bind_singletons {A B : Type} (f : A → list B) (g : A → B) (l : list A) :
  (∀ x, x ∈ l → f x = [g x]) → l ≫= f = g <$> l.
Proof.
  induction l as [|x l IH]; intros H; [done|].
  rewrite bind_cons, fmap_cons, H, IH; [done | | by left].
  intros y Hy. apply H. by right.
Qed.

(** Joining a table with distinct keys to a table with the same keys
    pairs every row with itself. *)
Lemma merge_pairs_unique (L : list cell) :
  NoDup L →
  (i ← seq 0 (length L);
   j ← filter (fun j => L !! j = L !! i) (seq 0 (length L));
   [(i, j)])
  = (fun i => (i, i)) <$> seq 0 (length L).
Proof.
  intros Hnd. apply bind_singletons. intros i [_ Hi]%elem_of_seq. simpl in Hi.
  assert (filter (fun j => L !! j = L !! i) (seq 0 (length L)) = [i]) as ->; [|done].
  apply Permutation_singleton_r, NoDup_Permutation.
  - apply NoDup_filter, NoDup_seq.
  - apply NoDup_singleton.
  - intros j. rewrite list_elem_of_filter, elem_of_seq, list_elem_of_singleton.
    split.
    + intros [Hj [_ Hlt]]. simpl in Hlt.
      destruct (lookup_lt_is_Some_2 L j Hlt) as [x Hx].
      eapply NoDup_lookup; [done | exact Hx | congruence].
    + intros ->. split; [done | lia].
Qed.

Lemma state_keys_column kc n :
  let keys := group_keys (key_rows [kc] n) in
  let vals := (fun k => default CNaN (hd_error k)) <$> keys in
  cells (of_cells kc vals) = vals ∧ NoDup vals ∧ length vals = length keys.
Proof.
  intros keys vals.
  assert (∀ k, k ∈ keys → ∃ c, k = [c] ∧ c ∈ cells kc) as Hk.
  { intros k [_ Hin]%elem_of_group_keys. rewrite key_rows_single in Hin.
    apply list_elem_of_fmap in Hin as (c & -> & Hc). exists c. split; [done|].
    by eapply subseteq_take. }
  split; [|split].
  - apply of_cells_cells. unfold vals. rewrite Forall_fmap. apply Forall_forall.
    intros k (c & -> & Hc)%Hk. done.
  - unfold vals. apply NoDup_fmap_2_strong; [|apply group_keys_NoDup].
    intros k1 k2 (c1 & -> & _)%Hk (c2 & -> & _)%Hk. simpl. congruence.
  - unfold vals. by rewrite length_fmap.
Qed.

Lemma groupby_mean_frame name val out d g kc :
  groupby_mean name val out d = Ok g → get_col d name = Ok kc →
  ∃ means,
    g = mkDF (length (group_keys (key_rows [kc] (nrows d))))
          (key_columns [name] [kc] (group_keys (key_rows [kc] (nrows d)))
           ++ [(out, Float64 means)]).
Proof.
  unfold groupby_mean. intros H Hkc. rewrite Hkc in H.
  apply bind_Ok in H as (kc' & [= <-] & H).
  apply bind_Ok in H as (vc & _ & H).
  apply bind_Ok in H as (vs & _ & H).
  eexists. symmetry. injection H as H. exact H.
Qed.

Lemma state_aggregate_counts d sd kc :
  state_aggregate d = Ok sd → get_col d "State" = Ok kc →
  ∃ counts,
    get_col sd "Accident_Count" = Ok (Int64 counts) ∧
    foldr Z.add 0%Z counts
    = Z.of_nat (length (filter (.≠ CNaN) (firstn (nrows d) (cells kc)))).
Proof.
  unfold state_aggregate. intros H Hkc.
  apply bind_Ok in H as (sc & Hsc & H).
  apply bind_Ok in H as (sv & Hsv & Hm).
  apply groupby_size_counts in Hsc as (kcols & Hk & -> & Hcnt); [|set_solver].
  assert (kcols = [kc]) as ->.
  { cbn [for_each] in Hk. rewrite Hkc in Hk. by injection Hk as <-. }
  destruct (groupby_mean_frame _ _ _ _ _ _ Hsv Hkc) as (means & ->).
  destruct (state_keys_column kc (nrows d)) as (Hrt & Hnd & Hlen).
  set (rows := key_rows [kc] (nrows d)) in *.
  set (keys := group_keys rows) in *.
  set (vals := (fun k => default CNaN (hd_error k)) <$> keys) in *.
  set (sizes := (fun k => Z.of_nat (length (filter (k =.) rows))) <$> keys) in *.
  unfold merge in Hm.
  apply bind_Ok in Hm as (kl & Hkl & Hm).
  apply bind_Ok in Hm as (kr & Hkr & Hm).
  assert (kl = of_cells kc vals) as -> by (by injection Hkl).
  assert (kr = of_cells kc vals) as -> by (by injection Hkr).
  cbn [nrows] in Hm. rewrite Hrt, <- Hlen in Hm.
  rewrite (merge_pairs_unique vals Hnd) in Hm.
  apply bind_Ok in Hm as (l & Hl & Hm).
  apply bind_Ok in Hm as (r & Hr & [= <-]).
  rewrite <- list_fmap_compose in Hl.
  rewrite (list_fmap_ext _ id _ (fun _ _ _ => eq_refl)), list_fmap_id in Hl.
  rewrite <- Hlen in Hcnt.
  destruct (take_get_col _ _ _ _ _ Hl Hcnt) as (c' & Hc' & Hg).
  assert (length sizes = length vals) as Hsz by (unfold sizes; by rewrite length_fmap).
  cbn [take_col] in Hc'. rewrite <- Hsz, take_list_seq in Hc'.
  apply bind_Ok in Hc' as (ys & [= <-] & [= <-]).
  exists sizes. split.
  - unfold get_col in *. cbn [columns]. rewrite assoc_app.
    by destruct (assoc "Accident_Count" (columns l)).
  - unfold sizes, keys. rewrite sum_group_keys_sizes.
    unfold rows. by rewrite key_rows_single, filter_notna_single.
Qed.

Section StateTable.

Variable to_datetime_value : cell → option Z.

Lemma state_aggregate_State d sd :
  state_aggregate d = Ok sd → ∃ kc, get_col d "State" = Ok kc.
Proof.
  unfold state_aggregate, groupby_size. intros H.
  apply bind_Ok in H as (sc & Hsc & _).
  apply bind_Ok in Hsc as (kcols & Hk & _).
  cbn [for_each] in Hk. apply bind_Ok in Hk as (kc & Hkc & _). eauto.
Qed.

(** C4: the per-state counts add up to the number of rows of the
    enriched table whose State is not missing, which is the number of all
    rows when no State is missing. *)
Theorem state_counts_sum df ds :
  preprocess_data to_datetime_value df = Ok ds →
  well_formed df = true →
  ∃ sc counts,
    get_col (main_data ds) "State" = Ok sc ∧
    get_col (state_data ds) "Accident_Count" = Ok (Int64 counts) ∧
    foldr Z.add 0%Z counts = Z.of_nat (length (filter (.≠ CNaN) (cells sc))) ∧
    (CNaN ∉ cells sc → foldr Z.add 0%Z counts = Z.of_nat (nrows (main_data ds))).
Proof.
  intros (He & Hs & _)%preprocess_data_inv Hwf.
  destruct (state_aggregate_State _ _ Hs) as [sc Hsc].
  destruct (state_aggregate_counts _ _ _ Hs Hsc) as (counts & Hc & Hsum).
  assert (col_len sc = nrows (main_data ds)) as Hlen.
  { rewrite (enrich_nrows _ _ _ He). eapply get_col_well_formed; [done|].
    rewrite <- Hsc. symmetry.
    eapply unchanged_outside_get_col; [exact (enrich_unchanged _ _ _ He)|].
    unfold written_cols, imputed_cols. set_solver. }
  rewrite firstn_all2 in Hsum by (unfold col_len in Hlen; lia).
  exists sc, counts. split; [done|]. split; [done|]. split; [done|].
  intros Hna. rewrite Hsum, <- Hlen. unfold col_len. do 2 f_equal.
  apply filter_all. intros c Hc' ->. done.
Qed.

End StateTable.

(** ** The stages succeed on a processable table *)

Lemma has_col_true_get_col df name :
  has_col df name = true → ∃ c, get_col df name = Ok c.
Proof. by intros ?%has_col_get_col. Qed.

Lemma get_col_has_col df name c : get_col df name = Ok c → has_col df name = true.
Proof. intros H. apply has_col_get_col. eauto. Qed.

Lemma has_col_set_col_eq df name c : has_col (set_col df name c) name = true.
Proof. eapply get_col_has_col, get_col_set_col_eq. Qed.

Lemma has_col_ext df df' name :
  get_col df name = get_col df' name → has_col df name = has_col df' name.
Proof.
  unfold has_col, get_col. intros H. apply bool_decide_ext.
  destruct (assoc name (columns df)), (assoc name (columns df'));
    try discriminate; split; intros [? ?]; done || eauto.
Qed.

Section Success.

Variable to_datetime_value : cell → option Z.

Lemma to_datetime_total c :
  convertible to_datetime_value c →
  ∃ ts, to_datetime to_datetime_value c = Ok (Datetime ts).
Proof.
  unfold convertible, to_datetime. intros Hc.
  destruct (for_each_total
    (fun x => match x with
              | CNaN => Ok None
              | _ => match to_datetime_value x with
                     | Some t => Ok (Some t)
                     | None => Raise (ValueError "Unknown datetime string format")
                     end
              end) (cells c)) as [ts Hts].
  - intros x Hx. rewrite Forall_forall in Hc.
    destruct (Hc x Hx) as [-> | [t Ht]]; [by eexists|].
    rewrite Ht. destruct x; by eexists.
  - exists ts. by rewrite Hts.
Qed.

Lemma convert_timestamps_total df :
  (∃ st, get_col df "Start_Time" = Ok st ∧ convertible to_datetime_value st) →
  (∀ et, get_col df "End_Time" = Ok et → convertible to_datetime_value et) →
  ∃ df' ts, convert_timestamps to_datetime_value df = Ok df' ∧
            get_col df' "Start_Time" = Ok (Datetime ts).
Proof.
  intros (st & Hst & Hc) Het. unfold convert_timestamps.
  rewrite Hst. unfold mbind at 1, result_bind at 1.
  destruct (to_datetime_total st Hc) as [ts ->].
  unfold mbind at 1, result_bind at 1.
  rewrite has_col_set_col_ne by done.
  destruct (has_col df "End_Time") eqn:Hh.
  - apply has_col_true_get_col in Hh as [et Hg].
    rewrite get_col_set_col_ne, Hg by done.
    unfold mbind at 1, result_bind at 1.
    destruct (to_datetime_total et (Het et Hg)) as [es ->].
    unfold mbind at 1, result_bind at 1.
    rewrite get_col_set_col_eq. unfold mbind at 1, result_bind at 1.
    rewrite get_col_set_col_ne, get_col_set_col_eq by done.
    unfold mbind, result_bind. simpl.
    eexists _, ts. split; [done|].
    rewrite !get_col_set_col_ne by done. apply get_col_set_col_eq.
  - eexists _, ts. split; [done|]. apply get_col_set_col_eq.
Qed.

Lemma dt_field_Datetime f ts : ∃ v, dt_field f (Datetime ts) = Ok v.
Proof. simpl. destruct (decide (None ∈ ts)); by eexists. Qed.

Lemma assign_dt_total name f df ts :
  name ≠ "Start_Time" →
  get_col df "Start_Time" = Ok (Datetime ts) →
  ∃ v, assign_dt name f df = Ok (set_col df name v) ∧
       get_col (set_col df name v) "Start_Time" = Ok (Datetime ts).
Proof.
  intros Hne Hst. destruct (dt_field_Datetime f ts) as [v Hv].
  exists v. split.
  - unfold assign_dt. apply bind_Ok. exists (Datetime ts). split; [done|].
    apply bind_Ok. by exists v.
  - by rewrite get_col_set_col_ne.
Qed.

Lemma weekend_flag_total v ts :
  dt_field Timestamp.dayofweek (Datetime ts) = Ok v →
  ∃ wk, for_each weekend_flag (cells v) = Ok wk.
Proof.
  intros (ts' & _ & _ & Hall)%dt_field_Ok. apply for_each_total.
  intros d Hd. rewrite Forall_forall in Hall.
  destruct (weekend_flag_day d) as (w & Hw & _); [|by exists w].
  destruct (Hall d Hd) as [->|Ht]; auto.
Qed.

Lemma time_features_total df ts :
  get_col df "Start_Time" = Ok (Datetime ts) →
  ∃ df', time_features df = Ok df' ∧
         ∀ n, n ∈ ["Year"; "Month"; "Day"; "Hour"; "DayOfWeek"; "Weekend"] →
              has_col df' n = true.
Proof.
  intros Hst. unfold time_features.
  destruct (assign_dt_total "Year" Timestamp.year df ts) as (v1 & H1 & S1); [done..|].
  destruct (assign_dt_total "Month" Timestamp.month _ ts ltac:(done) S1) as (v2 & H2 & S2).
  destruct (assign_dt_total "Day" Timestamp.day _ ts ltac:(done) S2) as (v3 & H3 & S3).
  destruct (assign_dt_total "Hour" Timestamp.hour _ ts ltac:(done) S3) as (v4 & H4 & S4).
  destruct (assign_dt_total "DayOfWeek" Timestamp.dayofweek _ ts ltac:(done) S4)
    as (v5 & H5 & S5).
  pose proof H5 as H5'. apply assign_dt_Ok in H5' as (st & v5' & Hst' & Hdt & Heq).
  assert (st = Datetime ts) as -> by congruence.
  assert (get_col (set_col (set_col (set_col (set_col (set_col df "Year" v1)
            "Month" v2) "Day" v3) "Hour" v4) "DayOfWeek" v5) "DayOfWeek" = Ok v5)
    as Hdow by apply get_col_set_col_eq.
  assert (v5' = v5) as ->.
  { apply (f_equal (fun d => get_col d "DayOfWeek")) in Heq.
    rewrite !get_col_set_col_eq in Heq. congruence. }
  destruct (weekend_flag_total _ _ Hdt) as [wk Hwk].
  eexists. split.
  - apply bind_Ok. eexists. split; [exact H1|].
    apply bind_Ok. eexists. split; [exact H2|].
    apply bind_Ok. eexists. split; [exact H3|].
    apply bind_Ok. eexists. split; [exact H4|].
    apply bind_Ok. eexists. split; [exact H5|].
    apply bind_Ok. eexists. split; [exact Hdow|].
    apply bind_Ok. exists (Int64 wk). split; [|done].
    unfold apply_int. apply bind_Ok. by exists wk.
  - intros n Hn.
    repeat (apply elem_of_cons in Hn as [->|Hn]);
      [rewrite ?has_col_set_col_ne by done; apply has_col_set_col_eq.. |
       by apply elem_of_nil in Hn].
Qed.

Lemma numeric_total c : numeric_col c → ∃ xs, numeric c = Ok xs.
Proof. destruct c; simpl; intros H; by (done || eexists). Qed.

Lemma numeric_col_fillna c m : numeric_col c → numeric_col (column_fillna c m).
Proof. by destruct c. Qed.

Lemma for_fold_impute_total cols df :
  NoDup cols →
  (∀ col c, col ∈ cols → get_col df col = Ok c → numeric_col c) →
  ∃ df', for_fold impute cols df = Ok df'.
Proof.
  revert df. induction cols as [|x cols IH]; intros df Hnd Hnum; simpl.
  - by eexists.
  - apply NoDup_cons in Hnd as [Hx Hnd].
    assert (∃ d1, impute df x = Ok d1) as [d1 H1].
    { unfold impute, column_median. destruct (has_col df x) eqn:Hh; [|by eexists].
      apply has_col_true_get_col in Hh as [c Hc]. rewrite Hc.
      destruct (numeric_total c) as [xs Hxs]; [apply (Hnum x); [by left | done]|].
      unfold mbind, result_bind. rewrite Hxs. by eexists. }
    rewrite H1. unfold mbind, result_bind. apply IH; [done|].
    intros col c Hin Hc. apply (Hnum col); [by right|].
    rewrite <- Hc. symmetry.
    eapply unchanged_outside_get_col; [by apply impute_spec|].
    intros ->%list_elem_of_singleton. done.
Qed.

Lemma weather_category_total df :
  (∀ wc, get_col df "Weather_Condition" = Ok wc → textual wc) →
  ∃ df', weather_category df = Ok df'.
Proof.
  intros Ht. unfold weather_category, apply_str.
  destruct (has_col df "Weather_Condition") eqn:Hh; [|by eexists].
  apply has_col_true_get_col in Hh as [wc Hwc]. rewrite Hwc.
  destruct (for_each_total map_weather (cells wc)) as [ss Hss].
  - intros x Hx. specialize (Ht wc Hwc). unfold textual in Ht.
    rewrite Forall_forall in Ht. destruct (Ht x Hx) as [-> | [t ->]]; by eexists.
  - unfold mbind, result_bind. rewrite Hss. by eexists.
Qed.

(** A processable table is enriched without an exception, and the
    enriched table has the columns the aggregates take for granted. *)
Lemma enrich_total raw :
  processable to_datetime_value raw →
  ∃ d, enrich to_datetime_value raw = Ok d ∧
       (∀ n, n ∈ ["State"; "ID"; "Year"; "Month"; "Hour"; "DayOfWeek"; "Weekend"] →
             has_col d n = true) ∧
       ∃ sev, get_col d "Severity" = Ok sev ∧ numeric_col sev.
Proof.
  intros (Hst & Het & Hnum & Hwc & HState & HSev & HID).
  destruct (convert_timestamps_total raw Hst Het) as (d1 & ts & H1 & Hts).
  destruct (convert_timestamps_spec _ _ _ H1) as [U1 _].
  destruct (time_features_total d1 ts Hts) as (d2 & H2 & Hcols).
  destruct (time_features_spec _ _ H2) as [U2 _].
  assert (∀ n, n ∉ ["Start_Time"; "End_Time"; "Duration_Minutes";
                    "Year"; "Month"; "Day"; "Hour"; "DayOfWeek"; "Weekend"] →
               get_col d2 n = get_col raw n) as G2.
  { intros n Hn.
    rewrite (unchanged_outside_get_col _ _ _ n U2), (unchanged_outside_get_col _ _ _ n U1);
      [done | |]; set_solver. }
  assert (NoDup (numerical_cols d2)) as Hnd.
  { unfold numerical_cols. destruct (has_col d2 _); by compute_done. }
  destruct (for_fold_impute_total (numerical_cols d2) d2 Hnd) as [d3 H3].
  { intros col c Hin Hc. apply (Hnum col c).
    - unfold numerical_cols in Hin. unfold imputed_cols.
      destruct (has_col d2 _); set_solver.
    - rewrite <- Hc. symmetry. apply G2.
      unfold numerical_cols in Hin. destruct (has_col d2 _); set_solver. }
  destruct (for_fold_impute _ _ _ H3 Hnd) as [U3 _].
  assert (unchanged_outside imputed_cols d2 d3) as U3'.
  { eapply unchanged_outside_weaken; [|exact U3].
    unfold numerical_cols, imputed_cols. destruct (has_col d2 _); set_solver. }
  destruct (weather_category_total d3) as [d4 H4].
  { intros wc Hg. apply Hwc. rewrite <- Hg. symmetry.
    rewrite (unchanged_outside_get_col _ _ _ _ U3'); [apply G2|];
      unfold imputed_cols; set_solver. }
  pose proof (weather_category_spec _ _ H4) as U4.
  assert (enrich to_datetime_value raw = Ok d4) as He.
  { unfold enrich, fill_missing. rewrite H1. unfold mbind at 1, result_bind at 1.
    rewrite H2. unfold mbind at 1, result_bind at 1.
    rewrite H3. done. }
  exists d4. split; [done|]. split.
  - intros n Hn.
    rewrite (unchanged_outside_has_col _ _ _ n U4),
            (unchanged_outside_has_col _ _ _ n U3');
      [| unfold imputed_cols; set_solver | set_solver].
    apply elem_of_cons in Hn as [->|Hn].
    { rewrite (has_col_ext d2 raw "State"); [done | apply G2; set_solver]. }
    apply elem_of_cons in Hn as [->|Hn].
    { rewrite (has_col_ext d2 raw "ID"); [done | apply G2; set_solver]. }
    apply Hcols. set_solver.
  - apply has_col_true_get_col in HSev as [c Hc].
    destruct (enrich_imputed to_datetime_value raw d4 "Severity" c He) as (xs & _ & Hg);
      [left; apply list_elem_of_here | done |].
    eexists. split; [exact Hg|].
    apply numeric_col_fillna, (Hnum "Severity"); [apply list_elem_of_here | done].
Qed.

End Success.

(** ** The aggregates succeed *)

Lemma col_len_of_cells like vals : col_len (of_cells like vals) = length vals.
Proof. unfold col_len. destruct like; simpl; by rewrite !length_fmap. Qed.

Lemma key_columns_col_len names kcols keys nc :
  nc ∈ key_columns names kcols keys → col_len nc.2 = length keys.
Proof.
  revert kcols keys. induction names as [|n names IH]; intros kcols keys; simpl.
  - by intros ?%elem_of_nil.
  - destruct kcols as [|c kcols]; [by intros ?%elem_of_nil|].
    intros [->|Hin]%elem_of_cons.
    + simpl. by rewrite col_len_of_cells, length_fmap.
    + apply IH in Hin. by rewrite length_fmap in Hin.
Qed.

Lemma group_frame_well_formed names kcols keys out c :
  col_len c = length keys →
  well_formed (mkDF (length keys) (key_columns names kcols keys ++ [(out, c)])) = true.
Proof.
  intros Hc. unfold well_formed. apply forallb_forall. cbn [columns nrows].
  intros nc [Hin | Hin]%list_elem_of_In%elem_of_app; apply bool_decide_eq_true.
  - by eapply key_columns_col_len.
  - apply list_elem_of_singleton in Hin as ->. done.
Qed.

Lemma groupby_size_total names out df :
  (∀ n, n ∈ names → has_col df n = true) →
  ∃ g, groupby_size names out df = Ok g ∧ well_formed g = true.
Proof.
  intros Hn. unfold groupby_size.
  destruct (for_each_total (get_col df) names) as [kcols Hk].
  { intros n Hin. by apply has_col_true_get_col, Hn. }
  rewrite Hk. unfold mbind, result_bind. eexists. split; [done|].
  apply group_frame_well_formed. by rewrite cells_length_Int64, length_fmap.
Qed.

Lemma groupby_mean_total name val out df sev :
  has_col df name = true → get_col df val = Ok sev → numeric_col sev →
  ∃ g, groupby_mean name val out df = Ok g ∧ well_formed g = true ∧
       has_col g name = true.
Proof.
  intros [kc Hkc]%has_col_true_get_col Hsev [vs Hvs]%numeric_total.
  unfold groupby_mean. rewrite Hkc, Hsev. unfold mbind, result_bind. rewrite Hvs.
  eexists. split; [done|]. split.
  - apply (group_frame_well_formed [name] [kc]).
    by rewrite cells_length_Float64, length_fmap.
  - unfold has_col. cbn [columns key_columns app assoc].
    rewrite decide_True by done. by apply bool_decide_eq_true_2.
Qed.

Lemma merge_total key left right :
  well_formed left = true → well_formed right = true →
  has_col left key = true → has_col right key = true →
  ∃ m, merge key left right = Ok m.
Proof.
  intros Hwl Hwr [kl Hkl]%has_col_true_get_col [kr Hkr]%has_col_true_get_col.
  unfold merge. rewrite Hkl, Hkr. unfold mbind at 1 2, result_bind at 1 2.
  set (pairs := _ ≫= _ : list (nat * nat)).
  assert (∀ i j, (i, j) ∈ pairs → i < nrows left ∧ j < nrows right) as Hp.
  { intros i j. unfold pairs. rewrite list_elem_of_bind.
    intros (i' & Hin & Hi'). apply list_elem_of_bind in Hin as (j' & Hin & Hj').
    apply list_elem_of_singleton in Hin as [= -> ->].
    apply list_elem_of_filter in Hj' as [_ Hj'].
    apply elem_of_seq in Hi', Hj'. lia. }
  destruct (take_total pairs.*1 left Hwl) as [l Hl].
  { intros i ([i' j] & -> & Hin)%list_elem_of_fmap. by apply (Hp i' j). }
  destruct (take_total pairs.*2 right Hwr) as [r Hr].
  { intros j ([i j'] & -> & Hin)%list_elem_of_fmap. by apply (Hp i j'). }
  rewrite Hl. unfold mbind at 1, result_bind at 1.
  rewrite Hr. by eexists.
Qed.

Lemma state_aggregate_total df sev :
  has_col df "State" = true → get_col df "Severity" = Ok sev → numeric_col sev →
  ∃ sd, state_aggregate df = Ok sd.
Proof.
  intros HS Hsev Hnum. unfold state_aggregate.
  destruct (groupby_size_total ["State"] "Accident_Count" df) as (sc & Hsc & Hwc).
  { by intros n ->%list_elem_of_singleton. }
  destruct (groupby_mean_total "State" "Severity" "Avg_Severity" df sev HS Hsev Hnum)
    as (sv & Hsv & Hwv & Hhv).
  rewrite Hsc, Hsv. unfold mbind at 1 2, result_bind at 1 2.
  apply merge_total; try done.
  apply groupby_size_counts in Hsc as (kcols & Hk & -> & _); [|set_solver].
  cbn [for_each] in Hk. apply bind_Ok in Hk as (kc & Hkc & Hk).
  injection Hk as <-. unfold has_col. cbn [columns key_columns app assoc].
  rewrite decide_True by done. by apply bool_decide_eq_true_2.
Qed.

Lemma weekday_aggregate_total df :
  has_col df "DayOfWeek" = true → has_col df "Weekend" = true →
  ∃ wd, weekday_aggregate df = Ok wd.
Proof.
  intros Hd Hw. unfold weekday_aggregate.
  destruct (groupby_size_total ["DayOfWeek"; "Weekend"] "Accident_Count" df)
    as (g & Hg & _).
  { intros n [->|[->|?%elem_of_nil]%elem_of_cons]%elem_of_cons; done. }
  rewrite Hg. unfold mbind at 1, result_bind at 1.
  apply groupby_size_counts in Hg as (kcols & Hk & -> & _); [|set_solver].
  cbn [for_each] in Hk.
  apply bind_Ok in Hk as (c1 & _ & Hk). apply bind_Ok in Hk as (ys & Hk & [= <-]).
  apply bind_Ok in Hk as (c2 & _ & Hk). apply bind_Ok in Hk as (ys' & [= <-] & [= <-]).
  unfold get_col. cbn [columns key_columns app assoc].
  rewrite decide_True by done. by eexists.
Qed.

Lemma weather_aggregate_total df sev :
  has_col df "ID" = true → get_col df "Severity" = Ok sev → numeric_col sev →
  ∃ wd, weather_aggregate df = Ok wd.
Proof.
  intros [idc Hid]%has_col_true_get_col Hsev [vs Hvs]%numeric_total.
  unfold weather_aggregate, groupby_count_mean.
  destruct (has_col df "Weather_Category") eqn:Hh; [|by eexists].
  apply has_col_true_get_col in Hh as [kc Hkc].
  rewrite Hkc, Hid, Hsev. unfold mbind, result_bind. rewrite Hvs. by eexists.
Qed.

Lemma city_aggregate_total df :
  has_col df "State" = true → ∃ cd, city_aggregate df = Ok cd.
Proof.
  intros HS. unfold city_aggregate.
  destruct (has_col df "City") eqn:HC; [|by eexists].
  destruct (groupby_size_total ["State"; "City"] "Accident_Count" df)
    as (g & Hg & Hwf).
  { intros n [->|[->|?%elem_of_nil]%elem_of_cons]%elem_of_cons; done. }
  rewrite Hg. unfold mbind at 1, result_bind at 1.
  apply groupby_size_counts in Hg as (kcols & _ & _ & Hc); [|set_solver].
  unfold sort_values_desc. rewrite Hc. unfold mbind at 2, result_bind at 2.
  destruct (take_total (merge_sort (desc_by (cells (Int64
              ((fun k => Z.of_nat (length (filter (k =.)
                 (key_rows kcols (nrows df))))) <$>
               group_keys (key_rows kcols (nrows df))))))
              (seq 0 (nrows g))) g Hwf) as [g' Hg'].
  { intros i Hi. rewrite merge_sort_Permutation in Hi.
    apply elem_of_seq in Hi. lia. }
  rewrite Hg'. by eexists.
Qed.

(** ** The whole run *)

Section Run.

Variable to_datetime_value : cell → option Z.
Variable choice : Z → nat → nat → list nat.

Lemma preprocess_data_total raw :
  processable to_datetime_value raw →
  ∃ ds, preprocess_data to_datetime_value raw = Ok ds.
Proof.
  intros (d & Hd & Hcols & sev & Hsev & Hnum)%enrich_total.
  assert (∀ n, n ∈ ["State"; "ID"; "Year"; "Month"; "Hour"; "DayOfWeek"; "Weekend"] →
               has_col d n = true) as Hc by done.
  destruct (state_aggregate_total d sev) as [a1 H1]; [apply Hc; set_solver | done..|].
  destruct (groupby_size_total ["Year"; "Month"] "Accident_Count" d) as (a2 & H2 & _).
  { intros n Hn. apply Hc. set_solver. }
  destruct (groupby_size_total ["Hour"] "Accident_Count" d) as (a3 & H3 & _).
  { intros n Hn. apply Hc. set_solver. }
  destruct (weekday_aggregate_total d) as [a4 H4]; [apply Hc; set_solver..|].
  destruct (weather_aggregate_total d sev) as [a5 H5]; [apply Hc; set_solver | done..|].
  destruct (city_aggregate_total d) as [a6 H6]; [apply Hc; set_solver|].
  unfold preprocess_data. rewrite Hd. unfold mbind at 1, result_bind at 1.
  rewrite H1. unfold mbind at 1, result_bind at 1.
  rewrite H2. unfold mbind at 1, result_bind at 1.
  rewrite H3. unfold mbind at 1, result_bind at 1.
  rewrite H4. unfold mbind at 1, result_bind at 1.
  rewrite H5. unfold mbind at 1, result_bind at 1.
  rewrite H6. by eexists.
Qed.

Lemma load_raw_data_small disk f raw :
  disk !! USER_PROVIDED_PATH = Some f →
  parsed f = Some raw →
  (st_size f ≤ 1000000000)%Z →
  load_raw_data choice disk = Ok raw.
Proof.
  intros Hf Hp Hsz. unfold load_raw_data. rewrite Hf.
  unfold read_csv_nrows, read_csv. rewrite Hp.
  unfold mbind, result_bind. by rewrite decide_False by lia.
Qed.

(** C7: with the input file at most 1 GB and at most 100,000 rows in it,
    every run of the script that completes leaves a "processed" file
    holding the enriched table, which has exactly the rows of the input:
    no stage has shortened or lengthened it. And the run does complete
    when the table is one the stages can process. *)
Theorem processed_file_row_count disk out f raw :
  disk !! USER_PROVIDED_PATH = Some f →
  parsed f = Some raw →
  (st_size f ≤ 1000000000)%Z →
  (Z.of_nat (nrows raw) ≤ 100000)%Z →
  (∀ out', main to_datetime_value choice disk out = Ok out' →
     ∃ t, out' !! "data/processed/accidents_processed.csv" = Some t ∧
          enrich to_datetime_value raw = Ok t ∧
          nrows t = nrows raw) ∧
  (processable to_datetime_value raw →
     ∃ out', main to_datetime_value choice disk out = Ok out').
Proof.
  intros Hf Hp Hsz Hn.
  pose proof (load_raw_data_small _ _ _ Hf Hp Hsz) as Hload.
  unfold main, ensure_directories. rewrite Hload.
  unfold mbind at 1 3, result_bind at 1 3. split.
  - intros out' H. apply bind_Ok in H as (ds & Hds & H).
    pose proof (preprocess_data_nrows _ _ _ Hds) as Hrows.
    destruct (save_processed_data_small choice ds out) as (out'' & Hs & Hl); [lia|].
    assert (out'' = out') as -> by congruence.
    exists (main_data ds). split; [done|]. split; [|done].
    by apply preprocess_data_enrich.
  - intros [ds Hds]%preprocess_data_total. rewrite Hds.
    unfold mbind, result_bind.
    pose proof (preprocess_data_nrows _ _ _ Hds) as Hrows.
    destruct (save_processed_data_small choice ds out) as (out' & Hs & _); [lia|].
    by exists out'.
Qed.

End Run.

(** * Runs on concrete data *)

Lemma demo_choice_length seed population size :
  size ≤ population → length (Demo.choice seed population size) = size.
Proof. intros _. unfold Demo.choice. by rewrite length_fmap, length_seq. Qed.

Lemma demo_choice_range seed population size i :
  size ≤ population → i ∈ Demo.choice seed population size → i < population.
Proof.
  unfold Demo.choice. intros Hle (k & -> & Hk)%list_elem_of_fmap.
  apply elem_of_seq in Hk. apply Nat.mod_upper_bound. lia.
Qed.

Lemma demo_big_table_well_formed : well_formed Demo.big_table = true.
Proof.
  unfold Demo.big_table, well_formed. generalize (Z.to_nat 100001). intros n.
  cbn [columns nrows forallb snd]. rewrite cells_length_Int64, length_replicate.
  by rewrite bool_decide_eq_true_2.
Qed.

(** With the state of one of two accidents missing, the per-state counts
    add up to 1 while the enriched table has 2 rows. *)
Lemma state_counts_sum_missing_state :
  ∃ ds counts,
    preprocess_data Demo.to_datetime_value Demo.missing_state = Ok ds ∧
    get_col (state_data ds) "Accident_Count" = Ok (Int64 counts) ∧
    foldr Z.add 0%Z counts = 1%Z ∧
    nrows (main_data ds) = 2 ∧
    foldr Z.add 0%Z counts ≠ Z.of_nat (nrows (main_data ds)).
Proof.
  eexists _, _. split; [vm_compute; reflexivity|].
  split; [vm_compute; reflexivity|].
  split; [reflexivity|]. split; [reflexivity|]. vm_compute. discriminate.
Qed.

Lemma state_counts_sum_witness :
  preprocess_data Demo.to_datetime_value Demo.accidents = Ok Demo.processed ∧
  ∃ sc counts,
    get_col (main_data Demo.processed) "State" = Ok sc ∧
    get_col (state_data Demo.processed) "Accident_Count" = Ok (Int64 counts) ∧
    foldr Z.add 0%Z counts = Z.of_nat (length (filter (.≠ CNaN) (cells sc))) ∧
    (CNaN ∉ cells sc →
     foldr Z.add 0%Z counts = Z.of_nat (nrows (main_data Demo.processed))).
Proof.
  assert (preprocess_data Demo.to_datetime_value Demo.accidents = Ok Demo.processed)
    as H by (vm_compute; reflexivity).
  split; [exact H|].
  apply (state_counts_sum Demo.to_datetime_value Demo.accidents Demo.processed H).
  vm_compute; reflexivity.
Defined.

Lemma missing_values_filled_with_median_witness :
  preprocess_data Demo.to_datetime_value Demo.accidents = Ok Demo.processed ∧
  get_col (main_data Demo.processed) "Severity"
    = Ok (Float64 ((fun x => match x with
                             | Some v => Some v
                             | None => median [Demo.q 2; None; Demo.q 4; Demo.q 3]
                             end)
                     <$> [Demo.q 2; None; Demo.q 4; Demo.q 3])).
Proof.
  assert (preprocess_data Demo.to_datetime_value Demo.accidents = Ok Demo.processed)
    as H by (vm_compute; reflexivity).
  split; [exact H|].
  refine (proj1 (missing_values_filled_with_median Demo.to_datetime_value
                   Demo.accidents Demo.processed "Severity" _ H _ _)).
  - left. apply list_elem_of_here.
  - reflexivity.
Defined.

Lemma all_missing_column_stays_missing_witness :
  preprocess_data Demo.to_datetime_value Demo.accidents = Ok Demo.processed ∧
  ∃ ys, get_col (main_data Demo.processed) "Visibility(mi)" = Ok (Float64 ys) ∧
        ((∀ x, x ∈ [@None Qc; None; None; None] → x = None) →
         median [@None Qc; None; None; None] = None ∧ ys = [@None Qc; None; None; None]) ∧
        ((∃ v, Some v ∈ [@None Qc; None; None; None]) →
         is_Some (median [@None Qc; None; None; None]) ∧ None ∉ ys).
Proof.
  assert (preprocess_data Demo.to_datetime_value Demo.accidents = Ok Demo.processed)
    as H by (vm_compute; reflexivity).
  split; [exact H|].
  refine (all_missing_column_stays_missing Demo.to_datetime_value
            Demo.accidents Demo.processed "Visibility(mi)" _ H _ _).
  - right. split; [apply list_elem_of_further, list_elem_of_here | reflexivity].
  - reflexivity.
Defined.

Lemma weekend_iff_day_5_or_6_witness :
  preprocess_data Demo.to_datetime_value Demo.accidents = Ok Demo.processed ∧
  ∃ dow wk,
    get_col (main_data Demo.processed) "DayOfWeek" = Ok dow ∧
    get_col (main_data Demo.processed) "Weekend" = Ok (Int64 wk) ∧
    length wk = col_len dow ∧
    (well_formed Demo.accidents = true → length wk = nrows (main_data Demo.processed)) ∧
    ∀ i d, cells dow !! i = Some d →
           ∃ w, wk !! i = Some w ∧ (w = 0 ∨ w = 1)%Z ∧ (w = 1%Z ↔ sat_or_sun d).
Proof.
  assert (preprocess_data Demo.to_datetime_value Demo.accidents = Ok Demo.processed)
    as H by (vm_compute; reflexivity).
  split; [exact H|].
  exact (weekend_iff_day_5_or_6 Demo.to_datetime_value Demo.accidents Demo.processed H).
Defined.

Lemma city_table_sorted_top_50_witness :
  preprocess_data Demo.to_datetime_value Demo.accidents = Ok Demo.processed ∧
  has_col Demo.accidents "City" = true ∧
  ∃ counts, get_col (city_data Demo.processed) "Accident_Count" = Ok (Int64 counts) ∧
            Sorted Z.ge counts ∧
            nrows (city_data Demo.processed) ≤ 50 ∧
            length counts = nrows (city_data Demo.processed).
Proof.
  assert (preprocess_data Demo.to_datetime_value Demo.accidents = Ok Demo.processed)
    as H by (vm_compute; reflexivity).
  split; [exact H|]. split; [reflexivity|].
  apply (proj1 (city_table_sorted_top_50 Demo.to_datetime_value
                  Demo.accidents Demo.processed H)).
  reflexivity.
Defined.

Lemma demo_accidents_processable :
  processable Demo.to_datetime_value Demo.accidents.
Proof.
  unfold processable, convertible, textual, imputed_cols.
  split; [eexists; split; [reflexivity|]|].
  { simpl. repeat (apply Forall_cons_2; [right; eexists; vm_compute; reflexivity|]).
    apply Forall_nil_2. }
  split.
  { intros et [= <-]. simpl.
    repeat (apply Forall_cons_2;
              [(by left) || (right; eexists; vm_compute; reflexivity)|]).
    apply Forall_nil_2. }
  split.
  { intros col c Hin Hc.
    repeat (apply elem_of_cons in Hin as [->|Hin]);
      [injection Hc as <-; exact I.. | by apply elem_of_nil in Hin]. }
  split; [|by repeat split].
  intros wc [= <-]. simpl.
  repeat (apply Forall_cons_2; [(by left) || (right; by eexists)|]).
  apply Forall_nil_2.
Qed.

Lemma processed_file_row_count_witness :
  (∃ out', main Demo.to_datetime_value Demo.choice Demo.disk ∅ = Ok out') ∧
  ∀ out', main Demo.to_datetime_value Demo.choice Demo.disk ∅ = Ok out' →
    ∃ t, out' !! "data/processed/accidents_processed.csv" = Some t ∧
         enrich Demo.to_datetime_value Demo.accidents = Ok t ∧
         nrows t = nrows Demo.accidents.
Proof.
  assert (Demo.disk !! USER_PROVIDED_PATH = Some (mkRaw 4096 (Some Demo.accidents)))
    as Hf by reflexivity.
  assert (parsed (mkRaw 4096 (Some Demo.accidents)) = Some Demo.accidents)
    as Hp by reflexivity.
  assert (st_size (mkRaw 4096 (Some Demo.accidents)) ≤ 1000000000)%Z
    as Hsz by (simpl; lia).
  assert (Z.of_nat (nrows Demo.accidents) ≤ 100000)%Z as Hn by (simpl; lia).
  destruct (processed_file_row_count Demo.to_datetime_value Demo.choice
              Demo.disk ∅ _ _ Hf Hp Hsz Hn) as [Hrows Hruns].
  split; [|exact Hrows].
  apply Hruns, demo_accidents_processable.
Defined.

Lemma sample_file_rows_and_determinism_witness :
  ∃ s out1' out2',
    save_processed_data Demo.choice Demo.big ∅ = Ok out1' ∧
    save_processed_data Demo.choice Demo.big
      {[ "data/processed/accidents_sample.csv" := empty_frame ]} = Ok out2' ∧
    out1' !! "data/processed/accidents_sample.csv" = Some s ∧
    out2' !! "data/processed/accidents_sample.csv" = Some s ∧
    Z.of_nat (nrows s) = 100000%Z.
Proof.
  apply (sample_file_rows_and_determinism Demo.choice Demo.big Demo.big).
  - apply demo_choice_length.
  - apply demo_choice_range.
  - reflexivity.
  - apply demo_big_table_well_formed.
  - unfold Demo.big, Demo.big_table. cbn [main_data nrows]. lia.
Defined.

(** * Further properties of the stages *)

Lemma Ok_inj {A : Type} (a b : A) : Ok a = Ok b → a = b.
Proof. by intros [= ->]. Qed.

(** ** Writer: which files are written *)

Lemma write_aggregates_each (l : list (string * DataFrame))
    (out : gmap string DataFrame) :
  NoDup ((fun nd => path_join PROCESSED_DIR (nd.1 +:+ ".csv")) <$> l) →
  ∀ nd, nd ∈ l →
    foldl (fun (out : gmap string DataFrame) (nd : string * DataFrame) =>
             if bool_decide (nd.1 ≠ "main_data") && negb (df_empty nd.2)
             then to_csv (path_join PROCESSED_DIR (nd.1 +:+ ".csv")) nd.2 out
             else out) out l
      !! path_join PROCESSED_DIR (nd.1 +:+ ".csv")
    = if bool_decide (nd.1 ≠ "main_data") && negb (df_empty nd.2)
      then Some nd.2
      else out !! path_join PROCESSED_DIR (nd.1 +:+ ".csv").
Proof.
  revert out. induction l as [|x l IH]; intros out Hnd nd Hin.
  - by apply elem_of_nil in Hin.
  - rewrite fmap_cons in Hnd. apply NoDup_cons in Hnd as [Hx Hnd].
    cbn [foldl]. apply elem_of_cons in Hin as [->|Hin].
    + rewrite write_aggregates_lookup.
      * destruct (_ && _); [|done]. unfold to_csv. apply lookup_insert_eq.
      * intros nd' Hin' Heq. apply Hx. rewrite <- Heq.
        apply list_elem_of_fmap. by exists nd'.
    + rewrite (IH _ Hnd nd Hin). destruct (bool_decide (nd.1 ≠ _) && _); [done|].
      destruct (_ && _); [|done]. unfold to_csv. apply lookup_insert_ne.
      intros Heq. apply Hx. rewrite Heq. apply list_elem_of_fmap. by exists nd.
Qed.

Lemma items_paths_NoDup ds :
  NoDup ((fun nd => path_join PROCESSED_DIR (nd.1 +:+ ".csv")) <$> items ds).
Proof. unfold items. cbn [fmap list_fmap fst]. by compute_done. Qed.

Section WriterFiles.

Variable choice : Z → nat → nat → list nat.

(** X1: after the writer has run, every aggregate that is not empty is
    in the file named after it, the file of an empty aggregate is as it
    was before, and so is every file that is neither the sample file,
    the processed file nor the file of an aggregate; no file called
    main_data.csv is written. *)
Theorem save_processed_data_aggregates ds out out' :
  save_processed_data choice ds out = Ok out' →
  (∀ name data, (name, data) ∈ items ds → name ≠ "main_data" →
     out' !! path_join PROCESSED_DIR (name +:+ ".csv")
     = if df_empty data
       then out !! path_join PROCESSED_DIR (name +:+ ".csv")
       else Some data) ∧
  out' !! path_join PROCESSED_DIR "main_data.csv"
    = out !! path_join PROCESSED_DIR "main_data.csv" ∧
  (∀ p, p ≠ path_join PROCESSED_DIR "accidents_sample.csv" →
        p ≠ path_join PROCESSED_DIR "accidents_processed.csv" →
        (∀ nd, nd ∈ items ds → path_join PROCESSED_DIR (nd.1 +:+ ".csv") ≠ p) →
        out' !! p = out !! p).
Proof.
  unfold save_processed_data. intros H.
  apply bind_Ok in H as (out1 & H1 & <-%Ok_inj).
  assert (∀ p, p ≠ path_join PROCESSED_DIR "accidents_sample.csv" →
               p ≠ path_join PROCESSED_DIR "accidents_processed.csv" →
               out1 !! p = out !! p) as Hother.
  { intros p Hs Hp. destruct (decide _).
    - apply bind_Ok in H1 as (s & _ & [= <-]).
      unfold to_csv. by rewrite lookup_insert_ne.
    - injection H1 as <-. unfold to_csv. by rewrite lookup_insert_ne. }
  split; [|split].
  - intros name data Hin Hname.
    pose proof (write_aggregates_each _ out1 (items_paths_NoDup ds) (name, data) Hin)
      as He.
    cbn [fst snd] in He. rewrite He.
    rewrite bool_decide_eq_true_2 by done. cbn [andb].
    destruct (df_empty data); cbn [negb]; [|done].
    apply Hother; unfold items in Hin;
      repeat (apply elem_of_cons in Hin as [[= -> _]|Hin]);
      try (by apply elem_of_nil in Hin); try (by destruct Hname); by vm_compute.
  - pose proof (write_aggregates_each _ out1 (items_paths_NoDup ds)
                  ("main_data", main_data ds) (list_elem_of_here _ _)) as He.
    cbn [fst snd] in He. change ("main_data" +:+ ".csv") with "main_data.csv" in He.
    rewrite He.
    rewrite bool_decide_eq_false_2 by (intros Hn; by apply Hn).
    cbn [andb]. apply Hother; by vm_compute.
  - intros p Hs Hp Hagg. rewrite write_aggregates_lookup by done. by apply Hother.
Qed.

(** X2: of the two files for the main table the writer writes one and
    leaves the other as it was: the processed file, holding the whole
    table, for up to 100,000 rows, and the sample file, holding the rows
    drawn with seed 42, for more. *)
Theorem save_processed_data_main_file ds out out' :
  save_processed_data choice ds out = Ok out' →
  ((Z.of_nat (nrows (main_data ds)) ≤ 100000)%Z →
     out' !! path_join PROCESSED_DIR "accidents_processed.csv" = Some (main_data ds) ∧
     out' !! path_join PROCESSED_DIR "accidents_sample.csv"
       = out !! path_join PROCESSED_DIR "accidents_sample.csv") ∧
  ((100000 < Z.of_nat (nrows (main_data ds)))%Z →
     ∃ s, take (choice 42 (nrows (main_data ds)) (Z.to_nat 100000)) (main_data ds) = Ok s ∧
          out' !! path_join PROCESSED_DIR "accidents_sample.csv" = Some s ∧
          out' !! path_join PROCESSED_DIR "accidents_processed.csv"
            = out !! path_join PROCESSED_DIR "accidents_processed.csv").
Proof.
  pose proof sample_threshold_value as Ht.
  unfold save_processed_data. intros H.
  apply bind_Ok in H as (out1 & H1 & <-%Ok_inj).
  rewrite (write_aggregates_lookup (items ds) out1
             (path_join PROCESSED_DIR "accidents_processed.csv"))
    by (apply aggregate_paths; left; reflexivity).
  rewrite (write_aggregates_lookup (items ds) out1
             (path_join PROCESSED_DIR "accidents_sample.csv"))
    by (apply aggregate_paths; right; reflexivity).
  split; intros Hn.
  - rewrite decide_False in H1 by lia. injection H1 as <-.
    unfold to_csv. rewrite lookup_insert_eq. split; [done|].
    apply lookup_insert_ne. by vm_compute.
  - rewrite decide_True in H1 by lia.
    apply bind_Ok in H1 as (s & Hs & [= <-]).
    unfold sample in Hs. rewrite decide_True in Hs by lia.
    exists s. split; [exact Hs|].
    unfold to_csv. rewrite lookup_insert_eq. split; [done|].
    apply lookup_insert_ne. by vm_compute.
Qed.

End WriterFiles.

Lemma demo_processed_small :
  (Z.of_nat (nrows (main_data Demo.processed)) ≤ 100000)%Z.
Proof. by vm_compute. Qed.

Lemma save_processed_data_aggregates_witness :
  ∃ out',
    save_processed_data Demo.choice Demo.processed ∅ = Ok out' ∧
    out' !! path_join PROCESSED_DIR ("state_data" +:+ ".csv")
      = (if df_empty (state_data Demo.processed)
         then (∅ : gmap string DataFrame) !! path_join PROCESSED_DIR ("state_data" +:+ ".csv")
         else Some (state_data Demo.processed)) ∧
    out' !! path_join PROCESSED_DIR "main_data.csv"
      = (∅ : gmap string DataFrame) !! path_join PROCESSED_DIR "main_data.csv".
Proof.
  destruct (save_processed_data_small Demo.choice Demo.processed ∅
              demo_processed_small) as (out' & H & _).
  exists out'. split; [exact H|].
  destruct (save_processed_data_aggregates Demo.choice Demo.processed ∅ out' H)
    as (Hagg & Hmain & _).
  split; [|exact Hmain].
  apply (Hagg "state_data" (state_data Demo.processed)); [|done].
  apply list_elem_of_further, list_elem_of_here.
Defined.

Lemma save_processed_data_main_file_witness :
  ∃ out',
    save_processed_data Demo.choice Demo.processed ∅ = Ok out' ∧
    out' !! path_join PROCESSED_DIR "accidents_processed.csv"
      = Some (main_data Demo.processed) ∧
    out' !! path_join PROCESSED_DIR "accidents_sample.csv"
      = (∅ : gmap string DataFrame) !! path_join PROCESSED_DIR "accidents_sample.csv".
Proof.
  destruct (save_processed_data_small Demo.choice Demo.processed ∅
              demo_processed_small) as (out' & H & _).
  exists out'. split; [exact H|].
  exact (proj1 (save_processed_data_main_file Demo.choice Demo.processed ∅ out' H)
           demo_processed_small).
Defined.

(** ** Loader: files of more than 1 GB, and files that cannot be read *)

Lemma round_tenth_bounds n :
  round_tenth n ≤ n ∧ 10 * round_tenth n ≤ n + 5 ∧ n ≤ 10 * round_tenth n + 5.
Proof.
  unfold round_tenth.
  pose proof (Nat.div_mod_eq n 10) as Hdm.
  pose proof (Nat.mod_upper_bound n 10 ltac:(done)) as Hm.
  destruct (decide (n `mod` 10 < 5)); [lia|].
  destruct (decide (5 < n `mod` 10)); [lia|].
  destruct (Nat.even (n / 10)); lia.
Qed.

Lemma assoc_filter (U : list string) name cols :
  assoc name (filter (fun nc : string * column => nc.1 ∈ U) cols)
  = if decide (name ∈ U) then assoc name cols else None.
Proof.
  induction cols as [|[m c] cols IH]; [by destruct (decide _)|].
  rewrite filter_cons. cbn [fst]. destruct (decide (m ∈ U)) as [Hm|Hm]; cbn [assoc].
  - destruct (decide (m = name)) as [->|Hne]; [by rewrite decide_True|]. apply IH.
  - rewrite IH. destruct (decide (name ∈ U)); [|done].
    rewrite decide_False; [done|]. by intros ->.
Qed.

Lemma take_assoc idxs df df' name :
  take idxs df = Ok df' →
  is_Some (assoc name (columns df')) ↔ is_Some (assoc name (columns df)).
Proof.
  unfold take. destruct (forallb _ idxs); [|done]. intros H.
  apply bind_Ok in H as (cols & Hcols & <-%Ok_inj). cbn [columns].
  apply for_each_Ok in Hcols.
  induction Hcols as [|[n c0] [n' c0'] l l' Hx _ IH]; [done|].
  cbn [fst snd] in Hx. apply bind_Ok in Hx as (c1 & _ & [= <- <-]).
  cbn [assoc]. destruct (decide (n = name)); [|done].
  split; intros _; by eexists.
Qed.

Lemma filter_well_formed (P : string * column → Prop) `{!∀ x, Decision (P x)} df :
  well_formed df = true → well_formed (mkDF (nrows df) (filter P (columns df))) = true.
Proof.
  unfold well_formed. rewrite !forallb_forall. cbn [nrows columns].
  intros Hwf nc Hin. apply Hwf.
  apply list_elem_of_In. apply list_elem_of_In in Hin.
  by apply list_elem_of_filter in Hin as [_ ?].
Qed.

Section LoaderLarge.

Variable choice : Z → nat → nat → list nat.

(** X3: of a well-formed file of more than 1 GB that has the thirteen
    columns, the loader returns whole rows: the rows at the positions
    drawn with seed 42, a tenth of the rows of the file rounded to the
    nearest number (so within 5 of a tenth of them), and of each row the
    thirteen columns and no other. *)
Theorem load_raw_data_large disk f raw :
  (∀ seed population size, size ≤ population →
     length (choice seed population size) = size) →
  (∀ seed population size i, size ≤ population →
     i ∈ choice seed population size → i < population) →
  disk !! USER_PROVIDED_PATH = Some f →
  parsed f = Some raw →
  (1000000000 < st_size f)%Z →
  well_formed raw = true →
  (∀ n, n ∈ usecols → has_col raw n = true) →
  ∃ df,
    load_raw_data choice disk = Ok df ∧
    nrows df = round_tenth (nrows raw) ∧
    10 * nrows df ≤ nrows raw + 5 ∧ nrows raw ≤ 10 * nrows df + 5 ∧
    (∀ n, has_col df n = true ↔ n ∈ usecols) ∧
    (∀ n c, n ∈ usecols → get_col raw n = Ok c →
       ∃ c', take_col (choice 42 (nrows raw) (round_tenth (nrows raw))) c = Ok c' ∧
             get_col df n = Ok c').
Proof.
  intros Hlen Hrange Hf Hp Hsz Hwf Hcols.
  destruct (round_tenth_bounds (nrows raw)) as (Hle & Hlo & Hhi).
  set (kept := mkDF (nrows raw) (filter (fun nc => nc.1 ∈ usecols) (columns raw))).
  assert (read_csv_usecols usecols f = Ok kept) as Hread.
  { unfold read_csv_usecols, read_csv. rewrite Hp. unfold mbind, result_bind.
    assert (forallb (has_col raw) usecols = true) as ->; [|done].
    apply forallb_forall. intros n Hn%list_elem_of_In. by apply Hcols. }
  destruct (take_total (choice 42 (nrows raw) (round_tenth (nrows raw))) kept)
    as [df Hdf].
  { by apply filter_well_formed. }
  { intros i Hi. cbn [nrows kept]. by eapply Hrange. }
  exists df.
  assert (load_raw_data choice disk = Ok df) as Hload.
  { unfold load_raw_data. rewrite Hf. unfold read_csv_nrows, read_csv. rewrite Hp.
    unfold mbind at 1 2, result_bind at 1 2. rewrite decide_True by done.
    fold usecols. rewrite Hread. unfold mbind, result_bind.
    unfold sample_tenth, sample. cbn [nrows kept]. by rewrite decide_True. }
  split; [done|].
  pose proof (take_nrows _ _ _ Hdf) as Hn. rewrite Hlen in Hn by done.
  split; [done|]. split; [lia|]. split; [lia|]. split.
  - intros n. unfold has_col. rewrite bool_decide_eq_true.
    rewrite (take_assoc _ _ _ n Hdf). cbn [columns kept]. rewrite assoc_filter.
    destruct (decide (n ∈ usecols)) as [Hin|Hin].
    + split; [done|]. intros _. specialize (Hcols n Hin).
      unfold has_col in Hcols. by apply bool_decide_eq_true in Hcols.
    + split; [by intros [? ?] | done].
  - intros n c Hin Hc. apply (take_get_col _ kept); [done|].
    unfold get_col in *. cbn [columns kept]. rewrite assoc_filter.
    by rewrite decide_True.
Qed.


End LoaderLarge.

Lemma demo_wide_well_formed : well_formed Demo.wide = true.
Proof. by vm_compute. Qed.

Lemma demo_wide_usecols n : n ∈ usecols → has_col Demo.wide n = true.
Proof.
  unfold usecols. intros Hn.
  repeat (apply elem_of_cons in Hn as [->|Hn]); [by vm_compute..|].
  by apply elem_of_nil in Hn.
Qed.

Lemma load_raw_data_large_witness :
  ∃ df,
    load_raw_data Demo.choice Demo.big_disk = Ok df ∧
    nrows df = round_tenth (nrows Demo.wide) ∧
    10 * nrows df ≤ nrows Demo.wide + 5 ∧ nrows Demo.wide ≤ 10 * nrows df + 5 ∧
    (∀ n, has_col df n = true ↔ n ∈ usecols) ∧
    (∀ n c, n ∈ usecols → get_col Demo.wide n = Ok c →
       ∃ c', take_col (Demo.choice 42 (nrows Demo.wide) (round_tenth (nrows Demo.wide))) c
             = Ok c' ∧
             get_col df n = Ok c').
Proof.
  apply (load_raw_data_large Demo.choice Demo.big_disk
           (mkRaw 2000000000 (Some Demo.wide)) Demo.wide).
  - apply demo_choice_length.
  - apply demo_choice_range.
  - reflexivity.
  - reflexivity.
  - simpl. lia.
  - apply demo_wide_well_formed.
  - apply demo_wide_usecols.
Defined.


(** ** Transformer: the stages of the enrichment *)

Section Stages.

Variable to_datetime_value : cell → option Z.

Lemma enrich_stages raw d :
  enrich to_datetime_value raw = Ok d →
  ∃ d1 d2 d3,
    convert_timestamps to_datetime_value raw = Ok d1 ∧
    time_features d1 = Ok d2 ∧
    for_fold impute (numerical_cols d2) d2 = Ok d3 ∧
    weather_category d3 = Ok d ∧
    unchanged_outside ["Start_Time"; "End_Time"; "Duration_Minutes"] raw d1 ∧
    unchanged_outside ["Year"; "Month"; "Day"; "Hour"; "DayOfWeek"; "Weekend"] d1 d2 ∧
    unchanged_outside imputed_cols d2 d3 ∧
    unchanged_outside ["Weather_Category"] d3 d.
Proof.
  unfold enrich, fill_missing. intros H.
  apply bind_Ok in H as (d1 & H1 & H).
  apply bind_Ok in H as (d2 & H2 & H).
  apply bind_Ok in H as (d3 & H3 & H4).
  exists d1, d2, d3. repeat split; try done.
  - by apply convert_timestamps_spec in H1 as [[? ?] _].
  - by apply convert_timestamps_spec in H1 as [[? ?] _].
  - by apply time_features_spec in H2 as [[? ?] _].
  - by apply time_features_spec in H2 as [[? ?] _].
  - apply for_fold_impute in H3 as [[? ?] _]; [done|].
    unfold numerical_cols. destruct (has_col d2 _); by compute_done.
  - apply for_fold_impute in H3 as [U3 _];
      [|unfold numerical_cols; destruct (has_col d2 _); by compute_done].
    eapply unchanged_outside_weaken in U3 as [_ U3]; [apply U3|].
    unfold numerical_cols, imputed_cols. destruct (has_col d2 _); set_solver.
  - by apply weather_category_spec in H4 as [? ?].
  - by apply weather_category_spec in H4 as [? ?].
Qed.

End Stages.

(** ** Transformer: weather categories *)

Lemma scan_categories_range items text :
  scan_categories items text ∈ items.*1 ++ ["other"].
Proof.
  induction items as [|[category terms] rest IH]; simpl.
  - apply list_elem_of_here.
  - destruct (any_term_in terms text); [apply list_elem_of_here|].
    by apply list_elem_of_further.
Qed.

Lemma scan_categories_not_unknown text :
  scan_categories weather_mapping text ≠ "unknown".
Proof.
  pose proof (scan_categories_range weather_mapping text) as H. intros E.
  rewrite E in H. cbn in H.
  repeat (apply elem_of_cons in H as [H|H]; [discriminate H|]).
  by apply elem_of_nil in H.
Qed.

Lemma map_weather_range c s :
  map_weather c = Ok s → s ∈ weather_categories ∧ (s = "unknown" ↔ c = CNaN).
Proof.
  destruct c as [| | |t|]; simpl; try done.
  - intros [= <-]. split; [|done]. unfold weather_categories.
    do 7 apply list_elem_of_further. apply list_elem_of_here.
  - intros [= <-]. split.
    + pose proof (scan_categories_range weather_mapping (Str.lower t)) as H.
      cbn in H. unfold weather_categories.
      repeat (apply elem_of_cons in H as [->|H]);
        [repeat (apply list_elem_of_here || apply list_elem_of_further)..|].
      by apply elem_of_nil in H.
    + split; [|done]. intros E. by apply scan_categories_not_unknown in E.
Qed.

Section WeatherCategory.

Variable to_datetime_value : cell → option Z.

(** X5: when the data have a Weather_Condition column, the enriched
    table has a Weather_Category column that gives every row one of the
    nine category words, never a missing value, and "unknown" exactly to
    the rows whose condition is missing. When the data have neither
    column, none is added and the weather table is the empty frame. *)
Theorem weather_category_values df ds :
  preprocess_data to_datetime_value df = Ok ds →
  (∀ wc, get_col df "Weather_Condition" = Ok wc →
     ∃ cats, get_col (main_data ds) "Weather_Category" = Ok (Object cats) ∧
             length cats = col_len wc ∧
             ∀ i c, cells wc !! i = Some c →
                    ∃ s, cats !! i = Some (Some s) ∧
                         map_weather c = Ok s ∧
                         s ∈ weather_categories ∧
                         (s = "unknown" ↔ c = CNaN)) ∧
  (has_col df "Weather_Condition" = false →
   has_col df "Weather_Category" = false →
   has_col (main_data ds) "Weather_Category" = false ∧
   weather_data ds = empty_frame).
Proof.
  intros (He & _ & _ & _ & _ & Hw & _)%preprocess_data_inv.
  destruct (enrich_stages _ _ _ He) as (d1 & d2 & d3 & _ & _ & _ & H4 & U1 & U2 & U3 & U4).
  assert (∀ n, n ∈ ["Weather_Condition"; "Weather_Category"] →
               get_col d3 n = get_col df n) as G.
  { intros n Hn.
    rewrite (unchanged_outside_get_col _ _ _ n U3),
            (unchanged_outside_get_col _ _ _ n U2),
            (unchanged_outside_get_col _ _ _ n U1);
      [done|..]; unfold imputed_cols; set_solver. }
  split.
  - intros wc Hwc. rewrite <- G in Hwc by set_solver.
    unfold weather_category, apply_str in H4.
    rewrite (get_col_has_col _ _ _ Hwc), Hwc in H4.
    apply bind_Ok in H4 as (wc' & [= <-] & H4).
    apply bind_Ok in H4 as (cat & Hcat & <-%Ok_inj).
    apply bind_Ok in Hcat as (ss & Hss & [= <-]).
    exists (Some <$> ss). split; [apply get_col_set_col_eq|].
    split; [rewrite length_fmap; by eapply for_each_length|].
    intros i c Hc. apply for_each_Ok in Hss.
    destruct (Forall2_lookup_l _ _ _ _ _ Hss Hc) as (s & Hs & Hm).
    exists s. split; [by rewrite list_lookup_fmap, Hs|]. split; [done|].
    by apply map_weather_range.
  - intros Hno Hnc.
    assert (has_col d3 "Weather_Condition" = false) as Hno3.
    { rewrite (has_col_ext d3 df "Weather_Condition"); [done | apply G; set_solver]. }
    unfold weather_category in H4. rewrite Hno3 in H4. apply Ok_inj in H4 as Hd.
    assert (has_col d3 "Weather_Category" = false) as Hnc3.
    { rewrite (has_col_ext d3 df "Weather_Category"); [done | apply G; set_solver]. }
    rewrite <- Hd in Hw |- *. split; [done|].
    unfold weather_aggregate in Hw. rewrite Hnc3 in Hw. by apply Ok_inj in Hw.
Qed.

End WeatherCategory.

Lemma weather_category_values_witness :
  preprocess_data Demo.to_datetime_value Demo.accidents = Ok Demo.processed ∧
  ∃ cats,
    get_col (main_data Demo.processed) "Weather_Category" = Ok (Object cats) ∧
    length cats = 4 ∧
    ∀ i c, [CStr "Freezing Rain"; CStr "CLEAR"; CNaN; CStr "tornado"] !! i = Some c →
           ∃ s, cats !! i = Some (Some s) ∧ map_weather c = Ok s ∧
                s ∈ weather_categories ∧ (s = "unknown" ↔ c = CNaN).
Proof.
  assert (preprocess_data Demo.to_datetime_value Demo.accidents = Ok Demo.processed)
    as H by (vm_compute; reflexivity).
  split; [exact H|].
  exact (proj1 (weather_category_values Demo.to_datetime_value
                  Demo.accidents Demo.processed H)
           (Object [Some "Freezing Rain"; Some "CLEAR"; None; Some "tornado"])
           eq_refl).
Defined.

(** ** Transformer: durations *)

Lemma minutes_times_ns (z : Z) :
  (Q2Qc (Qmake z 60000000000) * Z2Qc 60000000000 = Z2Qc z)%Qc.
Proof.
  unfold Z2Qc, Qcmult. apply Q2Qc_eq_iff. simpl. rewrite !Qred_correct.
  unfold Qeq, Qmult, inject_Z. simpl. lia.
Qed.

Section Durations.

Variable to_datetime_value : cell → option Z.

Lemma convert_timestamps_End df df' :
  convert_timestamps to_datetime_value df = Ok df' →
  has_col df "End_Time" = true →
  ∃ ss es,
    get_col df' "Start_Time" = Ok (Datetime ss) ∧
    get_col df' "End_Time" = Ok (Datetime es) ∧
    get_col df' "Duration_Minutes"
      = Ok (Float64 (zip_with (fun e s : option Z =>
                                 e ← e; s ← s;
                                 Some (Q2Qc (Qmake (e - s) 60000000000))) es ss)).
Proof.
  unfold convert_timestamps. intros H Hend.
  apply bind_Ok in H as (st & Hst & H).
  apply bind_Ok in H as (st' & Hst' & H).
  destruct (to_datetime_Ok _ _ _ Hst') as (ss & -> & _).
  rewrite has_col_set_col_ne, Hend in H by done.
  apply bind_Ok in H as (et & Het & H).
  apply bind_Ok in H as (et' & Het' & H).
  destruct (to_datetime_Ok _ _ _ Het') as (es & -> & _).
  apply bind_Ok in H as (e & He & H).
  apply bind_Ok in H as (s & Hs & H).
  apply bind_Ok in H as (d & Hd & <-%Ok_inj).
  rewrite get_col_set_col_eq in He. apply Ok_inj in He as <-.
  rewrite get_col_set_col_ne, get_col_set_col_eq in Hs by done.
  apply Ok_inj in Hs as <-. cbn [duration_minutes] in Hd. apply Ok_inj in Hd as <-.
  exists ss, es. split; [|split].
  - rewrite !get_col_set_col_ne by done. apply get_col_set_col_eq.
  - rewrite get_col_set_col_ne by done. apply get_col_set_col_eq.
  - apply get_col_set_col_eq.
Qed.

Lemma convert_timestamps_no_End df df' :
  convert_timestamps to_datetime_value df = Ok df' →
  has_col df "End_Time" = false →
  unchanged_outside ["Start_Time"] df df'.
Proof.
  unfold convert_timestamps. intros H Hend.
  apply bind_Ok in H as (st & Hst & H).
  apply bind_Ok in H as (st' & Hst' & H).
  rewrite has_col_set_col_ne, Hend in H by done. apply Ok_inj in H as <-.
  apply unchanged_outside_set_col, list_elem_of_here.
Qed.

(** X6: when the data have an End_Time column, the enriched table has
    the start and end times as times and a Duration_Minutes column that,
    row by row, is missing exactly when the start or the end is missing
    and otherwise is the end minus the start in minutes (negative when
    the end comes first). When there is no End_Time column, none is
    added, and a Duration_Minutes column is neither added nor changed. *)
Theorem duration_minutes_values df ds :
  preprocess_data to_datetime_value df = Ok ds →
  (has_col df "End_Time" = true →
   ∃ ss es dur,
     get_col (main_data ds) "Start_Time" = Ok (Datetime ss) ∧
     get_col (main_data ds) "End_Time" = Ok (Datetime es) ∧
     get_col (main_data ds) "Duration_Minutes" = Ok (Float64 dur) ∧
     ∀ i s e, ss !! i = Some s → es !! i = Some e →
       ∃ d, dur !! i = Some d ∧
            (d = None ↔ s = None ∨ e = None) ∧
            ∀ s' e' m, s = Some s' → e = Some e' → d = Some m →
                       (m * Z2Qc 60000000000 = Z2Qc (e' - s'))%Qc) ∧
  (has_col df "End_Time" = false →
   has_col (main_data ds) "End_Time" = false ∧
   get_col (main_data ds) "Duration_Minutes" = get_col df "Duration_Minutes").
Proof.
  intros He%preprocess_data_enrich.
  destruct (enrich_stages _ _ _ He) as (d1 & d2 & d3 & H1 & _ & _ & _ & U1 & U2 & U3 & U4).
  assert (∀ n, n ∈ ["Start_Time"; "End_Time"; "Duration_Minutes"] →
               get_col (main_data ds) n = get_col d1 n) as G.
  { intros n Hn.
    rewrite (unchanged_outside_get_col _ _ _ n U4),
            (unchanged_outside_get_col _ _ _ n U3),
            (unchanged_outside_get_col _ _ _ n U2);
      [done|..]; unfold imputed_cols; set_solver. }
  split; intros Hend.
  - destruct (convert_timestamps_End _ _ H1 Hend) as (ss & es & Hs & He' & Hd).
    eexists ss, es, _. rewrite !G by set_solver.
    split; [done|]. split; [done|]. split; [done|].
    intros i s e Hsi Hei. eexists. split.
    { rewrite lookup_zip_with, Hei. cbn. rewrite Hsi. cbn. reflexivity. }
    destruct s as [s|], e as [e|]; cbn.
    + split; [split; [done | by intros [|]]|].
      intros s' e' m [= <-] [= <-] [= <-]. apply minutes_times_ns.
    + split; [split; [by right | done] | done].
    + split; [split; [by left | done] | done].
    + split; [split; [by left | done] | done].
  - pose proof (convert_timestamps_no_End _ _ H1 Hend) as U1'.
    split.
    + rewrite (has_col_ext (main_data ds) df "End_Time"); [done|].
      rewrite G by set_solver.
      eapply unchanged_outside_get_col; [exact U1'|]. set_solver.
    + rewrite G by set_solver.
      eapply unchanged_outside_get_col; [exact U1'|]. set_solver.
Qed.

End Durations.

Lemma duration_minutes_values_witness :
  preprocess_data Demo.to_datetime_value Demo.accidents = Ok Demo.processed ∧
  ∃ ss es dur,
    get_col (main_data Demo.processed) "Start_Time" = Ok (Datetime ss) ∧
    get_col (main_data Demo.processed) "End_Time" = Ok (Datetime es) ∧
    get_col (main_data Demo.processed) "Duration_Minutes" = Ok (Float64 dur) ∧
    ∀ i s e, ss !! i = Some s → es !! i = Some e →
      ∃ d, dur !! i = Some d ∧
           (d = None ↔ s = None ∨ e = None) ∧
           ∀ s' e' m, s = Some s' → e = Some e' → d = Some m →
                      (m * Z2Qc 60000000000 = Z2Qc (e' - s'))%Qc.
Proof.
  assert (preprocess_data Demo.to_datetime_value Demo.accidents = Ok Demo.processed)
    as H by (vm_compute; reflexivity).
  split; [exact H|].
  exact (proj1 (duration_minutes_values Demo.to_datetime_value
                  Demo.accidents Demo.processed H) eq_refl).
Defined.

(** ** Transformer: what is left alone, and what must be there *)

Lemma for_each_first_Raise {A B : Type} (f : A → result B) (l : list A) (e : error) :
  (∀ x, x ∈ l → (∃ y, f x = Ok y) ∨ f x = Raise e) →
  (∃ x, x ∈ l ∧ f x = Raise e) →
  for_each f l = Raise e.
Proof.
  induction l as [|x l IH]; intros Hall (x' & Hin & Hx').
  - by apply elem_of_nil in Hin.
  - cbn [for_each]. destruct (Hall x) as [[y Hy]|Hr]; [by left| |by rewrite Hr].
    rewrite Hy. unfold mbind at 1, result_bind at 1.
    apply elem_of_cons in Hin as [->|Hin]; [congruence|].
    rewrite IH; [done| |by exists x'].
    intros z Hz. apply Hall. by right.
Qed.

Lemma bind_Raise_l {A B : Type} (m : result A) (k : A → result B) (e : error) :
  m = Raise e → m ≫= k = Raise e.
Proof. by intros ->. Qed.

Lemma get_col_absent df name :
  has_col df name = false → get_col df name = Raise (KeyError name).
Proof.
  unfold has_col, get_col. intros Hno%bool_decide_eq_false.
  destruct (assoc name (columns df)); [|done]. destruct Hno. by eexists.
Qed.

Section Requirements.

Variable to_datetime_value : cell → option Z.

(** X7: the transformer writes the time columns, the derived columns and
    the imputed columns; every other column of the data (ID, City,
    County, State, Weather_Condition, ...) is in the enriched table
    exactly as it was. *)
Theorem other_columns_kept df ds n :
  preprocess_data to_datetime_value df = Ok ds →
  n ∉ written_cols →
  get_col (main_data ds) n = get_col df n.
Proof.
  intros He%preprocess_data_enrich Hn.
  exact (unchanged_outside_get_col _ _ _ n (enrich_unchanged _ _ _ He) Hn).
Qed.

(** X8: without a Start_Time column the transformer raises a key error,
    and with a start time that is neither missing nor readable as a time
    it raises a value error. *)
Theorem preprocess_data_start_time df :
  (has_col df "Start_Time" = false →
   preprocess_data to_datetime_value df = Raise (KeyError "Start_Time")) ∧
  (∀ st x, get_col df "Start_Time" = Ok st →
           x ∈ cells st → x ≠ CNaN → to_datetime_value x = None →
           preprocess_data to_datetime_value df
           = Raise (ValueError "Unknown datetime string format")).
Proof.
  split.
  - intros Hno. unfold preprocess_data. apply bind_Raise_l.
    unfold enrich. apply bind_Raise_l.
    unfold convert_timestamps. apply bind_Raise_l. by apply get_col_absent.
  - intros st x Hst Hx Hnan Hnone.
    unfold preprocess_data. apply bind_Raise_l.
    unfold enrich. apply bind_Raise_l.
    unfold convert_timestamps. apply bind_Raise. right. exists st. split; [done|].
    apply bind_Raise_l. unfold to_datetime. apply bind_Raise_l.
    apply for_each_first_Raise.
    + intros y _. clear Hnone. destruct y; cbn; try (left; by eexists);
        (destruct (to_datetime_value _); [left; by eexists | by right]).
    + exists x. split; [done|]. cbn. rewrite Hnone. by destruct x.
Qed.

Lemma for_fold_impute_absent cols df df' name :
  for_fold impute cols df = Ok df' →
  has_col df name = false → has_col df' name = false.
Proof.
  revert df. induction cols as [|x cols IH]; intros df H Hno; cbn [for_fold] in H.
  - by apply Ok_inj in H as <-.
  - apply bind_Ok in H as (d1 & H1 & H). apply (IH _ H).
    unfold impute in H1. destruct (has_col df x) eqn:Hx.
    + apply bind_Ok in H1 as (c & _ & H1).
      apply bind_Ok in H1 as (m & _ & <-%Ok_inj).
      rewrite has_col_set_col_ne; [done|]. intros ->. congruence.
    + by apply Ok_inj in H1 as <-.
Qed.

(** X9: the imputation skips a Severity column that is not there, but
    the state table does not: data that pass the transformer and have no
    State column, or a State column and no Severity column, make the
    aggregator raise a key error naming the column. *)
Theorem preprocess_data_needs_state_and_severity df d :
  enrich to_datetime_value df = Ok d →
  (has_col df "State" = false →
   preprocess_data to_datetime_value df = Raise (KeyError "State")) ∧
  (has_col df "State" = true → has_col df "Severity" = false →
   preprocess_data to_datetime_value df = Raise (KeyError "Severity")).
Proof.
  intros He. pose proof (enrich_unchanged _ _ _ He) as U.
  assert (has_col d "State" = has_col df "State") as HS.
  { eapply unchanged_outside_has_col; [exact U|].
    unfold written_cols, imputed_cols. set_solver. }
  split.
  - intros Hno. unfold preprocess_data. apply bind_Raise. right.
    exists d. split; [done|]. apply bind_Raise_l.
    unfold state_aggregate. apply bind_Raise_l.
    unfold groupby_size. apply bind_Raise_l. cbn [for_each]. apply bind_Raise_l.
    apply get_col_absent. congruence.
  - intros Hst Hno.
    assert (has_col d "Severity" = false) as Hd.
    { destruct (enrich_stages _ _ _ He)
        as (d1 & d2 & d3 & _ & _ & H3 & _ & U1 & U2 & U3 & U4).
      rewrite (unchanged_outside_has_col _ _ _ "Severity" U4) by set_solver.
      apply (for_fold_impute_absent _ _ _ _ H3).
      rewrite (unchanged_outside_has_col _ _ _ "Severity" U2),
              (unchanged_outside_has_col _ _ _ "Severity" U1); [done|..];
        set_solver. }
    destruct (groupby_size_total ["State"] "Accident_Count" d) as (g & Hg & _).
    { intros n ->%list_elem_of_singleton. congruence. }
    assert (has_col d "State" = true) as [kc Hkc]%has_col_true_get_col by congruence.
    unfold preprocess_data. apply bind_Raise. right.
    exists d. split; [done|]. apply bind_Raise_l.
    unfold state_aggregate. apply bind_Raise. right.
    exists g. split; [done|]. apply bind_Raise_l.
    unfold groupby_mean. apply bind_Raise. right.
    exists kc. split; [done|]. apply bind_Raise_l. by apply get_col_absent.
Qed.

End Requirements.

Lemma other_columns_kept_witness :
  preprocess_data Demo.to_datetime_value Demo.accidents = Ok Demo.processed ∧
  get_col (main_data Demo.processed) "City" = get_col Demo.accidents "City".
Proof.
  assert (preprocess_data Demo.to_datetime_value Demo.accidents = Ok Demo.processed)
    as H by (vm_compute; reflexivity).
  split; [exact H|].
  apply (other_columns_kept Demo.to_datetime_value Demo.accidents Demo.processed "City" H).
  by compute_done.
Defined.

Lemma preprocess_data_start_time_witness :
  preprocess_data Demo.to_datetime_value empty_frame = Raise (KeyError "Start_Time") ∧
  preprocess_data Demo.to_datetime_value Demo.bad_date
  = Raise (ValueError "Unknown datetime string format").
Proof.
  split.
  - exact (proj1 (preprocess_data_start_time Demo.to_datetime_value empty_frame) eq_refl).
  - apply (proj2 (preprocess_data_start_time Demo.to_datetime_value Demo.bad_date)
             (Object [Some "yesterday"]) (CStr "yesterday")).
    + reflexivity.
    + apply list_elem_of_here.
    + discriminate.
    + reflexivity.
Defined.

Lemma preprocess_data_needs_state_and_severity_witness :
  ∃ d, enrich Demo.to_datetime_value Demo.no_severity = Ok d ∧
       preprocess_data Demo.to_datetime_value Demo.no_severity
       = Raise (KeyError "Severity").
Proof.
  eexists. split; [vm_compute; reflexivity|].
  eassert (enrich Demo.to_datetime_value Demo.no_severity = Ok _) as H
    by (vm_compute; reflexivity).
  exact (proj2 (preprocess_data_needs_state_and_severity Demo.to_datetime_value
                  Demo.no_severity _ H) eq_refl eq_refl).
Defined.

(** ** Every frame of the result is well formed *)

Lemma well_formed_forall df :
  well_formed df = true ↔ ∀ nc, nc ∈ columns df → col_len nc.2 = nrows df.
Proof.
  unfold well_formed. rewrite forallb_forall. split.
  - intros H nc Hin%list_elem_of_In. specialize (H nc Hin).
    by apply bool_decide_eq_true in H.
  - intros H nc Hin%list_elem_of_In. apply bool_decide_eq_true. by apply H.
Qed.

Lemma elem_of_assoc_set nc name c cols :
  nc ∈ assoc_set name c cols → nc = (name, c) ∨ nc ∈ cols.
Proof.
  induction cols as [|[m c'] cols IH]; cbn [assoc_set].
  - intros ->%list_elem_of_singleton. by left.
  - destruct (decide (m = name)).
    + intros [->|Hin]%elem_of_cons; [by left | right; by right].
    + intros [->|Hin]%elem_of_cons; [right; by left|].
      destruct (IH Hin) as [->|?]; [by left | right; by right].
Qed.

Lemma set_col_well_formed df name c :
  well_formed df = true → col_len c = nrows df →
  well_formed (set_col df name c) = true.
Proof.
  rewrite !well_formed_forall. intros Hwf Hc nc Hin. cbn [set_col columns nrows] in *.
  apply elem_of_assoc_set in Hin as [->|Hin]; [done | by apply Hwf].
Qed.

Lemma col_len_fillna c m : col_len (column_fillna c m) = col_len c.
Proof.
  destruct c as [xs| | |]; try done. unfold col_len. cbn [column_fillna cells].
  rewrite !length_fmap. destruct m; [apply length_fmap | done].
Qed.

Lemma take_well_formed idxs df df' : take idxs df = Ok df' → well_formed df' = true.
Proof.
  unfold take. destruct (forallb _ idxs); [|done]. intros H.
  apply bind_Ok in H as (cols & Hcols & <-%Ok_inj).
  apply well_formed_forall. cbn [columns nrows]. intros nc Hin.
  apply for_each_Ok in Hcols. apply list_elem_of_lookup in Hin as [i Hi].
  destruct (Forall2_lookup_r _ _ _ _ _ Hcols Hi) as ([n c] & _ & Hx).
  cbn [fst snd] in Hx. apply bind_Ok in Hx as (c' & Hc' & [= <-]). cbn [snd].
  unfold col_len. destruct c as [xs|xs|xs|xs]; cbn [take_col] in Hc';
    apply bind_Ok in Hc' as (ys & Hys & [= <-]); cbn [cells];
    rewrite length_fmap; by apply for_each_length in Hys.
Qed.

Lemma head_well_formed n df : well_formed df = true → well_formed (head n df) = true.
Proof.
  rewrite !well_formed_forall. intros Hwf nc Hin. cbn [head columns nrows] in *.
  apply list_elem_of_fmap in Hin as ([m c] & -> & Hin). cbn.
  specialize (Hwf _ Hin). cbn in Hwf. rewrite <- Hwf. unfold col_len.
  destruct c; cbn [head_col cells]; rewrite !length_fmap; apply length_take.
Qed.

Lemma groupby_size_well_formed names out df g :
  groupby_size names out df = Ok g → well_formed g = true.
Proof.
  unfold groupby_size. intros H. apply bind_Ok in H as (kcols & _ & <-%Ok_inj).
  apply group_frame_well_formed. by rewrite cells_length_Int64, length_fmap.
Qed.

Lemma merge_well_formed key left right m :
  merge key left right = Ok m → well_formed m = true.
Proof.
  unfold merge. intros H.
  apply bind_Ok in H as (kl & _ & H). apply bind_Ok in H as (kr & _ & H).
  apply bind_Ok in H as (l & Hl & H). apply bind_Ok in H as (r & Hr & <-%Ok_inj).
  pose proof (take_nrows _ _ _ Hl) as Hnl. pose proof (take_nrows _ _ _ Hr) as Hnr.
  rewrite length_fmap in Hnl, Hnr.
  apply take_well_formed in Hl, Hr. rewrite well_formed_forall in Hl, Hr.
  apply well_formed_forall. cbn [columns nrows]. intros nc [Hin|Hin]%elem_of_app.
  - rewrite <- Hnl. by apply Hl.
  - apply list_elem_of_filter in Hin as [_ Hin]. rewrite <- Hnr. by apply Hr.
Qed.

Section WellFormed.

Variable to_datetime_value : cell → option Z.

Lemma convert_timestamps_well_formed df df' :
  convert_timestamps to_datetime_value df = Ok df' →
  well_formed df = true → well_formed df' = true.
Proof.
  unfold convert_timestamps. intros H Hwf.
  apply bind_Ok in H as (st & Hst & H).
  apply bind_Ok in H as (st' & Hst' & H).
  destruct (to_datetime_Ok _ _ _ Hst') as (ss & -> & Hss).
  rewrite (get_col_well_formed _ _ _ Hwf Hst) in Hss.
  assert (well_formed (set_col df "Start_Time" (Datetime ss)) = true) as Hwf1.
  { apply set_col_well_formed; [done|]. by rewrite cells_length_Datetime. }
  destruct (has_col _ "End_Time"); [|by apply Ok_inj in H as <-].
  apply bind_Ok in H as (et & Het & H).
  apply bind_Ok in H as (et' & Het' & H).
  destruct (to_datetime_Ok _ _ _ Het') as (es & -> & Hes).
  rewrite (get_col_well_formed _ _ _ Hwf1 Het) in Hes. cbn [set_col nrows] in Hes.
  apply bind_Ok in H as (e & He & H).
  apply bind_Ok in H as (s & Hs & H).
  apply bind_Ok in H as (d & Hd & <-%Ok_inj).
  rewrite get_col_set_col_eq in He. apply Ok_inj in He as <-.
  rewrite get_col_set_col_ne, get_col_set_col_eq in Hs by done.
  apply Ok_inj in Hs as <-. cbn [duration_minutes] in Hd. apply Ok_inj in Hd as <-.
  apply set_col_well_formed.
  - apply set_col_well_formed; [done|]. by rewrite cells_length_Datetime.
  - rewrite cells_length_Float64, length_zip_with. cbn [set_col nrows]. lia.
Qed.

Lemma assign_dt_well_formed name f df df' :
  assign_dt name f df = Ok df' → well_formed df = true → well_formed df' = true.
Proof.
  intros (st & v & Hst & Hv & ->)%assign_dt_Ok Hwf.
  apply set_col_well_formed; [done|].
  destruct (dt_field_Ok _ _ _ Hv) as (ts & -> & Hlen & _).
  rewrite Hlen, <- cells_length_Datetime. by eapply get_col_well_formed.
Qed.

Lemma time_features_well_formed df df' :
  time_features df = Ok df' → well_formed df = true → well_formed df' = true.
Proof.
  unfold time_features, apply_int. intros H Hwf.
  apply bind_Ok in H as (d1 & H1 & H).
  apply bind_Ok in H as (d2 & H2 & H).
  apply bind_Ok in H as (d3 & H3 & H).
  apply bind_Ok in H as (d4 & H4 & H).
  apply bind_Ok in H as (d5 & H5 & H).
  apply bind_Ok in H as (dow & Hdow & H).
  apply bind_Ok in H as (w & Hw & <-%Ok_inj).
  apply bind_Ok in Hw as (wk & Hwk & [= <-]).
  assert (well_formed d5 = true) as Hwf5.
  { eapply assign_dt_well_formed; [exact H5|].
    eapply assign_dt_well_formed; [exact H4|].
    eapply assign_dt_well_formed; [exact H3|].
    eapply assign_dt_well_formed; [exact H2|].
    by eapply assign_dt_well_formed. }
  apply set_col_well_formed; [done|].
  rewrite cells_length_Int64, (for_each_length _ _ _ Hwk).
  by apply (get_col_well_formed d5 "DayOfWeek").
Qed.

Lemma for_fold_impute_well_formed cols df df' :
  for_fold impute cols df = Ok df' → well_formed df = true → well_formed df' = true.
Proof.
  revert df. induction cols as [|x cols IH]; intros df H Hwf; cbn [for_fold] in H.
  - by apply Ok_inj in H as <-.
  - apply bind_Ok in H as (d1 & H1 & H). apply (IH _ H).
    unfold impute in H1. destruct (has_col df x); [|by apply Ok_inj in H1 as <-].
    apply bind_Ok in H1 as (c & Hc & H1).
    apply bind_Ok in H1 as (m & _ & <-%Ok_inj).
    apply set_col_well_formed; [done|]. rewrite col_len_fillna.
    by eapply get_col_well_formed.
Qed.

Lemma weather_category_well_formed df df' :
  weather_category df = Ok df' → well_formed df = true → well_formed df' = true.
Proof.
  unfold weather_category, apply_str. intros H Hwf.
  destruct (has_col df _); [|by apply Ok_inj in H as <-].
  apply bind_Ok in H as (wc & Hwc & H).
  apply bind_Ok in H as (cat & Hcat & <-%Ok_inj).
  apply bind_Ok in Hcat as (ss & Hss & [= <-]).
  apply set_col_well_formed; [done|].
  unfold col_len. cbn [cells]. rewrite !length_fmap, (for_each_length _ _ _ Hss).
  by apply (get_col_well_formed df "Weather_Condition").
Qed.

(** X10: from well-formed data the script makes well-formed frames only:
    in the enriched table and in each of the six aggregates every
    column is as long as the frame has rows. *)
Theorem preprocess_data_well_formed df ds :
  preprocess_data to_datetime_value df = Ok ds →
  well_formed df = true →
  ∀ nd, nd ∈ items ds → well_formed nd.2 = true.
Proof.
  intros (He & Hs & Ht & Hh & Hd & Hw & Hc)%preprocess_data_inv Hwf.
  assert (well_formed (main_data ds) = true) as Hm.
  { unfold enrich, fill_missing in He.
    apply bind_Ok in He as (d1 & H1 & He).
    apply bind_Ok in He as (d2 & H2 & He).
    apply bind_Ok in He as (d3 & H3 & H4).
    eapply weather_category_well_formed; [exact H4|].
    eapply for_fold_impute_well_formed; [exact H3|].
    eapply time_features_well_formed; [exact H2|].
    by eapply convert_timestamps_well_formed. }
  intros nd Hin. unfold items in Hin.
  repeat (apply elem_of_cons in Hin as [->|Hin]); cbn [snd].
  - done.
  - unfold state_aggregate in Hs.
    apply bind_Ok in Hs as (sc & _ & Hs). apply bind_Ok in Hs as (sv & _ & Hs).
    by eapply merge_well_formed.
  - by eapply groupby_size_well_formed.
  - by eapply groupby_size_well_formed.
  - unfold weekday_aggregate in Hd.
    apply bind_Ok in Hd as (g & Hg & Hd). apply bind_Ok in Hd as (dow & Hdow & <-%Ok_inj).
    pose proof (groupby_size_well_formed _ _ _ _ Hg) as Hwg.
    apply set_col_well_formed; [done|].
    unfold col_len at 1. cbn [cells]. rewrite !length_fmap.
    by apply (get_col_well_formed g "DayOfWeek").
  - unfold weather_aggregate, groupby_count_mean in Hw.
    destruct (has_col _ "Weather_Category"); [|by apply Ok_inj in Hw as <-].
    apply bind_Ok in Hw as (kc & _ & Hw). apply bind_Ok in Hw as (cc & _ & Hw).
    apply bind_Ok in Hw as (vc & _ & Hw). apply bind_Ok in Hw as (vs & _ & <-%Ok_inj).
    apply well_formed_forall. cbn [columns nrows fst snd].
    intros nc Hnc. repeat (apply elem_of_cons in Hnc as [->|Hnc]); cbn [snd].
    + by rewrite col_len_of_cells, length_fmap.
    + by rewrite cells_length_Int64, length_fmap.
    + by rewrite cells_length_Float64, length_fmap.
    + by apply elem_of_nil in Hnc.
  - unfold city_aggregate, sort_values_desc in Hc.
    destruct (has_col _ "City"); [|by apply Ok_inj in Hc as <-].
    apply bind_Ok in Hc as (g & _ & Hc). apply bind_Ok in Hc as (g' & Hg' & <-%Ok_inj).
    apply head_well_formed.
    apply bind_Ok in Hg' as (c & _ & Hg'). by eapply take_well_formed.
  - by apply elem_of_nil in Hin.
Qed.

End WellFormed.

Lemma preprocess_data_well_formed_witness :
  preprocess_data Demo.to_datetime_value Demo.accidents = Ok Demo.processed ∧
  well_formed Demo.accidents = true ∧
  ∀ nd, nd ∈ items Demo.processed → well_formed nd.2 = true.
Proof.
  assert (preprocess_data Demo.to_datetime_value Demo.accidents = Ok Demo.processed)
    as H by (vm_compute; reflexivity).
  split; [exact H|]. split; [reflexivity|].
  apply (preprocess_data_well_formed Demo.to_datetime_value Demo.accidents
           Demo.processed H).
  reflexivity.
Defined.

(** ** Imputation: the filled values stay within the observed ones *)

Lemma Qc_midpoint (a b : Qc) :
  (a ≤ b)%Qc → (a ≤ (a + b) / Z2Qc 2)%Qc ∧ ((a + b) / Z2Qc 2 ≤ b)%Qc.
Proof.
  unfold Qcle, Qcdiv, Qcmult, Qcinv, Qcplus, Z2Qc. simpl.
  rewrite !Qred_correct. intros H.
  change (inject_Z 2) with (2#1)%Q.
  change ((a + b) * / (2#1))%Q with ((a + b) / (2#1))%Q.
  split.
  - apply Qle_shift_div_l; [reflexivity|]. lra.
  - apply Qle_shift_div_r; [reflexivity|]. lra.
Qed.

Lemma elem_of_dropna {A : Type} (xs : list (option A)) (v : A) :
  v ∈ dropna xs ↔ Some v ∈ xs.
Proof.
  unfold dropna. rewrite list_elem_of_omap. split.
  - intros (y & Hy & Hid). cbn in Hid. by subst y.
  - intros H. by exists (Some v).
Qed.

Lemma median_between xs m :
  median xs = Some m →
  ∃ a b, Some a ∈ xs ∧ Some b ∈ xs ∧ (a ≤ m)%Qc ∧ (m ≤ b)%Qc.
Proof.
  unfold median. set (vs := merge_sort Qcle (dropna xs)).
  assert (∀ i v, vs !! i = Some v → Some v ∈ xs) as Hin.
  { intros i v Hv. apply elem_of_dropna.
    rewrite <- (merge_sort_Permutation Qcle (dropna xs)).
    by eapply list_elem_of_lookup_2. }
  destruct (decide (length vs = 0)); [done|].
  destruct (Nat.odd (length vs)).
  - intros Hm. exists m, m. split; [by eapply Hin|]. split; [by eapply Hin|]. done.
  - destruct (vs !! (length vs / 2 - 1)) as [a|] eqn:Ha; [|done].
    destruct (vs !! (length vs / 2)) as [b|] eqn:Hb; [|done].
    cbn. intros [= <-].
    destruct (total Qcle a b) as [Hab|Hba].
    + exists a, b. split; [by eapply Hin|]. split; [by eapply Hin|].
      by apply Qc_midpoint.
    + exists b, a. split; [by eapply Hin|]. split; [by eapply Hin|].
      rewrite (Qcplus_comm a b). by apply Qc_midpoint.
Qed.

Section ImputedRange.

Variable to_datetime_value : cell → option Z.

(** X11: the imputation invents no extreme: every value of an imputed
    column of the enriched table lies between two values that the column
    had in the data, so within its observed minimum and maximum. *)
Theorem imputed_values_in_range df ds col xs :
  preprocess_data to_datetime_value df = Ok ds →
  col ∈ ["Severity"; "Start_Lat"; "Start_Lng"] ∨
    (col ∈ ["Temperature(F)"; "Visibility(mi)"] ∧ has_col df "Temperature(F)" = true) →
  get_col df col = Ok (Float64 xs) →
  ∃ ys, get_col (main_data ds) col = Ok (Float64 ys) ∧
        ∀ y, Some y ∈ ys →
             ∃ a b, Some a ∈ xs ∧ Some b ∈ xs ∧ (a ≤ y)%Qc ∧ (y ≤ b)%Qc.
Proof.
  intros H%preprocess_data_enrich Hcol Hc.
  destruct (enrich_imputed _ _ _ _ _ H Hcol Hc) as (xs' & [= <-] & Hg).
  exists (fillna xs (median xs)). split; [done|].
  intros y Hy. unfold fillna in Hy. destruct (median xs) as [m|] eqn:Hm.
  - apply list_elem_of_fmap in Hy as ([x|] & [= ->] & Hx); cbn.
    + exists x, x. done.
    + by apply median_between.
  - exists y, y. done.
Qed.

End ImputedRange.

Lemma imputed_values_in_range_witness :
  preprocess_data Demo.to_datetime_value Demo.accidents = Ok Demo.processed ∧
  ∃ ys, get_col (main_data Demo.processed) "Severity" = Ok (Float64 ys) ∧
        ∀ y, Some y ∈ ys →
             ∃ a b, Some a ∈ [Demo.q 2; None; Demo.q 4; Demo.q 3] ∧
                    Some b ∈ [Demo.q 2; None; Demo.q 4; Demo.q 3] ∧
                    (a ≤ y)%Qc ∧ (y ≤ b)%Qc.
Proof.
  assert (preprocess_data Demo.to_datetime_value Demo.accidents = Ok Demo.processed)
    as H by (vm_compute; reflexivity).
  split; [exact H|].
  refine (imputed_values_in_range Demo.to_datetime_value Demo.accidents
            Demo.processed "Severity" _ H _ _).
  - left. apply list_elem_of_here.
  - reflexivity.
Defined.

(** ** Aggregator: the city table holds the largest groups *)

Lemma Forall2_omap {A B : Type} (g : A → option B) (l : list A) (ys : list B) :
  Forall2 (fun i y => g i = Some y) l ys → omap g l = ys.
Proof.
  induction 1 as [|i y l ys Hi _ IH]; [done|]. cbn. rewrite Hi. cbn. by rewrite IH.
Qed.

Lemma take_list_omap {A : Type} idxs (xs ys : list A) :
  take_list idxs xs = Ok ys → omap (fun i => xs !! i) idxs = ys.
Proof.
  unfold take_list. rewrite for_each_Ok. intros H. apply Forall2_omap.
  eapply Forall2_impl; [exact H|]. intros i y. cbn. destruct (xs !! i); congruence.
Qed.

Lemma take_list_Permutation {A : Type} idxs (xs ys : list A) :
  take_list idxs xs = Ok ys → idxs ≡ₚ seq 0 (length xs) → ys ≡ₚ xs.
Proof.
  intros <-%take_list_omap Hp. rewrite Hp.
  by rewrite (take_list_omap _ _ _ (take_list_seq xs)).
Qed.

#[global] Instance Z_ge_transitive : Transitive Z.ge.
Proof. intros x y z. lia. Qed.

Section CityTop.

Variable to_datetime_value : cell → option Z.

(** X12: the city table has the largest groups. Its counts are the
    first 50 (or all, if there are fewer) of the counts of all (State,
    City) groups, and every group left out has a count no larger than
    any count in the table. *)
Theorem city_table_largest_groups df ds :
  preprocess_data to_datetime_value df = Ok ds →
  has_col df "City" = true →
  ∃ g sizes counts rest,
    groupby_size ["State"; "City"] "Accident_Count" (main_data ds) = Ok g ∧
    get_col g "Accident_Count" = Ok (Int64 sizes) ∧
    get_col (city_data ds) "Accident_Count" = Ok (Int64 counts) ∧
    counts ++ rest ≡ₚ sizes ∧
    length counts = 50 `min` length sizes ∧
    ∀ a b, a ∈ counts → b ∈ rest → (b ≤ a)%Z.
Proof.
  intros (He & _ & _ & _ & _ & _ & Hc)%preprocess_data_inv Hcity.
  assert (has_col (main_data ds) "City" = true) as Hh.
  { rewrite (has_col_ext (main_data ds) df "City"); [done|].
    eapply unchanged_outside_get_col; [exact (enrich_unchanged _ _ _ He)|].
    unfold written_cols, imputed_cols. set_solver. }
  unfold city_aggregate in Hc. rewrite Hh in Hc.
  apply bind_Ok in Hc as (g & Hg & Hc).
  apply bind_Ok in Hc as (g' & Hs & <-%Ok_inj).
  pose proof Hg as Hg0.
  apply groupby_size_counts in Hg as (kcols & _ & Hshape & Hcnt); [|set_solver].
  cbn zeta in Hshape, Hcnt. set (sizes := _ <$> _) in Hshape, Hcnt.
  assert (nrows g = length sizes) as Hn.
  { rewrite Hshape. cbn [nrows]. unfold sizes. by rewrite length_fmap. }
  unfold sort_values_desc in Hs. rewrite Hcnt in Hs.
  unfold mbind, result_bind in Hs.
  destruct (take_get_col _ _ _ _ _ Hs Hcnt) as (c' & Hc' & Hg').
  cbn [take_col] in Hc'. apply bind_Ok in Hc' as (ys & Hys & [= <-]).
  assert (ys ≡ₚ sizes) as Hperm.
  { eapply take_list_Permutation; [exact Hys|].
    rewrite merge_sort_Permutation. by rewrite Hn. }
  assert (Sorted Z.ge ys) as Hsorted.
  { eapply Sorted_take_list; [|exact Hys].
    apply (Sorted_merge_sort (desc_by (CInt <$> sizes))). }
  exists g, sizes, (firstn 50 ys), (skipn 50 ys).
  split; [done|]. split; [done|].
  split; [by apply (head_get_col 50) in Hg'|].
  split; [by rewrite take_drop|].
  split; [by rewrite length_take, Hperm|].
  intros a b Ha Hb.
  apply Sorted_StronglySorted in Hsorted; [|apply _].
  rewrite <- (take_drop 50 ys) in Hsorted.
  pose proof (StronglySorted_app_1_elem_of _ _ _ _ _ Hsorted Ha Hb). lia.
Qed.

End CityTop.

Lemma city_table_largest_groups_witness :
  preprocess_data Demo.to_datetime_value Demo.accidents = Ok Demo.processed ∧
  ∃ g sizes counts rest,
    groupby_size ["State"; "City"] "Accident_Count" (main_data Demo.processed) = Ok g ∧
    get_col g "Accident_Count" = Ok (Int64 sizes) ∧
    get_col (city_data Demo.processed) "Accident_Count" = Ok (Int64 counts) ∧
    counts ++ rest ≡ₚ sizes ∧
    length counts = 50 `min` length sizes ∧
    ∀ a b, a ∈ counts → b ∈ rest → (b ≤ a)%Z.
Proof.
  assert (preprocess_data Demo.to_datetime_value Demo.accidents = Ok Demo.processed)
    as H by (vm_compute; reflexivity).
  split; [exact H|].
  exact (city_table_largest_groups Demo.to_datetime_value Demo.accidents
           Demo.processed H eq_refl).
Defined.

(** ** Aggregator: the rows of the state table *)

Lemma take_col_seq c : take_col (seq 0 (col_len c)) c = Ok c.
Proof.
  destruct c as [xs|xs|xs|xs]; unfold col_len; cbn [cells take_col];
    by rewrite length_fmap, take_list_seq.
Qed.

Lemma assoc_filter_other key name cols :
  name ≠ key →
  assoc name (filter (fun nc : string * column => nc.1 ≠ key) cols) = assoc name cols.
Proof.
  intros Hne. induction cols as [|[m c] cols IH]; [done|].
  rewrite filter_cons. cbn [fst]. destruct (decide (m ≠ key)) as [Hm|Hm]; cbn [assoc].
  - by rewrite IH.
  - rewrite IH. rewrite decide_False; [done|]. intros ->. by apply Hm.
Qed.

Lemma filter_single_key (s : cell) (l : list cell) :
  length (filter ([s] =.) ((fun c => [c]) <$> l)) = length (filter (s =.) l).
Proof.
  induction l as [|c l IH]; [done|]. rewrite fmap_cons, !filter_cons.
  destruct (decide (s = c)) as [->|Hne].
  - rewrite decide_True by done. cbn [length]. by rewrite IH.
  - rewrite decide_False by congruence. done.
Qed.

Lemma filter_zip_single_key {A : Type} (s : cell) (l : list cell) (vs : list A) :
  (filter (fun rv => rv.1 = [s]) (zip ((fun c => [c]) <$> l) vs)).*2
  = (filter (fun rv => rv.1 = s) (zip l vs)).*2.
Proof.
  revert vs. induction l as [|c l IH]; intros [|v vs]; try done.
  rewrite fmap_cons. cbn [zip zip_with]. rewrite !filter_cons. cbn [fst].
  destruct (decide (c = s)) as [->|Hne].
  - rewrite decide_True by done. rewrite !fmap_cons. f_equal. apply IH.
  - rewrite decide_False by congruence. apply IH.
Qed.

Lemma state_aggregate_frame d sd kc vc vs :
  state_aggregate d = Ok sd →
  get_col d "State" = Ok kc → get_col d "Severity" = Ok vc → numeric vc = Ok vs →
  let rows := key_rows [kc] (nrows d) in
  let keys := group_keys rows in
  let vals := (fun k => default CNaN (hd_error k)) <$> keys in
  get_col sd "State" = Ok (of_cells kc vals) ∧
  get_col sd "Accident_Count"
  = Ok (Int64 ((fun k => Z.of_nat (length (filter (k =.) rows))) <$> keys)) ∧
  get_col sd "Avg_Severity"
  = Ok (Float64 ((fun k => mean ((filter (fun rv => rv.1 = k) (zip rows vs)).*2))
                 <$> keys)).
Proof.
  unfold state_aggregate. intros H Hkc Hvc Hvs.
  apply bind_Ok in H as (sc & Hsc & H).
  apply bind_Ok in H as (sv & Hsv & Hm).
  apply groupby_size_counts in Hsc as (kcols & Hk & -> & Hcnt); [|set_solver].
  assert (kcols = [kc]) as ->.
  { cbn [for_each] in Hk. rewrite Hkc in Hk. by injection Hk as <-. }
  unfold groupby_mean in Hsv. rewrite Hkc, Hvc in Hsv.
  apply bind_Ok in Hsv as (kc' & [= <-] & Hsv).
  apply bind_Ok in Hsv as (vc' & [= <-] & Hsv).
  rewrite Hvs in Hsv. apply bind_Ok in Hsv as (vs' & [= <-] & Hsv).
  apply Ok_inj in Hsv as Hsv. cbn zeta in Hsv.
  destruct (state_keys_column kc (nrows d)) as (Hrt & Hnd & Hlen).
  cbn zeta in *.
  set (rows := key_rows [kc] (nrows d)) in *.
  set (keys := group_keys rows) in *.
  set (vals := (fun k => default CNaN (hd_error k)) <$> keys) in *.
  set (sizes := (fun k => Z.of_nat (length (filter (k =.) rows))) <$> keys) in *.
  set (means := (fun k => mean ((filter (fun rv => rv.1 = k) (zip rows vs)).*2))
                <$> keys) in *.
  assert (get_col sv "Avg_Severity" = Ok (Float64 means)) as Hmean.
  { rewrite <- Hsv. unfold get_col. cbn [columns]. rewrite assoc_app.
    rewrite key_columns_assoc_None by set_solver. cbn [assoc].
    by rewrite decide_True. }
  assert (get_col sv "State" = Ok (of_cells kc vals)) as HsvS.
  { rewrite <- Hsv. unfold get_col. cbn [columns key_columns app assoc].
    by rewrite decide_True. }
  assert (nrows sv = length vals) as Hnsv by (by rewrite <- Hsv, Hlen).
  set (scf := mkDF (length keys)
                (key_columns ["State"] [kc] keys ++ [("Accident_Count", Int64 sizes)]))
    in *.
  assert (get_col scf "State" = Ok (of_cells kc vals)) as HscS.
  { unfold get_col, scf. cbn [columns key_columns app assoc]. by rewrite decide_True. }
  unfold merge in Hm. rewrite HscS, HsvS in Hm.
  apply bind_Ok in Hm as (kl & [= <-] & Hm).
  apply bind_Ok in Hm as (kr & [= <-] & Hm).
  assert (nrows scf = length vals) as Hnsc by (by rewrite Hlen).
  rewrite Hnsv, Hnsc, Hrt in Hm.
  rewrite (merge_pairs_unique vals Hnd) in Hm.
  apply bind_Ok in Hm as (l & Hl & Hm).
  apply bind_Ok in Hm as (r & Hr & <-%Ok_inj).
  rewrite <- list_fmap_compose in Hl, Hr.
  rewrite (list_fmap_ext _ id _ (fun _ _ _ => eq_refl)), list_fmap_id in Hl.
  rewrite (list_fmap_ext _ id _ (fun _ _ _ => eq_refl)), list_fmap_id in Hr.
  assert (length sizes = length vals) as Hsz by (unfold sizes; by rewrite length_fmap).
  assert (length means = length vals) as Hmz by (unfold means; by rewrite length_fmap).
  assert (∀ fr fr' name c, take (seq 0 (length vals)) fr = Ok fr' →
            get_col fr name = Ok c → col_len c = length vals →
            get_col fr' name = Ok c) as Hsame.
  { intros fr fr' name c Ht Hg Hc.
    destruct (take_get_col _ _ _ _ _ Ht Hg) as (c' & Hc' & Hg').
    rewrite <- Hc, take_col_seq in Hc'. by apply Ok_inj in Hc' as <-. }
  pose proof (Hsame _ _ _ _ Hl HscS) as HlS.
  pose proof (Hsame _ _ _ _ Hl Hcnt) as HlC.
  pose proof (Hsame _ _ _ _ Hr Hmean) as HrM.
  rewrite col_len_of_cells in HlS. specialize (HlS eq_refl).
  rewrite cells_length_Int64 in HlC. specialize (HlC Hsz).
  rewrite cells_length_Float64 in HrM. specialize (HrM Hmz).
  assert (assoc "Avg_Severity" (columns l) = None) as HlM.
  { apply eq_None_not_Some. rewrite (take_assoc _ _ _ "Avg_Severity" Hl).
    unfold scf. cbn [columns key_columns app assoc].
    rewrite !decide_False by done. by intros [? ?]. }
  unfold get_col in *. cbn [columns]. rewrite !assoc_app.
  split; [|split].
  - by destruct (assoc "State" (columns l)).
  - by destruct (assoc "Accident_Count" (columns l)).
  - rewrite HlM. by rewrite assoc_filter_other.
Qed.

Section StateRows.

Variable to_datetime_value : cell → option Z.

Lemma enrich_well_formed df d :
  enrich to_datetime_value df = Ok d → well_formed df = true → well_formed d = true.
Proof.
  unfold enrich, fill_missing. intros He Hwf.
  apply bind_Ok in He as (d1 & H1 & He).
  apply bind_Ok in He as (d2 & H2 & He).
  apply bind_Ok in He as (d3 & H3 & H4).
  eapply weather_category_well_formed; [exact H4|].
  eapply for_fold_impute_well_formed; [exact H3|].
  eapply time_features_well_formed; [exact H2|].
  by eapply convert_timestamps_well_formed.
Qed.

(** X13: the state table has one row per State value present in the
    enriched table, each once and none for a missing State; the row of a
    state holds the number of rows of the enriched table with that State
    and the mean of their Severity values. *)
Theorem state_table_rows df ds :
  preprocess_data to_datetime_value df = Ok ds →
  well_formed df = true →
  ∃ kc vc sev stc counts means,
    get_col (main_data ds) "State" = Ok kc ∧
    get_col (main_data ds) "Severity" = Ok vc ∧
    numeric vc = Ok sev ∧
    get_col (state_data ds) "State" = Ok stc ∧
    get_col (state_data ds) "Accident_Count" = Ok (Int64 counts) ∧
    get_col (state_data ds) "Avg_Severity" = Ok (Float64 means) ∧
    NoDup (cells stc) ∧
    (∀ s, s ∈ cells stc ↔ s ≠ CNaN ∧ s ∈ cells kc) ∧
    ∀ i s, cells stc !! i = Some s →
      counts !! i = Some (Z.of_nat (length (filter (s =.) (cells kc)))) ∧
      means !! i
      = Some (mean ((filter (fun rv => rv.1 = s) (zip (cells kc) sev)).*2)).
Proof.
  intros (He & Hs & _)%preprocess_data_inv Hwf.
  pose proof (enrich_well_formed _ _ He Hwf) as Hwm.
  pose proof Hs as Hs0. unfold state_aggregate in Hs0.
  apply bind_Ok in Hs0 as (sc & _ & Hs0).
  apply bind_Ok in Hs0 as (sv & Hsv & _).
  unfold groupby_mean in Hsv.
  apply bind_Ok in Hsv as (kc & Hkc & Hsv).
  apply bind_Ok in Hsv as (vc & Hvc & Hsv).
  apply bind_Ok in Hsv as (sev & Hsev & _).
  destruct (state_aggregate_frame _ _ _ _ _ Hs Hkc Hvc Hsev) as (HS & HC & HM).
  destruct (state_keys_column kc (nrows (main_data ds))) as (Hrt & Hnd & Hlen).
  cbn zeta in *.
  assert (key_rows [kc] (nrows (main_data ds)) = (fun c => [c]) <$> cells kc) as Hrows.
  { rewrite key_rows_single. f_equal. apply take_ge.
    pose proof (get_col_well_formed _ _ _ Hwm Hkc) as Hl. unfold col_len in Hl. lia. }
  rewrite Hrows in *.
  set (keys := group_keys ((fun c => [c]) <$> cells kc)) in *.
  assert (∀ k, k ∈ keys ↔ ∃ c, k = [c] ∧ c ≠ CNaN ∧ c ∈ cells kc) as Hkeys.
  { intros k. unfold keys. rewrite elem_of_group_keys, list_elem_of_fmap. split.
    - intros (Hna & c & -> & Hc). exists c. split; [done|]. split; [|done].
      intros ->. apply Hna. by left.
    - intros (c & -> & Hne & Hc). split; [|by exists c].
      unfold notna. intros Hin%list_elem_of_singleton. by apply Hne. }
  eexists kc, vc, sev, _, _, _.
  do 6 (split; [done|]). rewrite Hrt.
  split; [done|]. split.
  - intros s. rewrite list_elem_of_fmap. split.
    + intros (k & -> & (c & -> & Hne & Hc)%Hkeys). done.
    + intros [Hne Hc]. exists [s]. split; [done|]. apply Hkeys. by exists s.
  - intros i s Hi. rewrite list_lookup_fmap in Hi.
    destruct (keys !! i) as [k|] eqn:Hk; [|done].
    assert (k ∈ keys) as (c & -> & _)%Hkeys by (by eapply list_elem_of_lookup_2).
    cbn in Hi. injection Hi as <-.
    rewrite !list_lookup_fmap, Hk. cbn [fmap option_fmap option_map].
    by rewrite filter_single_key, filter_zip_single_key.
Qed.

End StateRows.

Lemma state_table_rows_witness :
  preprocess_data Demo.to_datetime_value Demo.accidents = Ok Demo.processed ∧
  well_formed Demo.accidents = true ∧
  ∃ kc vc sev stc counts means,
    get_col (main_data Demo.processed) "State" = Ok kc ∧
    get_col (main_data Demo.processed) "Severity" = Ok vc ∧
    numeric vc = Ok sev ∧
    get_col (state_data Demo.processed) "State" = Ok stc ∧
    get_col (state_data Demo.processed) "Accident_Count" = Ok (Int64 counts) ∧
    get_col (state_data Demo.processed) "Avg_Severity" = Ok (Float64 means) ∧
    NoDup (cells stc) ∧
    (∀ s, s ∈ cells stc ↔ s ≠ CNaN ∧ s ∈ cells kc) ∧
    ∀ i s, cells stc !! i = Some s →
      counts !! i = Some (Z.of_nat (length (filter (s =.) (cells kc)))) ∧
      means !! i
      = Some (mean ((filter (fun rv => rv.1 = s) (zip (cells kc) sev)).*2)).
Proof.
  assert (preprocess_data Demo.to_datetime_value Demo.accidents = Ok Demo.processed)
    as H by (vm_compute; reflexivity).
  split; [exact H|]. split; [reflexivity|].
  exact (state_table_rows Demo.to_datetime_value Demo.accidents Demo.processed
           H eq_refl).
Defined.

(** ** Aggregator: the hour table *)

Lemma hour_range ns : (0 ≤ Timestamp.hour ns ≤ 23)%Z.
Proof.
  unfold Timestamp.hour, Timestamp.ns_per_day.
  assert (0 < Timestamp.ns_per_hour)%Z as Hpos by reflexivity.
  pose proof (Z.mod_pos_bound ns (24 * Timestamp.ns_per_hour)) as Hm.
  split.
  - apply Z.div_pos; lia.
  - assert (ns `mod` (24 * Timestamp.ns_per_hour) `div` Timestamp.ns_per_hour < 24)%Z;
      [apply Z.div_lt_upper_bound; lia | lia].
Qed.

Lemma dt_field_cells f ts v :
  dt_field f (Datetime ts) = Ok v →
  ∃ inj : Z → cell,
    (inj = CInt ∨ inj = (fun z => CFloat (Z2Qc z))) ∧
    cells v = (fun x : option Z => from_option (fun t => inj (f t)) CNaN x) <$> ts.
Proof.
  cbn [dt_field]. destruct (decide (None ∈ ts)) as [Hin|Hnot]; intros <-%Ok_inj.
  - exists (fun z => CFloat (Z2Qc z)). split; [by right|].
    cbn [cells]. rewrite <- list_fmap_compose. apply list_fmap_ext.
    by intros i [t|] _.
  - exists CInt. split; [by left|].
    cbn [cells]. rewrite <- (dropna_no_missing ts Hnot) at 2.
    by rewrite <- !list_fmap_compose.
Qed.

Lemma time_cell_inj (inj : Z → cell) :
  inj = CInt ∨ inj = (fun z => CFloat (Z2Qc z)) →
  (∀ a b, inj a = inj b → a = b) ∧ (∀ a, inj a ≠ CNaN) ∧ ∀ a, holds (inj a) a.
Proof.
  intros [-> | ->]; (split; [|split]).
  - intros a b. congruence.
  - done.
  - intros a. by left.
  - intros a b E. assert (Z2Qc a = Z2Qc b) as E' by congruence. by apply Z2Qc_inj.
  - done.
  - intros a. by right.
Qed.

Lemma filter_time_cells (inj : Z → cell) (f : Z → Z) h ts :
  (∀ a b, inj a = inj b → a = b) → (∀ a, inj a ≠ CNaN) →
  length (filter (inj h =.)
            ((fun x : option Z => from_option (fun t => inj (f t)) CNaN x) <$> ts))
  = length (filter (fun t => f t = h) (dropna ts)).
Proof.
  intros Hi Hn. induction ts as [|[t|] ts IH]; [done| |]; rewrite fmap_cons.
  - change (dropna (Some t :: ts)) with (t :: dropna ts).
    rewrite !filter_cons. cbn [from_option].
    destruct (decide (f t = h)) as [<-|Hne].
    + rewrite decide_True by done. cbn [length]. by rewrite IH.
    + rewrite decide_False; [done|]. intros E%Hi. by apply Hne.
  - change (dropna (None :: ts)) with (dropna ts).
    rewrite filter_cons_False; [done|]. cbn [from_option]. apply Hn.
Qed.

Lemma filter_present_time_cells (inj : Z → cell) (f : Z → Z) ts :
  (∀ a, inj a ≠ CNaN) →
  length (filter (.≠ CNaN)
            ((fun x : option Z => from_option (fun t => inj (f t)) CNaN x) <$> ts))
  = length (dropna ts).
Proof.
  intros Hn. induction ts as [|[t|] ts IH]; [done| |]; rewrite fmap_cons.
  - change (dropna (Some t :: ts)) with (t :: dropna ts).
    rewrite filter_cons_True by apply Hn. cbn [length]. by rewrite IH.
  - change (dropna (None :: ts)) with (dropna ts).
    rewrite filter_cons_False; [done|]. cbn [from_option]. by intros H.
Qed.

(** Grouping by one column: one row per value present, with its count. *)
Lemma groupby_size_single name out d g kc :
  groupby_size [name] out d = Ok g → out ≠ name →
  get_col d name = Ok kc → col_len kc = nrows d →
  ∃ kc' counts,
    get_col g name = Ok kc' ∧
    get_col g out = Ok (Int64 counts) ∧
    NoDup (cells kc') ∧
    (∀ s, s ∈ cells kc' ↔ s ≠ CNaN ∧ s ∈ cells kc) ∧
    foldr Z.add 0%Z counts = Z.of_nat (length (filter (.≠ CNaN) (cells kc))) ∧
    ∀ i s, cells kc' !! i = Some s →
      counts !! i = Some (Z.of_nat (length (filter (s =.) (cells kc)))).
Proof.
  intros Hg Hout Hkc Hlen.
  apply groupby_size_counts in Hg as (kcols & Hk & -> & Hcnt); [|set_solver].
  assert (kcols = [kc]) as ->.
  { cbn [for_each] in Hk. rewrite Hkc in Hk. by injection Hk as <-. }
  destruct (state_keys_column kc (nrows d)) as (Hrt & Hnd & _).
  cbn zeta in *.
  assert (key_rows [kc] (nrows d) = (fun c => [c]) <$> cells kc) as Hrows.
  { rewrite key_rows_single. f_equal. apply take_ge. unfold col_len in Hlen. lia. }
  rewrite Hrows in *.
  set (keys := group_keys ((fun c => [c]) <$> cells kc)) in *.
  assert (∀ k, k ∈ keys ↔ ∃ c, k = [c] ∧ c ≠ CNaN ∧ c ∈ cells kc) as Hkeys.
  { intros k. unfold keys. rewrite elem_of_group_keys, list_elem_of_fmap. split.
    - intros (Hna & c & -> & Hc). exists c. split; [done|]. split; [|done].
      intros ->. apply Hna. by left.
    - intros (c & -> & Hne & Hc). split; [|by exists c].
      unfold notna. intros Hin%list_elem_of_singleton. by apply Hne. }
  eexists _, _. split.
  { unfold get_col. cbn [columns key_columns app assoc]. by rewrite decide_True. }
  split; [exact Hcnt|]. rewrite Hrt. split; [done|]. split; [|split].
  - intros s. rewrite list_elem_of_fmap. split.
    + intros (k & -> & (c & -> & Hne & Hc)%Hkeys). done.
    + intros [Hne Hc]. exists [s]. split; [done|]. apply Hkeys. by exists s.
  - unfold keys. by rewrite sum_group_keys_sizes, filter_notna_single.
  - intros i s Hi. rewrite list_lookup_fmap in Hi.
    destruct (keys !! i) as [k|] eqn:Hki; [|done].
    assert (k ∈ keys) as (c & -> & _)%Hkeys by (by eapply list_elem_of_lookup_2).
    cbn in Hi. injection Hi as <-.
    rewrite !list_lookup_fmap, Hki. cbn [fmap option_fmap option_map].
    by rewrite filter_single_key.
Qed.

Section TimeColumns.

Variable to_datetime_value : cell → option Z.

Lemma time_features_fields df df' :
  time_features df = Ok df' →
  ∃ st, get_col df "Start_Time" = Ok st ∧
    ∀ name f, (name, f) ∈ time_fields →
      ∃ v, dt_field f st = Ok v ∧ get_col df' name = Ok v.
Proof.
  unfold time_features, apply_int. intros H.
  apply bind_Ok in H as (d1 & (s1 & v1 & Hs1 & Hv1 & ->)%assign_dt_Ok & H).
  apply bind_Ok in H as (d2 & (s2 & v2 & Hs2 & Hv2 & ->)%assign_dt_Ok & H).
  apply bind_Ok in H as (d3 & (s3 & v3 & Hs3 & Hv3 & ->)%assign_dt_Ok & H).
  apply bind_Ok in H as (d4 & (s4 & v4 & Hs4 & Hv4 & ->)%assign_dt_Ok & H).
  apply bind_Ok in H as (d5 & (s5 & v5 & Hs5 & Hv5 & ->)%assign_dt_Ok & H).
  apply bind_Ok in H as (dow & Hdow & H).
  apply bind_Ok in H as (w & Hw & <-%Ok_inj).
  rewrite !get_col_set_col_ne in Hs2 by done.
  rewrite !get_col_set_col_ne in Hs3 by done.
  rewrite !get_col_set_col_ne in Hs4 by done.
  rewrite !get_col_set_col_ne in Hs5 by done.
  assert (s2 = s1) as -> by congruence. assert (s3 = s1) as -> by congruence.
  assert (s4 = s1) as -> by congruence. assert (s5 = s1) as -> by congruence.
  exists s1. split; [done|]. intros name f Hin. unfold time_fields in Hin.
  repeat (apply elem_of_cons in Hin as [[= -> ->]|Hin]);
    [..|by apply elem_of_nil in Hin];
    (eexists; split; [eassumption|]);
    rewrite ?get_col_set_col_ne by done; apply get_col_set_col_eq.
Qed.

Lemma enrich_time_columns raw d :
  enrich to_datetime_value raw = Ok d →
  ∃ ts, get_col d "Start_Time" = Ok (Datetime ts) ∧
    ∀ name f, (name, f) ∈ time_fields →
      ∃ v, dt_field f (Datetime ts) = Ok v ∧ get_col d name = Ok v.
Proof.
  intros (d1 & d2 & d3 & _ & H2 & _ & _ & _ & U2 & U3 & U4)%enrich_stages.
  destruct (time_features_fields _ _ H2) as (st & Hst & Hf).
  destruct (Hf "Hour" Timestamp.hour) as (v & Hv & _).
  { unfold time_fields. do 3 apply list_elem_of_further. apply list_elem_of_here. }
  destruct (dt_field_Ok _ _ _ Hv) as (ts & -> & _).
  exists ts. split.
  - rewrite (unchanged_outside_get_col _ _ _ _ U4) by set_solver.
    rewrite (unchanged_outside_get_col _ _ _ _ U3) by (unfold imputed_cols; set_solver).
    by rewrite (unchanged_outside_get_col _ _ _ _ U2) by set_solver.
  - intros name f Hin. destruct (Hf name f Hin) as (v' & Hv' & Hg).
    exists v'. split; [done|]. rewrite <- Hg.
    assert (name ∈ ["Year"; "Month"; "Day"; "Hour"; "DayOfWeek"]) as Hn.
    { unfold time_fields in Hin.
      repeat (apply elem_of_cons in Hin as [[= -> _]|Hin]); [set_solver..|].
      by apply elem_of_nil in Hin. }
    rewrite (unchanged_outside_get_col _ _ _ _ U4) by set_solver.
    by rewrite (unchanged_outside_get_col _ _ _ _ U3) by (unfold imputed_cols; set_solver).
Qed.

(** X14: the hour table has one row for every hour of the day in which
    a row of the enriched table starts, and no other; the hour lies
    between 0 and 23 and its count is the number of rows whose start
    time falls in that hour. The counts add up to the number of rows that
    have a start time. *)
Theorem hour_table_rows df ds :
  preprocess_data to_datetime_value df = Ok ds →
  well_formed df = true →
  ∃ ts hours counts,
    get_col (main_data ds) "Start_Time" = Ok (Datetime ts) ∧
    get_col (hour_data ds) "Hour" = Ok hours ∧
    get_col (hour_data ds) "Accident_Count" = Ok (Int64 counts) ∧
    NoDup (cells hours) ∧
    foldr Z.add 0%Z counts = Z.of_nat (length (dropna ts)) ∧
    (∀ t, Some t ∈ ts → ∃ c, c ∈ cells hours ∧ holds c (Timestamp.hour t)) ∧
    ∀ i c, cells hours !! i = Some c →
      ∃ h, holds c h ∧ (0 ≤ h ≤ 23)%Z ∧
        counts !! i
        = Some (Z.of_nat (length (filter (fun t => Timestamp.hour t = h) (dropna ts)))).
Proof.
  intros (He & _ & _ & Hh & _)%preprocess_data_inv Hwf.
  pose proof (enrich_well_formed _ _ _ He Hwf) as Hwm.
  destruct (enrich_time_columns _ _ He) as (ts & Hst & Hf).
  destruct (Hf "Hour" Timestamp.hour) as (v & Hv & Hg).
  { unfold time_fields. do 3 apply list_elem_of_further. apply list_elem_of_here. }
  destruct (dt_field_cells _ _ _ Hv) as (inj & Hinj & Hcells).
  destruct (time_cell_inj inj Hinj) as (Hi & Hn & Hholds).
  destruct (groupby_size_single _ _ _ _ _ Hh ltac:(done) Hg
              (get_col_well_formed _ _ _ Hwm Hg))
    as (hours & counts & Hgh & Hgc & Hnd & Hmem & Hsum & Hrow).
  exists ts, hours, counts. do 4 (split; [done|]). rewrite Hcells in *.
  split; [by rewrite Hsum, filter_present_time_cells|]. split.
  - intros t Ht. exists (inj (Timestamp.hour t)). split; [|apply Hholds].
    apply Hmem. split; [apply Hn|]. apply list_elem_of_fmap. by exists (Some t).
  - intros i c Hc. pose proof (list_elem_of_lookup_2 _ _ _ Hc) as Hin.
    apply Hmem in Hin as [Hne ([t|] & -> & Ht)%list_elem_of_fmap]; [|done].
    cbn [from_option] in *. exists (Timestamp.hour t).
    split; [apply Hholds|]. split; [apply hour_range|].
    rewrite (Hrow _ _ Hc). by rewrite filter_time_cells.
Qed.

End TimeColumns.

Lemma hour_table_rows_witness :
  preprocess_data Demo.to_datetime_value Demo.accidents = Ok Demo.processed ∧
  well_formed Demo.accidents = true ∧
  ∃ ts hours counts,
    get_col (main_data Demo.processed) "Start_Time" = Ok (Datetime ts) ∧
    get_col (hour_data Demo.processed) "Hour" = Ok hours ∧
    get_col (hour_data Demo.processed) "Accident_Count" = Ok (Int64 counts) ∧
    NoDup (cells hours) ∧
    foldr Z.add 0%Z counts = Z.of_nat (length (dropna ts)) ∧
    (∀ t, Some t ∈ ts → ∃ c, c ∈ cells hours ∧ holds c (Timestamp.hour t)) ∧
    ∀ i c, cells hours !! i = Some c →
      ∃ h, holds c h ∧ (0 ≤ h ≤ 23)%Z ∧
        counts !! i
        = Some (Z.of_nat (length (filter (fun t => Timestamp.hour t = h) (dropna ts)))).
Proof.
  assert (preprocess_data Demo.to_datetime_value Demo.accidents = Ok Demo.processed)
    as H by (vm_compute; reflexivity).
  split; [exact H|]. split; [reflexivity|].
  exact (hour_table_rows Demo.to_datetime_value Demo.accidents Demo.processed
           H eq_refl).
Defined.

(** ** Aggregator: grouping by two columns *)

Lemma key_rows_pair_fmap {A : Type} (g1 g2 : A → cell) (xs : list A) k1 k2 :
  cells k1 = g1 <$> xs → cells k2 = g2 <$> xs →
  key_rows [k1; k2] (length xs) = (fun x => [g1 x; g2 x]) <$> xs.
Proof.
  unfold key_rows. cbn [foldr]. intros -> ->.
  induction xs as [|x xs IH]; [done|].
  rewrite !fmap_cons. cbn [length replicate zip_with]. by rewrite IH.
Qed.

Lemma filter_pair_key {A : Type} (g1 g2 : A → cell) a b (xs : list A) :
  length (filter ([a; b] =.) ((fun x => [g1 x; g2 x]) <$> xs))
  = length (filter (fun x => g1 x = a ∧ g2 x = b) xs).
Proof.
  induction xs as [|x xs IH]; [done|]. rewrite fmap_cons, !filter_cons.
  destruct (decide (g1 x = a ∧ g2 x = b)) as [[<- <-]|Hne].
  - rewrite decide_True by done. cbn [length]. by rewrite IH.
  - rewrite decide_False; [done|]. intros [= -> ->]. by apply Hne.
Qed.

Lemma filter_notna_fmap {A : Type} (r : A → list cell) (xs : list A) :
  length (filter notna (r <$> xs)) = length (filter (fun x => notna (r x)) xs).
Proof.
  induction xs as [|x xs IH]; [done|]. rewrite fmap_cons, !filter_cons.
  destruct (decide (notna (r x))); cbn [length]; by rewrite IH.
Qed.

(** Grouping by two columns whose rows are computed from one list: one
    row per pair of values present, with its count. *)
Lemma groupby_size_pair {A : Type} (g1 g2 : A → cell) (xs : list A)
    n1 n2 out d g k1 k2 :
  groupby_size [n1; n2] out d = Ok g →
  out ≠ n1 → out ≠ n2 → n1 ≠ n2 →
  get_col d n1 = Ok k1 → get_col d n2 = Ok k2 →
  cells k1 = g1 <$> xs → cells k2 = g2 <$> xs → nrows d = length xs →
  ∃ c1 c2 counts,
    get_col g n1 = Ok c1 ∧ get_col g n2 = Ok c2 ∧
    get_col g out = Ok (Int64 counts) ∧
    NoDup (zip (cells c1) (cells c2)) ∧
    foldr Z.add 0%Z counts
    = Z.of_nat (length (filter (fun x => notna [g1 x; g2 x]) xs)) ∧
    (∀ x, x ∈ xs → notna [g1 x; g2 x] →
          (g1 x, g2 x) ∈ zip (cells c1) (cells c2)) ∧
    ∀ i a, cells c1 !! i = Some a →
      ∃ b x, cells c2 !! i = Some b ∧ x ∈ xs ∧ a = g1 x ∧ b = g2 x ∧
        notna [a; b] ∧
        counts !! i
        = Some (Z.of_nat (length (filter (fun x => g1 x = a ∧ g2 x = b) xs))).
Proof.
  intros Hg Ho1 Ho2 Hne Hk1 Hk2 Hc1 Hc2 Hn.
  apply groupby_size_counts in Hg as (kcols & Hk & -> & Hcnt); [|set_solver].
  assert (kcols = [k1; k2]) as ->.
  { cbn [for_each] in Hk. rewrite Hk1, Hk2 in Hk. cbn in Hk. by injection Hk as <-. }
  cbn zeta in *. rewrite Hn, (key_rows_pair_fmap g1 g2 xs k1 k2 Hc1 Hc2) in *.
  set (rows := (fun x => [g1 x; g2 x]) <$> xs) in *.
  set (keys := group_keys rows) in *.
  assert (∀ k, k ∈ keys ↔ notna k ∧ ∃ x, k = [g1 x; g2 x] ∧ x ∈ xs) as Hkeys.
  { intros k. unfold keys, rows. by rewrite elem_of_group_keys, list_elem_of_fmap. }
  set (vals1 := (fun k => default CNaN (hd_error k)) <$> keys).
  set (vals2 := (fun k => default CNaN (hd_error k)) <$> (tail <$> keys)).
  assert (cells (of_cells k1 vals1) = vals1) as Hv1.
  { apply of_cells_cells. unfold vals1. rewrite Forall_fmap. apply Forall_forall.
    intros k [_ (x & -> & Hx)]%Hkeys. cbn. rewrite Hc1. apply list_elem_of_fmap. eauto. }
  assert (cells (of_cells k2 vals2) = vals2) as Hv2.
  { apply of_cells_cells. unfold vals2. rewrite !Forall_fmap. apply Forall_forall.
    intros k [_ (x & -> & Hx)]%Hkeys. cbn. rewrite Hc2. apply list_elem_of_fmap. eauto. }
  assert (zip vals1 vals2
          = (fun k => (default CNaN (hd_error k), default CNaN (hd_error (tail k))))
            <$> keys) as Hzip.
  { unfold vals1, vals2. generalize keys. intros l.
    induction l as [|k l IH]; [done|]. rewrite !fmap_cons. cbn [zip zip_with].
    by rewrite IH. }
  exists (of_cells k1 vals1), (of_cells k2 vals2). eexists.
  split.
  { unfold get_col. cbn [columns key_columns app assoc]. by rewrite decide_True. }
  split.
  { unfold get_col. cbn [columns key_columns app assoc].
    rewrite decide_False by done. by rewrite decide_True. }
  split; [exact Hcnt|]. rewrite Hv1, Hv2, Hzip.
  split; [|split; [|split]].
  - apply NoDup_fmap_2_strong; [|apply group_keys_NoDup].
    intros k k' [_ (x & -> & _)]%Hkeys [_ (x' & -> & _)]%Hkeys. cbn. congruence.
  - unfold keys. rewrite sum_group_keys_sizes. unfold rows.
    by rewrite filter_notna_fmap.
  - intros x Hx Hna. apply list_elem_of_fmap. exists [g1 x; g2 x]. split; [done|].
    apply Hkeys. split; [done|]. by exists x.
  - intros i a Hi. unfold vals1 in Hi. rewrite list_lookup_fmap in Hi.
    destruct (keys !! i) as [k|] eqn:Hki; [|done].
    assert (k ∈ keys) as [Hna (x & -> & Hx)]%Hkeys by (by eapply list_elem_of_lookup_2).
    cbn in Hi. injection Hi as <-.
    exists (g2 x), x. unfold vals2. rewrite !list_lookup_fmap, Hki.
    cbn [fmap option_fmap option_map tail hd_error default].
    do 5 (split; [done|]). unfold rows. by rewrite filter_pair_key.
Qed.

(** ** Aggregator: the weekday table and the year-month table *)

Lemma for_each_fmap_Ok {A B C : Type} (f : B → result C) (g : A → B) (h : A → C)
    (xs : list A) :
  (∀ x, f (g x) = Ok (h x)) → for_each f (g <$> xs) = Ok (h <$> xs).
Proof.
  intros Hf. induction xs as [|x xs IH]; [done|].
  rewrite !fmap_cons. cbn [for_each]. by rewrite Hf, IH.
Qed.

Lemma weekend_flag_holds (inj : Z → cell) z :
  inj = CInt ∨ inj = (fun z => CFloat (Z2Qc z)) →
  weekend_flag (inj z) = Ok (if decide (5 ≤ z)%Z then 1 else 0)%Z.
Proof.
  intros [-> | ->]; [done|]. cbn [weekend_flag].
  destruct (decide (Z2Qc 5 ≤ Z2Qc z)%Qc) as [H|H]; rewrite Z2Qc_le in H.
  - by rewrite decide_True.
  - by rewrite decide_False.
Qed.

Lemma day_name_holds (inj : Z → cell) z :
  inj = CInt ∨ inj = (fun z => CFloat (Z2Qc z)) → (0 ≤ z ≤ 6)%Z →
  ∃ name, day_name (inj z) = Some name ∧ (z, name) ∈ day_names.
Proof.
  intros Hinj Hz.
  assert (z ∈ [0; 1; 2; 3; 4; 5; 6]%Z) as Hin.
  { assert (z = 0 ∨ z = 1 ∨ z = 2 ∨ z = 3 ∨ z = 4 ∨ z = 5 ∨ z = 6)%Z
      as [->|[->|[->|[->|[->|[->| ->]]]]]] by lia;
      repeat first [apply list_elem_of_here | apply list_elem_of_further]. }
  destruct Hinj as [-> | ->];
    repeat (apply elem_of_cons in Hin as [->|Hin]);
    try (by apply elem_of_nil in Hin);
    (eexists; split; [vm_compute; reflexivity|]); unfold day_names;
    repeat first [apply list_elem_of_here | apply list_elem_of_further].
Qed.

Lemma filter_time_pair (i1 i2 : Z → cell) (f1 f2 : Z → Z) (dflt : cell) a b ts :
  (∀ x y, i1 x = i1 y → x = y) → (∀ x, i1 x ≠ CNaN) →
  (∀ x y, i2 x = i2 y → x = y) →
  length (filter (fun x : option Z =>
                    from_option (fun t => i1 (f1 t)) CNaN x = i1 a ∧
                    from_option (fun t => i2 (f2 t)) dflt x = i2 b) ts)
  = length (filter (fun t => f1 t = a ∧ f2 t = b) (dropna ts)).
Proof.
  intros H1 Hn H2. induction ts as [|[t|] ts IH]; [done| |].
  - change (dropna (Some t :: ts)) with (t :: dropna ts).
    rewrite !filter_cons. cbn [from_option].
    destruct (decide (f1 t = a ∧ f2 t = b)) as [[<- <-]|Hne].
    + rewrite decide_True by done. cbn [length]. by rewrite IH.
    + rewrite decide_False; [done|]. intros [E1%H1 E2%H2]. by apply Hne.
  - change (dropna (None :: ts)) with (dropna ts).
    rewrite filter_cons_False; [done|]. cbn [from_option].
    intros [E _]. symmetry in E. by apply Hn in E.
Qed.

Lemma filter_notna_dated (g1 g2 : option Z → cell) ts :
  g1 None = CNaN → (∀ t, g1 (Some t) ≠ CNaN) → (∀ t, g2 (Some t) ≠ CNaN) →
  length (filter (fun x => notna [g1 x; g2 x]) ts) = length (dropna ts).
Proof.
  intros Hnone H1 H2. induction ts as [|[t|] ts IH]; [done| |].
  - change (dropna (Some t :: ts)) with (t :: dropna ts).
    rewrite filter_cons_True; [cbn [length]; by rewrite IH|].
    unfold notna. intros [E|[E|E%elem_of_nil]%elem_of_cons]%elem_of_cons; [| |done].
    + by apply (H1 t).
    + by apply (H2 t).
  - change (dropna (None :: ts)) with (dropna ts).
    rewrite filter_cons_False; [done|]. unfold notna. rewrite Hnone.
    intros H. apply H. by left.
Qed.

Section TimeTables.

Variable to_datetime_value : cell → option Z.

Lemma enrich_weekend raw d :
  enrich to_datetime_value raw = Ok d →
  ∃ dow wk,
    get_col d "DayOfWeek" = Ok dow ∧ get_col d "Weekend" = Ok (Int64 wk) ∧
    for_each weekend_flag (cells dow) = Ok wk.
Proof.
  intros (d1 & d2 & d3 & _ & H2 & _ & _ & _ & _ & U3 & U4)%enrich_stages.
  apply time_features_spec in H2 as [_ (st & dow & wk & _ & _ & Hwk & Hg1 & Hg2)].
  exists dow, wk. split; [|split; [|done]].
  - rewrite (unchanged_outside_get_col _ _ _ _ U4) by set_solver.
    by rewrite (unchanged_outside_get_col _ _ _ _ U3) by (unfold imputed_cols; set_solver).
  - rewrite (unchanged_outside_get_col _ _ _ _ U4) by set_solver.
    by rewrite (unchanged_outside_get_col _ _ _ _ U3) by (unfold imputed_cols; set_solver).
Qed.

(** X15: the weekday table has one row for every day of the week on
    which a row of the enriched table starts, each day once; the row
    holds the day's name, the weekend flag (1 for days 5 and 6) and the
    number of rows that start on that day of the week. The counts add up
    to the number of rows that have a start time. *)
Theorem weekday_table_rows df ds :
  preprocess_data to_datetime_value df = Ok ds →
  well_formed df = true →
  ∃ ts days weekend names counts,
    get_col (main_data ds) "Start_Time" = Ok (Datetime ts) ∧
    get_col (weekday_data ds) "DayOfWeek" = Ok days ∧
    get_col (weekday_data ds) "Weekend" = Ok weekend ∧
    get_col (weekday_data ds) "DayName" = Ok (Object names) ∧
    get_col (weekday_data ds) "Accident_Count" = Ok (Int64 counts) ∧
    NoDup (cells days) ∧
    foldr Z.add 0%Z counts = Z.of_nat (length (dropna ts)) ∧
    ∀ i c, cells days !! i = Some c →
      ∃ z name, holds c z ∧ (z, name) ∈ day_names ∧
        names !! i = Some (Some name) ∧
        cells weekend !! i = Some (CInt (if decide (5 ≤ z)%Z then 1 else 0)) ∧
        counts !! i
        = Some (Z.of_nat (length (filter (fun t => Timestamp.dayofweek t = z)
                                         (dropna ts)))).
Proof.
  intros (He & _ & _ & _ & Hd & _)%preprocess_data_inv Hwf.
  pose proof (enrich_well_formed _ _ _ He Hwf) as Hwm.
  destruct (enrich_time_columns _ _ _ He) as (ts & Hst & Hf).
  destruct (Hf "DayOfWeek" Timestamp.dayofweek) as (v & Hv & Hg).
  { unfold time_fields. do 4 apply list_elem_of_further. apply list_elem_of_here. }
  destruct (enrich_weekend _ _ He) as (dow & wk & Hg1 & Hg2 & Hwk).
  assert (dow = v) as -> by congruence.
  destruct (dt_field_cells _ _ _ Hv) as (inj & Hinj & Hcells).
  destruct (time_cell_inj inj Hinj) as (Hi & Hn & Hholds).
  set (flag := fun z : Z => (if decide (5 ≤ z)%Z then 1 else 0)%Z).
  set (g1 := fun x : option Z =>
               from_option (fun t => inj (Timestamp.dayofweek t)) CNaN x) in *.
  set (g2 := fun x : option Z =>
               from_option (fun t => CInt (flag (Timestamp.dayofweek t))) (CInt 0) x).
  assert (cells (Int64 wk) = g2 <$> ts) as Hcells2.
  { rewrite Hcells in Hwk.
    rewrite (for_each_fmap_Ok weekend_flag g1
               (fun x => from_option (fun t => flag (Timestamp.dayofweek t)) 0%Z x))
      in Hwk.
    - apply Ok_inj in Hwk as <-. cbn [cells]. rewrite <- list_fmap_compose.
      apply list_fmap_ext. by intros i [t|] _.
    - intros [t|]; [|done]. unfold g1. cbn [from_option].
      by rewrite weekend_flag_holds. }
  assert (nrows (main_data ds) = length ts) as Hlen.
  { rewrite <- (get_col_well_formed _ _ _ Hwm Hst). apply cells_length_Datetime. }
  unfold weekday_aggregate in Hd.
  apply bind_Ok in Hd as (g & Hgr & Hd).
  apply bind_Ok in Hd as (dowc & Hdowc & <-%Ok_inj).
  destruct (groupby_size_pair g1 g2 ts _ _ _ _ _ _ _ Hgr
              ltac:(done) ltac:(done) ltac:(done) Hg Hg2 Hcells Hcells2 Hlen)
    as (c1 & c2 & counts & Hc1 & Hc2 & Hcnt & Hnd & Hsum & _ & Hrow).
  assert (dowc = c1) as -> by congruence.
  assert (∀ i c, cells c1 !! i = Some c →
            ∃ t, c = inj (Timestamp.dayofweek t) ∧
                 cells c2 !! i = Some (CInt (flag (Timestamp.dayofweek t))) ∧
                 counts !! i
                 = Some (Z.of_nat (length (filter
                      (fun t' => Timestamp.dayofweek t' = Timestamp.dayofweek t)
                      (dropna ts))))) as Hrow'.
  { intros i c Hc. destruct (Hrow i c Hc) as (b & x & Hb & Hx & -> & -> & Hna & Hct).
    destruct x as [t|]; [|exfalso; apply Hna; by left].
    exists t. split; [done|]. split; [done|]. rewrite Hct. do 2 f_equal.
    unfold g1, g2. cbn [from_option].
    rewrite (filter_time_pair inj CInt Timestamp.dayofweek
               (fun t => flag (Timestamp.dayofweek t)) (CInt 0)
               (Timestamp.dayofweek t) (flag (Timestamp.dayofweek t)) ts Hi Hn);
      [|congruence].
    f_equal. apply filter_ext_in. intros t' _. split; [by intros [? _]|].
    intros E. split; [done|]. by rewrite E. }
  exists ts, c1, c2, (day_name <$> cells c1), counts.
  split; [done|].
  split; [by rewrite get_col_set_col_ne|].
  split; [by rewrite get_col_set_col_ne|].
  split; [apply get_col_set_col_eq|].
  split; [by rewrite get_col_set_col_ne|].
  split; [|split].
  - apply NoDup_alt. intros i j c Hci Hcj.
    destruct (Hrow' _ _ Hci) as (t & -> & Hbi & _).
    destruct (Hrow' _ _ Hcj) as (t' & E%Hi & Hbj & _).
    rewrite <- E in Hbj.
    eapply NoDup_lookup; [exact Hnd| |];
      apply lookup_zip_with_Some; eexists _, _; eauto.
  - rewrite Hsum. f_equal. f_equal. apply filter_notna_dated; [done|..].
    + intros t. apply Hn.
    + done.
  - intros i c Hc. destruct (Hrow' _ _ Hc) as (t & -> & Hb & Hct).
    destruct (day_name_holds inj (Timestamp.dayofweek t) Hinj (dayofweek_range t))
      as (name & Hname & Hin).
    exists (Timestamp.dayofweek t), name.
    split; [apply Hholds|]. split; [done|].
    split; [by rewrite list_lookup_fmap, Hc; cbn; rewrite Hname|].
    split; done.
Qed.

(** X16: the year-month table has one row for every month of a year in
    which a row of the enriched table starts, each once, with the number
    of rows that start in that month. The counts add up to the number of
    rows that have a start time. *)
Theorem time_table_rows df ds :
  preprocess_data to_datetime_value df = Ok ds →
  well_formed df = true →
  ∃ ts years months counts,
    get_col (main_data ds) "Start_Time" = Ok (Datetime ts) ∧
    get_col (time_data ds) "Year" = Ok years ∧
    get_col (time_data ds) "Month" = Ok months ∧
    get_col (time_data ds) "Accident_Count" = Ok (Int64 counts) ∧
    NoDup (zip (cells years) (cells months)) ∧
    foldr Z.add 0%Z counts = Z.of_nat (length (dropna ts)) ∧
    (∀ t, Some t ∈ ts →
       ∃ cy cm, (cy, cm) ∈ zip (cells years) (cells months) ∧
                holds cy (Timestamp.year t) ∧ holds cm (Timestamp.month t)) ∧
    ∀ i cy, cells years !! i = Some cy →
      ∃ cm y m, cells months !! i = Some cm ∧ holds cy y ∧ holds cm m ∧
        counts !! i
        = Some (Z.of_nat (length (filter
                  (fun t => Timestamp.year t = y ∧ Timestamp.month t = m)
                  (dropna ts)))).
Proof.
  intros (He & _ & Ht & _)%preprocess_data_inv Hwf.
  pose proof (enrich_well_formed _ _ _ He Hwf) as Hwm.
  destruct (enrich_time_columns _ _ _ He) as (ts & Hst & Hf).
  destruct (Hf "Year" Timestamp.year) as (vy & Hvy & Hgy).
  { unfold time_fields. apply list_elem_of_here. }
  destruct (Hf "Month" Timestamp.month) as (vm & Hvm & Hgm).
  { unfold time_fields. apply list_elem_of_further, list_elem_of_here. }
  destruct (dt_field_cells _ _ _ Hvy) as (iy & Hiy & Hcy).
  destruct (dt_field_cells _ _ _ Hvm) as (im & Him & Hcm).
  destruct (time_cell_inj iy Hiy) as (Hiy1 & Hiyn & Hhy).
  destruct (time_cell_inj im Him) as (Him1 & Himn & Hhm).
  assert (nrows (main_data ds) = length ts) as Hlen.
  { rewrite <- (get_col_well_formed _ _ _ Hwm Hst). apply cells_length_Datetime. }
  destruct (groupby_size_pair _ _ ts _ _ _ _ _ _ _ Ht
              ltac:(done) ltac:(done) ltac:(done) Hgy Hgm Hcy Hcm Hlen)
    as (c1 & c2 & counts & Hc1 & Hc2 & Hcnt & Hnd & Hsum & Hall & Hrow).
  exists ts, c1, c2, counts. do 5 (split; [done|]).
  split; [|split].
  - rewrite Hsum. f_equal. f_equal.
    apply (filter_notna_dated
             (fun x => from_option (fun t => iy (Timestamp.year t)) CNaN x)
             (fun x => from_option (fun t => im (Timestamp.month t)) CNaN x));
      [done|..]; intros t; cbn [from_option]; [apply Hiyn | apply Himn].
  - intros t Hin. exists (iy (Timestamp.year t)), (im (Timestamp.month t)).
    split; [|split; [apply Hhy | apply Hhm]].
    apply (Hall (Some t) Hin). unfold notna. cbn [from_option].
    intros [E|[E|E%elem_of_nil]%elem_of_cons]%elem_of_cons; [| |done].
    + by apply (Hiyn (Timestamp.year t)).
    + by apply (Himn (Timestamp.month t)).
  - intros i cy Hc. destruct (Hrow i cy Hc) as (b & x & Hb & Hx & -> & -> & Hna & Hct).
    destruct x as [t|]; [|exfalso; apply Hna; by left].
    cbn [from_option] in *.
    exists (im (Timestamp.month t)), (Timestamp.year t), (Timestamp.month t).
    split; [done|]. split; [apply Hhy|]. split; [apply Hhm|].
    rewrite Hct. do 2 f_equal.
    by apply (filter_time_pair iy im Timestamp.year Timestamp.month CNaN).
Qed.

End TimeTables.

Lemma weekday_table_rows_witness :
  preprocess_data Demo.to_datetime_value Demo.accidents = Ok Demo.processed ∧
  well_formed Demo.accidents = true ∧
  ∃ ts days weekend names counts,
    get_col (main_data Demo.processed) "Start_Time" = Ok (Datetime ts) ∧
    get_col (weekday_data Demo.processed) "DayOfWeek" = Ok days ∧
    get_col (weekday_data Demo.processed) "Weekend" = Ok weekend ∧
    get_col (weekday_data Demo.processed) "DayName" = Ok (Object names) ∧
    get_col (weekday_data Demo.processed) "Accident_Count" = Ok (Int64 counts) ∧
    NoDup (cells days) ∧
    foldr Z.add 0%Z counts = Z.of_nat (length (dropna ts)) ∧
    ∀ i c, cells days !! i = Some c →
      ∃ z name, holds c z ∧ (z, name) ∈ day_names ∧
        names !! i = Some (Some name) ∧
        cells weekend !! i = Some (CInt (if decide (5 ≤ z)%Z then 1 else 0)) ∧
        counts !! i
        = Some (Z.of_nat (length (filter (fun t => Timestamp.dayofweek t = z)
                                         (dropna ts)))).
Proof.
  assert (preprocess_data Demo.to_datetime_value Demo.accidents = Ok Demo.processed)
    as H by (vm_compute; reflexivity).
  split; [exact H|]. split; [reflexivity|].
  exact (weekday_table_rows Demo.to_datetime_value Demo.accidents Demo.processed
           H eq_refl).
Defined.

Lemma time_table_rows_witness :
  preprocess_data Demo.to_datetime_value Demo.accidents = Ok Demo.processed ∧
  well_formed Demo.accidents = true ∧
  ∃ ts years months counts,
    get_col (main_data Demo.processed) "Start_Time" = Ok (Datetime ts) ∧
    get_col (time_data Demo.processed) "Year" = Ok years ∧
    get_col (time_data Demo.processed) "Month" = Ok months ∧
    get_col (time_data Demo.processed) "Accident_Count" = Ok (Int64 counts) ∧
    NoDup (zip (cells years) (cells months)) ∧
    foldr Z.add 0%Z counts = Z.of_nat (length (dropna ts)) ∧
    (∀ t, Some t ∈ ts →
       ∃ cy cm, (cy, cm) ∈ zip (cells years) (cells months) ∧
                holds cy (Timestamp.year t) ∧ holds cm (Timestamp.month t)) ∧
    ∀ i cy, cells years !! i = Some cy →
      ∃ cm y m, cells months !! i = Some cm ∧ holds cy y ∧ holds cm m ∧
        counts !! i
        = Some (Z.of_nat (length (filter
                  (fun t => Timestamp.year t = y ∧ Timestamp.month t = m)
                  (dropna ts)))).
Proof.
  assert (preprocess_data Demo.to_datetime_value Demo.accidents = Ok Demo.processed)
    as H by (vm_compute; reflexivity).
  split; [exact H|]. split; [reflexivity|].
  exact (time_table_rows Demo.to_datetime_value Demo.accidents Demo.processed
           H eq_refl).
Defined.

(** ** Aggregator: the weather table *)

Lemma filter_pair_fst {A : Type} `{!EqDecision A} (k : A) (L : list (A * cell)) :
  length (filter (fun rc => rc.1 = k ∧ rc.2 ≠ CNaN) L)
  = length (filter (k =.) (filter (fun rc : A * cell => rc.2 ≠ CNaN) L).*1).
Proof.
  induction L as [|[a b] L IH]; [done|]. rewrite !filter_cons. cbn [fst snd].
  destruct (decide (b ≠ CNaN)) as [Hq|Hq].
  - rewrite fmap_cons, filter_cons. cbn [fst].
    destruct (decide (a = k)) as [->|Hne].
    + rewrite !decide_True by done. cbn [length]. by rewrite IH.
    + rewrite !decide_False; [done|congruence|]. by intros [? _].
  - rewrite decide_False; [done|]. by intros [_ ?].
Qed.

Lemma filter_snd_zip {A : Type} (l : list A) (vs : list cell) :
  length l = length vs →
  length (filter (fun rc : A * cell => rc.2 ≠ CNaN) (zip l vs))
  = length (filter (.≠ CNaN) vs).
Proof.
  revert vs. induction l as [|a l IH]; intros [|v vs] Hlen; try done.
  cbn [zip zip_with]. rewrite !filter_cons. cbn [snd].
  injection Hlen as Hlen. destruct (decide (v ≠ CNaN)); cbn [length]; by rewrite IH.
Qed.

(** Counting per group the rows with a value present counts every such
    row once, when every row belongs to a group. *)
Lemma sum_counts_present {A : Type} `{!EqDecision A} (K l : list A) (ids : list cell) :
  NoDup K → (∀ r, r ∈ l → r ∈ K) → length l = length ids →
  foldr Z.add 0%Z
    ((fun k => Z.of_nat (length (filter (fun rc => rc.1 = k ∧ rc.2 ≠ CNaN)
                                        (zip l ids)))) <$> K)
  = Z.of_nat (length (filter (.≠ CNaN) ids)).
Proof.
  intros Hnd Hall Hlen.
  rewrite (list_fmap_ext _
    (fun k => Z.of_nat (length (filter (k =.)
       (filter (fun rc : A * cell => rc.2 ≠ CNaN) (zip l ids)).*1)))).
  2:{ intros i k _. cbn beta. f_equal. apply filter_pair_fst. }
  rewrite sum_group_sizes by done. f_equal.
  rewrite filter_all.
  - rewrite length_fmap. by apply filter_snd_zip.
  - intros r ([r' c] & -> & [_ Hin]%list_elem_of_filter)%list_elem_of_fmap.
    apply Hall. cbn [fst]. by eapply elem_of_zip_l.
Qed.

Lemma filter_zip_single_present (s : cell) (l ids : list cell) :
  length (filter (fun rc => rc.1 = [s] ∧ rc.2 ≠ CNaN) (zip ((fun c => [c]) <$> l) ids))
  = length (filter (fun rc => rc.1 = s ∧ rc.2 ≠ CNaN) (zip l ids)).
Proof.
  revert ids. induction l as [|c l IH]; intros [|v ids]; try done.
  rewrite fmap_cons. cbn [zip zip_with]. rewrite !filter_cons. cbn [fst snd].
  destruct (decide (c = s ∧ v ≠ CNaN)) as [[-> Hv]|Hne].
  - rewrite decide_True by done. cbn [length]. by rewrite IH.
  - rewrite decide_False; [apply IH|]. intros [[= ->] Hv]. by apply Hne.
Qed.

Section WeatherTable.

Variable to_datetime_value : cell → option Z.

(** X17: when the data have a Weather_Condition column, the weather
    table has one row per weather category that occurs in the enriched
    table, each once; the row holds the number of rows of that category
    whose ID is not missing and the mean of the Severity of the rows of
    that category. The counts add up to the number of rows whose ID is
    not missing. *)
Theorem weather_table_rows df ds :
  preprocess_data to_datetime_value df = Ok ds →
  well_formed df = true →
  has_col df "Weather_Condition" = true →
  ∃ wc ids sevc sev cats counts means,
    get_col (main_data ds) "Weather_Category" = Ok wc ∧
    get_col (main_data ds) "ID" = Ok ids ∧
    get_col (main_data ds) "Severity" = Ok sevc ∧
    numeric sevc = Ok sev ∧
    get_col (weather_data ds) "Weather_Category" = Ok cats ∧
    get_col (weather_data ds) "Accident_Count" = Ok (Int64 counts) ∧
    get_col (weather_data ds) "Avg_Severity" = Ok (Float64 means) ∧
    NoDup (cells cats) ∧
    (∀ s, s ∈ cells cats ↔ s ∈ cells wc) ∧
    foldr Z.add 0%Z counts = Z.of_nat (length (filter (.≠ CNaN) (cells ids))) ∧
    ∀ i s, cells cats !! i = Some s →
      counts !! i
      = Some (Z.of_nat (length (filter (fun rc => rc.1 = s ∧ rc.2 ≠ CNaN)
                                       (zip (cells wc) (cells ids))))) ∧
      means !! i
      = Some (mean ((filter (fun rv => rv.1 = s) (zip (cells wc) sev)).*2)).
Proof.
  intros (He & _ & _ & _ & _ & Hw & _)%preprocess_data_inv Hwf Hcond.
  pose proof (enrich_well_formed _ _ _ He Hwf) as Hwm.
  destruct (enrich_stages _ _ _ He) as (d1 & d2 & d3 & _ & _ & _ & H4 & U1 & U2 & U3 & _).
  assert (has_col d3 "Weather_Condition" = true) as Hcond3.
  { rewrite (has_col_ext d3 df "Weather_Condition"); [done|].
    rewrite (unchanged_outside_get_col _ _ _ _ U3),
            (unchanged_outside_get_col _ _ _ _ U2),
            (unchanged_outside_get_col _ _ _ _ U1);
      [done|..]; unfold imputed_cols; set_solver. }
  unfold weather_category, apply_str in H4. rewrite Hcond3 in H4.
  apply bind_Ok in H4 as (wc0 & _ & H4).
  apply bind_Ok in H4 as (cat & Hcat & Hmain).
  apply bind_Ok in Hcat as (ss & _ & <-%Ok_inj).
  apply Ok_inj in Hmain.
  assert (get_col (main_data ds) "Weather_Category" = Ok (Object (Some <$> ss))) as Hwc.
  { rewrite <- Hmain. apply get_col_set_col_eq. }
  assert (CNaN ∉ cells (Object (Some <$> ss))) as Hpresent.
  { cbn [cells]. rewrite <- list_fmap_compose.
    by intros (s & ? & _)%list_elem_of_fmap. }
  set (kc := Object (Some <$> ss)) in *.
  unfold weather_aggregate, groupby_count_mean in Hw.
  rewrite (get_col_has_col _ _ _ Hwc), Hwc in Hw.
  apply bind_Ok in Hw as (kc' & <-%Ok_inj & Hw).
  apply bind_Ok in Hw as (cc & Hcc & Hw).
  apply bind_Ok in Hw as (vc & Hvc & Hw).
  apply bind_Ok in Hw as (vs & Hvs & <-%Ok_inj).
  destruct (state_keys_column kc (nrows (main_data ds))) as (Hrt & Hnd & _).
  cbn zeta in *.
  assert (key_rows [kc] (nrows (main_data ds)) = (fun c => [c]) <$> cells kc) as Hrows.
  { rewrite key_rows_single. f_equal. apply take_ge.
    pose proof (get_col_well_formed _ _ _ Hwm Hwc) as Hl. unfold col_len in Hl. lia. }
  rewrite Hrows in *.
  set (keys := group_keys ((fun c => [c]) <$> cells kc)) in *.
  assert (∀ k, k ∈ keys ↔ ∃ c, k = [c] ∧ c ∈ cells kc) as Hkeys.
  { intros k. unfold keys. rewrite elem_of_group_keys, list_elem_of_fmap. split.
    - intros (_ & c & -> & Hc). by exists c.
    - intros (c & -> & Hc). split; [|by exists c].
      unfold notna. intros Hin%list_elem_of_singleton. apply Hpresent. by rewrite Hin. }
  eexists kc, cc, vc, vs, _, _, _.
  do 4 (split; [done|]).
  do 3 (split; [unfold get_col; cbn [columns assoc fst snd];
                rewrite ?decide_False by done; by rewrite decide_True|]).
  rewrite Hrt. split; [done|]. split; [|split].
  - intros s. rewrite list_elem_of_fmap. split.
    + intros (k & -> & (c & -> & Hc)%Hkeys). done.
    + intros Hc. exists [s]. split; [done|]. apply Hkeys. by exists s.
  - apply sum_counts_present.
    + apply group_keys_NoDup.
    + intros r (c & -> & Hc)%list_elem_of_fmap. apply Hkeys. by exists c.
    + rewrite length_fmap.
      pose proof (get_col_well_formed _ _ _ Hwm Hwc) as Hl1.
      pose proof (get_col_well_formed _ _ _ Hwm Hcc) as Hl2.
      unfold col_len in *. congruence.
  - intros i s Hi. rewrite list_lookup_fmap in Hi.
    destruct (keys !! i) as [k|] eqn:Hki; [|done].
    assert (k ∈ keys) as (c & -> & _)%Hkeys by (by eapply list_elem_of_lookup_2).
    cbn in Hi. injection Hi as <-.
    rewrite !list_lookup_fmap, Hki. cbn [fmap option_fmap option_map].
    by rewrite filter_zip_single_present, filter_zip_single_key.
Qed.

End WeatherTable.

Lemma weather_table_rows_witness :
  preprocess_data Demo.to_datetime_value Demo.accidents = Ok Demo.processed ∧
  well_formed Demo.accidents = true ∧
  has_col Demo.accidents "Weather_Condition" = true ∧
  ∃ wc ids sevc sev cats counts means,
    get_col (main_data Demo.processed) "Weather_Category" = Ok wc ∧
    get_col (main_data Demo.processed) "ID" = Ok ids ∧
    get_col (main_data Demo.processed) "Severity" = Ok sevc ∧
    numeric sevc = Ok sev ∧
    get_col (weather_data Demo.processed) "Weather_Category" = Ok cats ∧
    get_col (weather_data Demo.processed) "Accident_Count" = Ok (Int64 counts) ∧
    get_col (weather_data Demo.processed) "Avg_Severity" = Ok (Float64 means) ∧
    NoDup (cells cats) ∧
    (∀ s, s ∈ cells cats ↔ s ∈ cells wc) ∧
    foldr Z.add 0%Z counts = Z.of_nat (length (filter (.≠ CNaN) (cells ids))) ∧
    ∀ i s, cells cats !! i = Some s →
      counts !! i
      = Some (Z.of_nat (length (filter (fun rc => rc.1 = s ∧ rc.2 ≠ CNaN)
                                       (zip (cells wc) (cells ids))))) ∧
      means !! i
      = Some (mean ((filter (fun rv => rv.1 = s) (zip (cells wc) sev)).*2)).
Proof.
  assert (preprocess_data Demo.to_datetime_value Demo.accidents = Ok Demo.processed)
    as H by (vm_compute; reflexivity).
  split; [exact H|]. split; [reflexivity|]. split; [reflexivity|].
  exact (weather_table_rows Demo.to_datetime_value Demo.accidents Demo.processed
           H eq_refl eq_refl).
Defined.

(** ** Aggregator: the rows of the city table *)

Lemma take_col_lookup idxs c c' :
  take_col idxs c = Ok c' →
  Forall2 (fun i y => cells c !! i = Some y) idxs (cells c').
Proof.
  assert (∀ (A : Type) (f : A → cell) (xs ys : list A),
            take_list idxs xs = Ok ys →
            Forall2 (fun i y => (f <$> xs) !! i = Some y) idxs (f <$> ys)) as Hl.
  { intros A f xs ys H. unfold take_list in H. apply for_each_Ok in H.
    apply Forall2_fmap_r. eapply Forall2_impl; [exact H|].
    intros i y. cbn. rewrite list_lookup_fmap.
    destruct (xs !! i); [|done]. by intros [= ->]. }
  destruct c as [xs|xs|xs|xs]; cbn [take_col]; intros H;
    apply bind_Ok in H as (ys & Hys & <-%Ok_inj); cbn [cells]; by apply Hl.
Qed.

Lemma cells_head_col n c : cells (head_col n c) = firstn n (cells c).
Proof. destruct c; cbn [head_col cells]; apply fmap_take. Qed.

Section CityRows.

Variable to_datetime_value : cell → option Z.

(** X18: every row of the city table is a (State, City) pair that occurs
    in the enriched table with neither value missing, no pair comes
    twice, and the row's count is the number of rows of the enriched
    table with that State and that City. *)
Theorem city_table_rows df ds :
  preprocess_data to_datetime_value df = Ok ds →
  well_formed df = true →
  has_col df "City" = true →
  ∃ sc cc states cities counts,
    get_col (main_data ds) "State" = Ok sc ∧
    get_col (main_data ds) "City" = Ok cc ∧
    get_col (city_data ds) "State" = Ok states ∧
    get_col (city_data ds) "City" = Ok cities ∧
    get_col (city_data ds) "Accident_Count" = Ok (Int64 counts) ∧
    NoDup (zip (cells states) (cells cities)) ∧
    ∀ i s, cells states !! i = Some s →
      ∃ c, cells cities !! i = Some c ∧ s ≠ CNaN ∧ c ≠ CNaN ∧
        (s, c) ∈ zip (cells sc) (cells cc) ∧
        counts !! i
        = Some (Z.of_nat (length (filter ((s, c) =.) (zip (cells sc) (cells cc))))).
Proof.
  intros (He & Hs & _ & _ & _ & _ & Hc)%preprocess_data_inv Hwf Hcity.
  pose proof (enrich_well_formed _ _ _ He Hwf) as Hwm.
  destruct (state_aggregate_State _ _ Hs) as [sc Hsc].
  assert (has_col (main_data ds) "City" = true) as Hh.
  { rewrite (has_col_ext (main_data ds) df "City"); [done|].
    eapply unchanged_outside_get_col; [exact (enrich_unchanged _ _ _ He)|].
    unfold written_cols, imputed_cols. set_solver. }
  destruct (has_col_true_get_col _ _ Hh) as [cc Hcc].
  pose proof (get_col_well_formed _ _ _ Hwm Hsc) as Hl1.
  pose proof (get_col_well_formed _ _ _ Hwm Hcc) as Hl2.
  unfold col_len in Hl1, Hl2.
  set (xs := zip (cells sc) (cells cc)).
  assert (cells sc = fst <$> xs) as Hx1 by (unfold xs; rewrite fst_zip; [done|lia]).
  assert (cells cc = snd <$> xs) as Hx2 by (unfold xs; rewrite snd_zip; [done|lia]).
  assert (nrows (main_data ds) = length xs) as Hn.
  { unfold xs. rewrite length_zip. lia. }
  unfold city_aggregate in Hc. rewrite Hh in Hc.
  apply bind_Ok in Hc as (g & Hg & Hc).
  apply bind_Ok in Hc as (g' & Hsort & <-%Ok_inj).
  destruct (groupby_size_pair fst snd xs _ _ _ _ _ _ _ Hg
              ltac:(done) ltac:(done) ltac:(done) Hsc Hcc Hx1 Hx2 Hn)
    as (c1 & c2 & cnts & Hc1 & Hc2 & Hcnt & Hnd & _ & _ & Hrow).
  unfold sort_values_desc in Hsort. rewrite Hcnt in Hsort.
  unfold mbind, result_bind in Hsort.
  set (order := merge_sort _ _) in Hsort.
  assert (NoDup order) as Hord.
  { unfold order. rewrite merge_sort_Permutation. apply NoDup_seq. }
  destruct (take_get_col _ _ _ _ _ Hsort Hc1) as (c1' & Ht1%take_col_lookup & Hg1).
  destruct (take_get_col _ _ _ _ _ Hsort Hc2) as (c2' & Ht2%take_col_lookup & Hg2).
  destruct (take_get_col _ _ _ _ _ Hsort Hcnt) as (c3' & Ht3 & Hg3).
  cbn [take_col] in Ht3. apply bind_Ok in Ht3 as (ys & Hys & <-%Ok_inj).
  unfold take_list in Hys. apply for_each_Ok in Hys.
  assert (∀ i s, firstn 50 (cells c1') !! i = Some s →
            ∃ idx c, order !! i = Some idx ∧ cells c1 !! idx = Some s ∧
              cells c2 !! idx = Some c ∧
              firstn 50 (cells c2') !! i = Some c ∧
              s ≠ CNaN ∧ c ≠ CNaN ∧ (s, c) ∈ xs ∧
              firstn 50 ys !! i
              = Some (Z.of_nat (length (filter ((s, c) =.) xs)))) as Hrows.
  { intros i s [Hi Hlt]%lookup_take_Some.
    destruct (Forall2_lookup_r _ _ _ _ _ Ht1 Hi) as (idx & Hidx & Hs1).
    destruct (Hrow idx s Hs1) as (b & [s' c'] & Hb & Hx & E1 & E2 & Hna & Hct).
    cbn [fst snd] in E1, E2. subst s' c'.
    destruct (Forall2_lookup_l _ _ _ _ _ Ht2 Hidx) as (b' & Hb' & Hb2).
    assert (b' = b) as -> by congruence.
    destruct (Forall2_lookup_l _ _ _ _ _ Hys Hidx) as (y & Hy & Hy2).
    rewrite Hct in Hy2. apply Ok_inj in Hy2 as <-.
    exists idx, b. do 3 (split; [done|]).
    split; [by apply lookup_take_Some|].
    split; [intros ->; apply Hna; by left|].
    split; [intros ->; apply Hna; right; by left|].
    split; [done|].
    apply lookup_take_Some. split; [|done]. rewrite Hy. do 2 f_equal.
    f_equal. apply filter_ext_in. intros [a b0] _. cbn [fst snd]. split.
    - by intros [-> ->].
    - by intros [= -> ->]. }
  exists sc, cc, (head_col 50 c1'), (head_col 50 c2'), (firstn 50 ys).
  split; [done|]. split; [done|].
  split; [by apply (head_get_col 50) in Hg1|].
  split; [by apply (head_get_col 50) in Hg2|].
  split; [by apply (head_get_col 50) in Hg3|].
  rewrite !cells_head_col. split.
  - apply NoDup_alt. intros i j [s0 c0] Hi Hj.
    apply lookup_zip_with_Some in Hi as (s1 & b1 & [= -> ->] & Hi1 & Hi2).
    apply lookup_zip_with_Some in Hj as (s2 & b2 & [= <- <-] & Hj1 & Hj2).
    destruct (Hrows _ _ Hi1) as (idx & c & Hoi & Hsi & Hci & Hci' & _).
    destruct (Hrows _ _ Hj1) as (idx' & c' & Hoj & Hsj & Hcj & Hcj' & _).
    assert (c = b1) as -> by congruence. assert (c' = b1) as -> by congruence.
    assert (idx = idx') as <-.
    { eapply NoDup_lookup; [exact Hnd| |];
        apply lookup_zip_with_Some; eexists _, _; eauto. }
    by eapply NoDup_lookup.
  - intros i s Hi. destruct (Hrows _ _ Hi) as (idx & c & _ & _ & _ & Hc' & H1 & H2 & H3 & H4).
    exists c. done.
Qed.

End CityRows.

Lemma city_table_rows_witness :
  preprocess_data Demo.to_datetime_value Demo.accidents = Ok Demo.processed ∧
  well_formed Demo.accidents = true ∧
  has_col Demo.accidents "City" = true ∧
  ∃ sc cc states cities counts,
    get_col (main_data Demo.processed) "State" = Ok sc ∧
    get_col (main_data Demo.processed) "City" = Ok cc ∧
    get_col (city_data Demo.processed) "State" = Ok states ∧
    get_col (city_data Demo.processed) "City" = Ok cities ∧
    get_col (city_data Demo.processed) "Accident_Count" = Ok (Int64 counts) ∧
    NoDup (zip (cells states) (cells cities)) ∧
    ∀ i s, cells states !! i = Some s →
      ∃ c, cells cities !! i = Some c ∧ s ≠ CNaN ∧ c ≠ CNaN ∧
        (s, c) ∈ zip (cells sc) (cells cc) ∧
        counts !! i
        = Some (Z.of_nat (length (filter ((s, c) =.) (zip (cells sc) (cells cc))))).
Proof.
  assert (preprocess_data Demo.to_datetime_value Demo.accidents = Ok Demo.processed)
    as H by (vm_compute; reflexivity).
  split; [exact H|]. split; [reflexivity|]. split; [reflexivity|].
  exact (city_table_rows Demo.to_datetime_value Demo.accidents Demo.processed
           H eq_refl eq_refl).
Defined.
